(** * The refactoring agent: tools, action protocol, conversation loop, batch runner

  A shallow embedding of [refactoring_agent/agent_system.py] and
  [refactoring_agent/gem_refactor_runner.py], with the provider
  configuration of [refactoring_agent/provider_config.py] and the batch loop
  of [refactoring_agent/cli.py] that they are used with.

  Conventions of the embedding.
  - A Python [str] is a Rocq [string]; each character stands for the Unicode
    code point of the same number (0..255).  All of these are encodable in
    UTF-8, so the text layer of [open(..., encoding='utf-8')] can neither
    fail to encode what is written nor fail to decode what it wrote; texts
    with other code points (a lone surrogate, which cannot be encoded) are
    outside the embedding.
  - The process state is a [world]: the file system (a finite map from
    normalised absolute paths to nodes, without symbolic links or permission
    bits) and the current working directory.  A path that holds the
    character of code 0 is refused as Python refuses it: the calls that
    raise [ValueError] raise it, and [os.path.exists] and [os.path.isfile]
    answer false.  The system itself sets no limit: names are of any
    length, and there is always room to write.
  - Python exceptions are values of [pyexc]; code that can raise returns an
    [outcome], and stateful code threads the [world] explicitly.
  - Library and remote calls whose behaviour the repository does not define
    ([json.loads], [json.dumps], [subprocess.run], [os.listdir] and
    [os.access] as permission checks, the model provider) and the [try]
    blocks of the read-only analysis tools are the fields of the class
    [Oracles]; the time stamp and the text of the report that the runner
    saves are the fields of the class [Reporting].  The definitions and
    theorems hold for every instance. *)

From Stdlib Require Import Ascii ZArith Lia Bool Sorted.
From stdpp Require Import base option list strings gmap pretty.

(** ** Python values *)

Module Py.

(** JSON-shaped Python values; a [dict] keeps its insertion order. *)
#[local] Unset Elimination Schemes.
Inductive pyval : Type :=
| VNone
| VBool (b : bool)
| VInt (z : Z)
| VStr (s : string)
| VList (l : list pyval)
| VDict (d : list (string * pyval)).
#[local] Set Elimination Schemes.

Definition pydict : Type := list (string * pyval).

(** [bool(v)] *)
Definition truthy (v : pyval) : bool :=
  match v with
  | VNone => false
  | VBool b => b
  | VInt z => negb (z =? 0)%Z
  | VStr s => negb (String.eqb s "")
  | VList l => negb (bool_decide (l = []))
  | VDict d => negb (bool_decide (d = []))
  end.

Definition type_name (v : pyval) : string :=
  match v with
  | VNone => "NoneType"
  | VBool _ => "bool"
  | VInt _ => "int"
  | VStr _ => "str"
  | VList _ => "list"
  | VDict _ => "dict"
  end.

(** [d.get(k)] *)
Fixpoint dict_get (k : string) (d : pydict) : option pyval :=
  match d with
  | [] => None
  | (k', v) :: d' => if String.eqb k k' then Some v else dict_get k d'
  end.

(** [d[k] = v]: an existing key keeps its position, a new one goes last. *)
Fixpoint dict_set (k : string) (v : pyval) (d : pydict) : pydict :=
  match d with
  | [] => [(k, v)]
  | (k', v') :: d' =>
      if String.eqb k k' then (k, v) :: d' else (k', v') :: dict_set k v d'
  end.

(** Exceptions: the class and [str(e)]. *)
Inductive exc_class : Type :=
| TypeError
| FileNotFoundError
| FileExistsError
| IsADirectoryError
| NotADirectoryError
| PermissionError
| UnicodeDecodeError
| TimeoutExpired
| ValueError
| KeyError
| RecursionError
| OtherException.

Record pyexc : Type := Exc { exc_cls : exc_class; exc_msg : string }.

Definition str_exc (e : pyexc) : string := exc_msg e.

(** The result of code that may raise. *)
Inductive outcome (A : Type) : Type :=
| Ok (a : A)
| Raise (e : pyexc).
Arguments Ok {A} a.
Arguments Raise {A} e.

Definition raises {A} (o : outcome A) : bool :=
  match o with Ok _ => false | Raise _ => true end.

(** *** [str] methods *)

(** [c.isspace()] on the code points below 256. *)
Definition isspace (c : ascii) : bool :=
  let n := nat_of_ascii c in
  ((9 <=? n) && (n <=? 13)) || ((28 <=? n) && (n <=? 32))
  || (n =? 133) || (n =? 160).

Fixpoint lstrip (s : string) : string :=
  match s with
  | EmptyString => EmptyString
  | String c r => if isspace c then lstrip r else s
  end.

Fixpoint rstrip (s : string) : string :=
  match s with
  | EmptyString => EmptyString
  | String c r =>
      match rstrip r with
      | EmptyString => if isspace c then EmptyString else String c EmptyString
      | r' => String c r'
      end
  end.

(** [s.strip()] *)
Definition strip (s : string) : string := rstrip (lstrip s).

(** [s.startswith(p)] *)
Fixpoint startswith (s p : string) {struct p} : bool :=
  match p with
  | EmptyString => true
  | String a p' =>
      match s with
      | EmptyString => false
      | String b s' => Ascii.eqb a b && startswith s' p'
      end
  end.

Fixpoint endswith_char (s : string) (c : ascii) : bool :=
  match s with
  | EmptyString => false
  | String d EmptyString => Ascii.eqb d c
  | String _ r => endswith_char r c
  end.

(** [s.split(sep)] for a one-character separator. *)
Fixpoint split (sep : ascii) (s : string) : list string :=
  match s with
  | EmptyString => [EmptyString]
  | String c r =>
      if Ascii.eqb c sep then EmptyString :: split sep r
      else match split sep r with
           | [] => [String c EmptyString]
           | h :: t => String c h :: t
           end
  end.

(** [sep.join(l)] *)
Fixpoint join (sep : string) (l : list string) : string :=
  match l with
  | [] => EmptyString
  | [x] => x
  | x :: r => x +:+ sep +:+ join sep r
  end.

(** [s.replace(old, '')] for a non-empty [old]: every occurrence, scanning
    from the left, is removed.  [skip] counts the characters of an
    occurrence still to be dropped. *)
Fixpoint remove_from (skip : nat) (old s : string) : string :=
  match s with
  | EmptyString => EmptyString
  | String c r =>
      match skip with
      | S k => remove_from k old r
      | O =>
          if startswith s old
          then remove_from (String.length old - 1) old r
          else String c (remove_from 0 old r)
      end
  end.

Definition remove_all (old s : string) : string := remove_from 0 old s.

(** [c.lower()] on the code points below 256. *)
Definition lower_char (c : ascii) : ascii :=
  let n := nat_of_ascii c in
  if ((65 <=? n) && (n <=? 90))
     || ((192 <=? n) && (n <=? 222) && negb (n =? 215))
  then ascii_of_nat (n + 32) else c.

Fixpoint lower (s : string) : string :=
  match s with
  | EmptyString => EmptyString
  | String c r => String (lower_char c) (lower r)
  end.

(** [p in s] *)
Fixpoint contains (s p : string) : bool :=
  match s with
  | EmptyString => startswith EmptyString p
  | String _ r => startswith s p || contains r p
  end.

(** [s.count(c)] for a one-character [c]. *)
Fixpoint count_char (c : ascii) (s : string) : nat :=
  match s with
  | EmptyString => 0
  | String d r => (if Ascii.eqb d c then 1 else 0) + count_char c r
  end.

Definition LF : ascii := ascii_of_nat 10.
Definition CR : ascii := ascii_of_nat 13.
Definition newline : string := String LF EmptyString.
Definition dquote : string := String (ascii_of_nat 34) EmptyString.

End Py.

(** ** [posixpath] *)

Module PosixPath.
Import Py.

Definition slash : ascii := ascii_of_nat 47.

(** [os.path.isabs] *)
Definition isabs (p : string) : bool := startswith p "/".

(** [os.path.join(a, b)] *)
Definition join (a b : string) : string :=
  if startswith b "/" then b
  else if String.eqb a "" || endswith_char a slash then a +:+ b
  else a +:+ "/" +:+ b.

(** The component loop of [normpath]; [acc] is [new_comps] reversed. *)
Fixpoint norm_comps (absolute : bool) (comps acc : list string) : list string :=
  match comps with
  | [] => rev acc
  | comp :: rest =>
      if String.eqb comp "" || String.eqb comp "." then
        norm_comps absolute rest acc
      else if negb (String.eqb comp "..")
              || (negb absolute && bool_decide (acc = []))
              || match acc with
                 | last :: _ => String.eqb last ".."
                 | [] => false
                 end
      then norm_comps absolute rest (comp :: acc)
      else match acc with
           | _ :: acc' => norm_comps absolute rest acc'
           | [] => norm_comps absolute rest acc
           end
  end.

(** [os.path.normpath] *)
Definition normpath (path : string) : string :=
  if String.eqb path "" then "."
  else
    let initial_slashes :=
      if startswith path "/" then
        if startswith path "//" && negb (startswith path "///") then 2 else 1
      else 0 in
    let comps := norm_comps (negb (initial_slashes =? 0)) (split slash path) [] in
    let path' := Py.join "/" comps in
    let path' :=
      match initial_slashes with
      | 0 => path'
      | 1 => "/" +:+ path'
      | _ => "//" +:+ path'
      end in
    if String.eqb path' "" then "." else path'.

(** [os.path.abspath] with the working directory made explicit. *)
Definition abspath (cwd path : string) : string :=
  if isabs path then normpath path else normpath (join cwd path).

(** [head] of [os.path.split]: the text up to and including the last
    slash; [None] while no slash has been seen. *)
Fixpoint split_head (p : string) : option string :=
  match p with
  | EmptyString => None
  | String c r =>
      match split_head r with
      | Some h => Some (String c h)
      | None => if Ascii.eqb c slash then Some (String c EmptyString) else None
      end
  end.

Fixpoint rstrip_slash (s : string) : string :=
  match s with
  | EmptyString => EmptyString
  | String c r =>
      match rstrip_slash r with
      | EmptyString => if Ascii.eqb c slash then EmptyString else String c EmptyString
      | r' => String c r'
      end
  end.

(** [os.path.dirname] *)
Definition dirname (p : string) : string :=
  let head := default EmptyString (split_head p) in
  match rstrip_slash head with
  | EmptyString => head
  | h => h
  end.

End PosixPath.

(** ** The process state: file system and working directory *)

Module OS.
Import Py.

Inductive node : Type :=
| File (text : string)
| Dir.

(** The file system maps the components of a normalised absolute path to the
    node found there; the root, key [[]], is always a directory. *)
Record world : Type := World { fs : gmap (list string) node; cwd : string }.

Definition set_fs (w : world) (m : gmap (list string) node) : world :=
  {| fs := m; cwd := cwd w |}.

Definition set_cwd (w : world) (d : string) : world :=
  {| fs := fs w; cwd := d |}.

(** Stateful code that may raise: the world is threaded through, and a raise
    keeps the effects made before it. *)
Definition M (A : Type) : Type := world -> outcome A * world.

Definition ret {A} (a : A) : M A := fun w => (Ok a, w).

Definition raise {A} (e : pyexc) : M A := fun w => (Raise e, w).

Definition bind {A B} (m : M A) (k : A -> M B) : M B :=
  fun w =>
    match m w with
    | (Ok a, w') => k a w'
    | (Raise e, w') => (Raise e, w')
    end.

(** [try: m  except Exception as e: h e] *)
Definition try_except {A} (m : M A) (h : pyexc -> M A) : M A :=
  fun w =>
    match m w with
    | (Ok a, w') => (Ok a, w')
    | (Raise e, w') => h e w'
    end.

Definition lift {A} (o : outcome A) : M A := fun w => (o, w).

Declare Scope py_scope.
Delimit Scope py_scope with py.
Notation "x <- m ;; k" := (bind m (fun x => k))
  (at level 100, m at next level, right associativity) : py_scope.
Notation "m ;;; k" := (bind m (fun _ => k))
  (at level 100, right associativity) : py_scope.

(** The components under which the kernel finds a normalised absolute path. *)
Definition path_key (p : string) : list string :=
  filter (fun c => c <> EmptyString) (split PosixPath.slash p).

(** Whether a text holds the character of code 0.  No system call takes
    such a path: Python raises [ValueError] before the kernel is asked. *)
Fixpoint has_nul (s : string) : bool :=
  match s with
  | EmptyString => false
  | String c r => Ascii.eqb c (ascii_of_nat 0) || has_nul r
  end.

Definition embedded_null : pyexc := Exc ValueError "embedded null byte".

(** The node that the kernel finds under a key: the root is always there,
    and nothing is found where a component holds the character of code 0. *)
Definition node_at (m : gmap (list string) node) (k : list string) : option node :=
  match k with
  | [] => Some Dir
  | _ => if existsb has_nul k then None else m !! k
  end.

(** How a system call resolves its path argument: against the working
    directory, lexically (exact for the normalised absolute paths that the
    tools pass). *)
Definition resolve (w : world) (p : string) : list string :=
  path_key (PosixPath.abspath (cwd w) p).

Definition quoted (p : string) : string := "'" +:+ p +:+ "'".

Definition type_error {A} (what : string) (v : pyval) : M A :=
  raise (Exc TypeError (what +:+ ", not " +:+ type_name v)).

Definition fspath_error {A} (v : pyval) : M A :=
  type_error "expected str, bytes or os.PathLike object" v.

(** [os.path.join] and [os.path.abspath] on arbitrary values: anything but a
    [str] raises [TypeError]. *)
Definition os_path_join (a b : pyval) : M string :=
  match a, b with
  | VStr x, VStr y => ret (PosixPath.join x y)
  | VStr _, _ => fspath_error b
  | _, _ => fspath_error a
  end.

Definition os_path_abspath (v : pyval) : M string :=
  match v with
  | VStr s => fun w => (Ok (PosixPath.abspath (cwd w) s), w)
  | _ => fspath_error v
  end.

(** [os.getcwd] *)
Definition os_getcwd : M string := fun w => (Ok (cwd w), w).

(** What [os.stat] finds for a path; [None] also where the call raises
    ([os.path.exists], [isfile] and [isdir] take every [OSError] and
    [ValueError] for an absent file). *)
Definition stat (p : string) (w : world) : option node :=
  if has_nul p then None else node_at (fs w) (resolve w p).

(** [os.path.exists], [os.path.isfile] *)
Definition os_path_exists (p : string) : M bool :=
  fun w => (Ok (bool_decide (is_Some (stat p w))), w).

Definition os_path_isfile (p : string) : M bool :=
  fun w => (Ok (match stat p w with
                | Some (File _) => true
                | _ => false
                end), w).

(** The length of the UTF-8 encoding of a text of code points below 256. *)
Fixpoint utf8_length (s : string) : Z :=
  match s with
  | EmptyString => 0%Z
  | String c r =>
      ((if (nat_of_ascii c <? 128)%nat then 1 else 2) + utf8_length r)%Z
  end.

(** [os.path.getsize]; the size reported for a directory is the usual block
    size (no caller in this file can observe it). *)
Definition os_path_getsize (p : string) : M Z :=
  fun w =>
    if has_nul p then (Raise embedded_null, w) else
    match node_at (fs w) (resolve w p) with
    | Some (File t) => (Ok (utf8_length t), w)
    | Some Dir => (Ok 4096%Z, w)
    | None =>
        (Raise (Exc FileNotFoundError
                  ("[Errno 2] No such file or directory: " +:+ quoted p)), w)
    end.

(** [os.chdir] *)
Definition os_chdir (p : string) : M unit :=
  fun w =>
    if has_nul p then (Raise embedded_null, w) else
    match node_at (fs w) (resolve w p) with
    | Some Dir => (Ok tt, set_cwd w (PosixPath.abspath (cwd w) p))
    | Some (File _) =>
        (Raise (Exc NotADirectoryError
                  ("[Errno 20] Not a directory: " +:+ quoted p)), w)
    | None =>
        (Raise (Exc FileNotFoundError
                  ("[Errno 2] No such file or directory: " +:+ quoted p)), w)
    end.

(** The [mkdir] calls of [os.makedirs(name, exist_ok=True)], outermost
    directory first: [done] is the key reached so far, [todo] the components
    still to create or to find.  The directories made before a call raises
    stay. *)
Fixpoint mkdir_chain (name : string) (m : gmap (list string) node)
    (done todo : list string) : outcome unit * gmap (list string) node :=
  match todo with
  | [] => (Ok tt, m)
  | c :: rest =>
      let k := done ++ [c] in
      if has_nul c then (Raise embedded_null, m)
      else
        match node_at m k with
        | Some Dir => mkdir_chain name m k rest
        | Some (File _) =>
            match rest with
            | [] => (Raise (Exc FileExistsError
                              ("[Errno 17] File exists: " +:+ quoted name)), m)
            | next :: _ =>
                (Raise (Exc NotADirectoryError
                          ("[Errno 20] Not a directory: "
                           +:+ quoted ("/" +:+ Py.join "/" (k ++ [next])))), m)
            end
        | None => mkdir_chain name (<[k := Dir]> m) k rest
        end
  end.

(** [os.makedirs(name, exist_ok=True)] *)
Definition os_makedirs (name : string) : M unit :=
  fun w =>
    let '(o, m) := mkdir_chain name (fs w) [] (resolve w name) in (o, set_fs w m).

(** [Path(p).mkdir(exist_ok=True)]: one directory, whose parent has to be
    there. *)
Definition path_mkdir (p : string) : M unit :=
  fun w =>
    if has_nul p then (Raise embedded_null, w) else
    let k := resolve w p in
    match node_at (fs w) k with
    | Some Dir => (Ok tt, w)
    | Some (File _) =>
        (Raise (Exc FileExistsError ("[Errno 17] File exists: " +:+ quoted p)), w)
    | None =>
        match node_at (fs w) (removelast k) with
        | Some Dir => (Ok tt, set_fs w (<[k := Dir]> (fs w)))
        | Some (File _) =>
            (Raise (Exc NotADirectoryError
                      ("[Errno 20] Not a directory: " +:+ quoted p)), w)
        | None =>
            (Raise (Exc FileNotFoundError
                      ("[Errno 2] No such file or directory: " +:+ quoted p)), w)
        end
    end.

(** [open(path, 'w', encoding='utf-8')]: the file is created or truncated. *)
Definition open_w (p : string) : M (list string) :=
  fun w =>
    if has_nul p then (Raise embedded_null, w) else
    let k := resolve w p in
    match node_at (fs w) k with
    | Some Dir =>
        (Raise (Exc IsADirectoryError
                  ("[Errno 21] Is a directory: " +:+ quoted p)), w)
    | _ =>
        match node_at (fs w) (removelast k) with
        | Some Dir => (Ok k, set_fs w (<[k := File EmptyString]> (fs w)))
        | Some (File _) =>
            (Raise (Exc NotADirectoryError
                      ("[Errno 20] Not a directory: " +:+ quoted p)), w)
        | None =>
            (Raise (Exc FileNotFoundError
                      ("[Errno 2] No such file or directory: " +:+ quoted p)), w)
        end
    end.

(** [f.write(content)] followed by the close of the [with] block.  In text
    mode on POSIX the characters are written as they are. *)
Definition file_write (k : list string) (content : pyval) : M unit :=
  match content with
  | VStr c => fun w => (Ok tt, set_fs w (<[k := File c]> (fs w)))
  | _ => type_error "write() argument must be str" content
  end.

(** Universal newlines, the default of [open(path, 'r')]: on input a
    carriage return, alone or followed by a line feed, becomes a line feed. *)
Fixpoint universal_newlines (s : string) : string :=
  match s with
  | EmptyString => EmptyString
  | String c r =>
      if Ascii.eqb c CR then
        match r with
        | String d r' =>
            if Ascii.eqb d LF then String LF (universal_newlines r')
            else String LF (universal_newlines r)
        | EmptyString => String LF EmptyString
        end
      else String c (universal_newlines r)
  end.

(** [with open(path, 'r', encoding='utf-8') as f: f.read()] *)
Definition read_text (p : string) : M string :=
  fun w =>
    if has_nul p then (Raise embedded_null, w) else
    match node_at (fs w) (resolve w p) with
    | Some (File t) => (Ok (universal_newlines t), w)
    | Some Dir =>
        (Raise (Exc IsADirectoryError
                  ("[Errno 21] Is a directory: " +:+ quoted p)), w)
    | None =>
        (Raise (Exc FileNotFoundError
                  ("[Errno 2] No such file or directory: " +:+ quoted p)), w)
    end.

End OS.

(** ** [agent_system.py] *)

Module Agent.
Import Py OS.
Local Open Scope py_scope.

(** One entry of the conversation history. *)
Record message : Type := Message { role : string; content : string }.

(** What [subprocess.run(..., capture_output=True, text=True)] returns. *)
Record completed_process : Type :=
  Completed { returncode : Z; stdout : string; stderr : string }.

(** What [json.loads] does with a text: it returns a value, it raises
    [json.JSONDecodeError], or it raises something else ([RecursionError] on
    a text nested too deep, [ValueError] on an integer of too many
    digits). *)
Inductive json_result : Type :=
| JsonValue (v : pyval)
| JsonDecodeError
| JsonRaises (e : pyexc).

(** The collaborators that the repository calls but does not define. *)
Class Oracles : Type := {
  (** [json.loads] *)
  json_loads : string -> json_result;
  (** [json.dumps(v, indent=2)] *)
  json_dumps : pyval -> string;
  (** [str(v)] of a list or a dict *)
  py_repr : pyval -> string;
  (** [subprocess.run(command, shell=True, ..., timeout=60)] in the world it
      is started in: what it returns or raises, and the file system it
      leaves.  A child process cannot move its parent's working directory. *)
  subprocess_run :
    pyval -> world -> outcome completed_process * gmap (list string) node;
  (** The [try] blocks of the three tools that only read, on their
      arguments: the mapping that the block returns, or what it raises. *)
  list_directory_body : pyval -> pyval -> world -> outcome pydict;
  analyze_ruby_code_body : pyval -> pyval -> world -> outcome pydict;
  analyze_gem_structure_body : pyval -> world -> outcome pydict;
  (** What [os.listdir] raises on an existing directory, if anything, and
      [os.access(path, os.W_OK)]: the two permission checks of
      [validate_workspace_directory].  The file system of a [world] carries
      no permission bits; the file tools are modelled on files and
      directories that the process may read and write. *)
  listdir_error : string -> world -> option pyexc;
  access_w_ok : string -> world -> bool;
  (** The provider call of one iteration, [client.messages.create] or
      [client.chat.completions.create] followed by the extraction of the
      reply text, as a function of the system prompt and the history. *)
  client_create : string -> list message -> outcome string;
  (** [_get_refactoring_instruction(task_type, instruction=...)] *)
  get_refactoring_instruction : string -> option string -> string;
  (** The system prompt, from the validated workspace and the instruction. *)
  system_prompt_of : string -> string -> string
}.

(** The mapping that [validate_workspace_directory] returns. *)
Record validation : Type := Validation {
  valid : bool;
  path : string;
  error : option string;
  validation_message : string
}.

(** [validate_workspace_directory].  [None] and the empty string, both
    false in Python, are the empty string here.  Of the calls in the [try]
    block only [os.listdir] can raise on a [str]; what it raises other than
    [PermissionError] reaches the outer [except Exception]. *)
Definition validate_workspace_directory {oracles : Oracles}
    (workspace_dir : string) (w : world) : validation :=
  if negb (truthy (VStr workspace_dir)) then
    {| valid := true; path := cwd w; error := None;
       validation_message := "Using current working directory" |}
  else
    let abs_path := PosixPath.abspath (cwd w) (strip workspace_dir) in
    match stat abs_path w with
    | None =>
        {| valid := false; path := abs_path;
           error := Some "Directory does not exist";
           validation_message := "Directory " +:+ abs_path +:+ " does not exist" |}
    | Some (File _) =>
        {| valid := false; path := abs_path;
           error := Some "Path is not a directory";
           validation_message :=
             "Path " +:+ abs_path +:+ " exists but is not a directory" |}
    | Some Dir =>
        match listdir_error abs_path w with
        | Some e =>
            match exc_cls e with
            | PermissionError =>
                {| valid := false; path := abs_path;
                   error := Some "Permission denied";
                   validation_message :=
                     "Cannot access directory " +:+ abs_path
                     +:+ " - permission denied" |}
            | _ =>
                {| valid := false; path := workspace_dir;
                   error := Some (str_exc e);
                   validation_message :=
                     "Error validating directory: " +:+ str_exc e |}
            end
        | None =>
            if negb (access_w_ok abs_path w) then
              {| valid := false; path := abs_path;
                 error := Some "Directory not writable";
                 validation_message :=
                   "Directory " +:+ abs_path +:+ " is not writable" |}
            else
              {| valid := true; path := abs_path; error := None;
                 validation_message := "Valid workspace directory: " +:+ abs_path |}
        end
    end.

Section WithOracles.
Context {oracles : Oracles}.

(** [f"{v}"] *)
Definition fmt (v : pyval) : string :=
  match v with
  | VStr s => s
  | VNone => "None"
  | VBool true => "True"
  | VBool false => "False"
  | VInt z => pretty z
  | VList _ | VDict _ => py_repr v
  end.

Definition access_denied (file_path : string) : pydict :=
  [("success", VBool false);
   ("error", VStr "Access denied: file is outside workspace directory");
   ("message", VStr ("File " +:+ file_path +:+ " is outside the allowed workspace"))].

(** The opening of [FileReadTool.execute] and of [FileWriteTool.execute]
    (the same text in both): the path to use, or the access-denied result
    that the tool returns at once. *)
Definition locate (file_path workspace_dir : pyval) : M (pydict + pyval) :=
  if truthy workspace_dir then
    match file_path with
    | VStr p =>
        if PosixPath.isabs p then
          root <- os_path_abspath workspace_dir ;;
          if negb (startswith p root) then ret (inl (access_denied p))
          else ret (inr file_path)
        else
          joined <- os_path_join workspace_dir file_path ;;
          ret (inr (VStr joined))
    | _ => fspath_error file_path
    end
  else ret (inr file_path).

(** The [try] block of [FileReadTool.execute]. *)
Definition read_file_body (file_path workspace_dir : pyval) : M pydict :=
  target <- locate file_path workspace_dir ;;
  match target with
  | inl denied => ret denied
  | inr full_path =>
      full_path <- os_path_abspath full_path ;;
      found <- os_path_exists full_path ;;
      if negb found then
        ret [("success", VBool false); ("error", VStr "File not found");
             ("message", VStr ("File " +:+ fmt file_path +:+ " does not exist at "
                               +:+ full_path))]
      else
        regular <- os_path_isfile full_path ;;
        if negb regular then
          ret [("success", VBool false); ("error", VStr "Path is not a file");
               ("message", VStr ("Path " +:+ full_path +:+ " exists but is not a file"))]
        else
          content <- read_text full_path ;;
          ret [("success", VBool true); ("content", VStr content);
               ("file_path", VStr full_path);
               ("file_size", VInt (Z.of_nat (String.length content)));
               ("message", VStr ("Successfully read " +:+ fmt file_path +:+ " ("
                                 +:+ pretty (String.length content) +:+ " characters)"))]
  end.

(** The [except] clauses of [FileReadTool.execute]. *)
Definition read_file_except (file_path : pyval) (e : pyexc) : M pydict :=
  match exc_cls e with
  | UnicodeDecodeError =>
      ret [("success", VBool false);
           ("error", VStr ("File encoding error: " +:+ str_exc e));
           ("message", VStr ("Could not read " +:+ fmt file_path
                             +:+ " - file may be binary or use unsupported encoding"))]
  | PermissionError =>
      ret [("success", VBool false); ("error", VStr "Permission denied");
           ("message", VStr ("Permission denied reading " +:+ fmt file_path +:+ ": "
                             +:+ str_exc e))]
  | _ =>
      ret [("success", VBool false); ("error", VStr (str_exc e));
           ("message", VStr ("Failed to read " +:+ fmt file_path +:+ ": " +:+ str_exc e))]
  end.

(** [FileReadTool.execute] *)
Definition read_file (file_path workspace_dir : pyval) : M pydict :=
  try_except (read_file_body file_path workspace_dir) (read_file_except file_path).

(** The [try] block of [FileWriteTool.execute]. *)
Definition write_file_body (file_path content workspace_dir : pyval) : M pydict :=
  target <- locate file_path workspace_dir ;;
  match target with
  | inl denied => ret denied
  | inr full_path =>
      full_path <- os_path_abspath full_path ;;
      let dir_path := PosixPath.dirname full_path in
      (if truthy (VStr dir_path) then os_makedirs dir_path else ret tt) ;;;
      file_existed <- os_path_exists full_path ;;
      original_size <- (if file_existed then os_path_getsize full_path else ret 0%Z) ;;
      f <- open_w full_path ;;
      file_write f content ;;;
      match content with
      | VStr c =>
          let new_size := Z.of_nat (String.length c) in
          let lines := Z.of_nat (count_char LF c + 1) in
          ret [("success", VBool true); ("file_path", VStr full_path);
               ("file_existed", VBool file_existed);
               ("original_size", VInt original_size);
               ("new_size", VInt new_size); ("bytes_written", VInt new_size);
               ("lines_written", VInt lines);
               ("message", VStr ("Successfully "
                                 +:+ (if file_existed then "updated" else "created")
                                 +:+ " " +:+ fmt file_path +:+ " (" +:+ pretty new_size
                                 +:+ " bytes, " +:+ pretty lines +:+ " lines)"))]
      | _ => type_error "object of this type has no len()" content
      end
  end.

(** The [except] clauses of [FileWriteTool.execute]. *)
Definition write_file_except (file_path : pyval) (e : pyexc) : M pydict :=
  match exc_cls e with
  | PermissionError =>
      ret [("success", VBool false); ("error", VStr "Permission denied");
           ("message", VStr ("Permission denied writing to " +:+ fmt file_path +:+ ": "
                             +:+ str_exc e))]
  | _ =>
      ret [("success", VBool false); ("error", VStr (str_exc e));
           ("message", VStr ("Failed to write " +:+ fmt file_path +:+ ": " +:+ str_exc e))]
  end.

(** [FileWriteTool.execute] *)
Definition write_file (file_path content workspace_dir : pyval) : M pydict :=
  try_except (write_file_body file_path content workspace_dir)
             (write_file_except file_path).

(** [subprocess.run] as a step of the world. *)
Definition run_subprocess (command : pyval) : M completed_process :=
  fun w => let '(r, m) := subprocess_run command w in (r, set_fs w m).

(** [os.path.exists] and [os.chdir] on an arbitrary value (a value that is
    not a [str] is refused with [TypeError]). *)
Definition exists_value (v : pyval) : M bool :=
  match v with
  | VStr p => os_path_exists p
  | _ => fspath_error v
  end.

Definition chdir_value (v : pyval) : M unit :=
  match v with
  | VStr p => os_chdir p
  | _ => fspath_error v
  end.

(** The [try] block of [RunCommandTool.execute]. *)
Definition run_command_body (command workspace_dir : pyval) : M pydict :=
  original_cwd <- os_getcwd ;;
  (if truthy workspace_dir then
     there <- exists_value workspace_dir ;;
     if there then chdir_value workspace_dir else ret tt
   else ret tt) ;;;
  result <- run_subprocess command ;;
  (if truthy workspace_dir then os_chdir original_cwd else ret tt) ;;;
  ret [("success", VBool (returncode result =? 0)%Z);
       ("output", VStr (stdout result)); ("error", VStr (stderr result));
       ("return_code", VInt (returncode result)); ("command", command);
       ("message", VStr ("Command executed: " +:+ fmt command))].

(** The [except] clauses of [RunCommandTool.execute]. *)
Definition run_command_except (command : pyval) (e : pyexc) : M pydict :=
  match exc_cls e with
  | TimeoutExpired =>
      ret [("success", VBool false);
           ("error", VStr "Command timed out after 60 seconds");
           ("message", VStr ("Command timed out: " +:+ fmt command))]
  | _ =>
      ret [("success", VBool false); ("error", VStr (str_exc e));
           ("message", VStr ("Failed to run command " +:+ fmt command +:+ ": "
                             +:+ str_exc e))]
  end.

(** [RunCommandTool.execute] *)
Definition run_command (command workspace_dir : pyval) : M pydict :=
  try_except (run_command_body command workspace_dir) (run_command_except command).

(** A [try] block that only reads. *)
Definition reading (body : world -> outcome pydict) : M pydict :=
  fun w => (body w, w).

(** The [except Exception] clause of [DirectoryListTool.execute], of
    [RubyCodeAnalysisTool.execute] and of [GemStructureAnalysisTool.execute]. *)
Definition list_directory_except (dir_path : pyval) (e : pyexc) : M pydict :=
  ret [("success", VBool false); ("error", VStr (str_exc e));
       ("message", VStr ("Failed to list directory " +:+ fmt dir_path +:+ ": "
                         +:+ str_exc e))].

Definition analyze_ruby_code_except (file_path : pyval) (e : pyexc) : M pydict :=
  ret [("success", VBool false); ("error", VStr (str_exc e));
       ("message", VStr ("Failed to analyze " +:+ fmt file_path +:+ ": "
                         +:+ str_exc e))].

Definition analyze_gem_structure_except (e : pyexc) : M pydict :=
  ret [("success", VBool false); ("error", VStr (str_exc e));
       ("message", VStr ("Failed to analyze gem structure: " +:+ str_exc e))].

(** [DirectoryListTool.execute] *)
Definition list_directory (dir_path workspace_dir : pyval) : M pydict :=
  try_except (reading (list_directory_body dir_path workspace_dir))
             (list_directory_except dir_path).

(** [RubyCodeAnalysisTool.execute] *)
Definition analyze_ruby_code (file_path workspace_dir : pyval) : M pydict :=
  try_except (reading (analyze_ruby_code_body file_path workspace_dir))
             (analyze_ruby_code_except file_path).

(** [GemStructureAnalysisTool.execute] *)
Definition analyze_gem_structure (workspace_dir : pyval) : M pydict :=
  try_except (reading (analyze_gem_structure_body workspace_dir))
             analyze_gem_structure_except.

(** *** The registry and the call [tool.execute( **params)] *)

Inductive tool : Type :=
| FileReadTool
| FileWriteTool
| DirectoryListTool
| RunCommandTool
| RubyCodeAnalysisTool
| GemStructureAnalysisTool.

(** [self.tools], in insertion order. *)
Definition tools : list (string * tool) :=
  [("read_file", FileReadTool); ("write_file", FileWriteTool);
   ("list_directory", DirectoryListTool); ("run_command", RunCommandTool);
   ("analyze_ruby_code", RubyCodeAnalysisTool);
   ("analyze_gem_structure", GemStructureAnalysisTool)].

Fixpoint lookup_tool (name : string) (reg : list (string * tool)) : option tool :=
  match reg with
  | [] => None
  | (n, t) :: reg' => if String.eqb name n then Some t else lookup_tool name reg'
  end.

(** [type(tool).execute.__qualname__], as error messages show it. *)
Definition qualname (t : tool) : string :=
  match t with
  | FileReadTool => "FileReadTool.execute()"
  | FileWriteTool => "FileWriteTool.execute()"
  | DirectoryListTool => "DirectoryListTool.execute()"
  | RunCommandTool => "RunCommandTool.execute()"
  | RubyCodeAnalysisTool => "RubyCodeAnalysisTool.execute()"
  | GemStructureAnalysisTool => "GemStructureAnalysisTool.execute()"
  end.

(** The parameters of each [execute] after [self]: name and default, [None]
    for a parameter without default. *)
Definition signature (t : tool) : list (string * option pyval) :=
  match t with
  | FileReadTool => [("file_path", None); ("workspace_dir", Some VNone)]
  | FileWriteTool =>
      [("file_path", None); ("content", None); ("workspace_dir", Some VNone)]
  | DirectoryListTool => [("dir_path", Some (VStr ".")); ("workspace_dir", Some VNone)]
  | RunCommandTool => [("command", None); ("workspace_dir", Some VNone)]
  | RubyCodeAnalysisTool => [("file_path", None); ("workspace_dir", Some VNone)]
  | GemStructureAnalysisTool => [("workspace_dir", Some VNone)]
  end.

(** The first keyword that names no parameter of the signature. *)
Fixpoint unexpected_keyword (sig : list (string * option pyval)) (kwargs : pydict)
  : option string :=
  match kwargs with
  | [] => None
  | (k, _) :: rest =>
      if existsb (fun p => String.eqb k (fst p)) sig then unexpected_keyword sig rest
      else Some k
  end.

(** The parameters without default that the keywords leave without value. *)
Definition missing_arguments (sig : list (string * option pyval)) (kwargs : pydict)
  : list string :=
  omap (fun p : string * option pyval =>
          match snd p, dict_get (fst p) kwargs with
          | None, None => Some (fst p)
          | _, _ => None
          end) sig.

(** The names of a [TypeError] for missing arguments: ['a'], ['a' and 'b'],
    ['a', 'b', and 'c']. *)
Fixpoint listed (names : list string) : string :=
  match names with
  | [] => EmptyString
  | [a] => "and " +:+ quoted a
  | a :: rest => quoted a +:+ ", " +:+ listed rest
  end.

Definition missing_text (names : list string) : string :=
  pretty (length names) +:+ " required positional argument"
  +:+ (if length names =? 1 then EmptyString else "s") +:+ ": "
  +:+ match names with
      | [a] => quoted a
      | [a; b] => quoted a +:+ " and " +:+ quoted b
      | _ => listed names
      end.

(** The value of each parameter, in the order of the signature. *)
Definition collect_arguments (sig : list (string * option pyval)) (kwargs : pydict)
  : list pyval :=
  map (fun p : string * option pyval =>
         match dict_get (fst p) kwargs with
         | Some v => v
         | None => default VNone (snd p)
         end) sig.

(** Python's binding of keyword arguments to the parameters of the method
    [qualname]. *)
Definition bind_arguments (qualname : string) (sig : list (string * option pyval))
    (kwargs : pydict) : outcome (list pyval) :=
  match unexpected_keyword sig kwargs with
  | Some k =>
      if String.eqb k "self" then
        Raise (Exc TypeError (qualname +:+ " got multiple values for argument 'self'"))
      else
        Raise (Exc TypeError
                 (qualname +:+ " got an unexpected keyword argument " +:+ quoted k))
  | None =>
      match missing_arguments sig kwargs with
      | [] => Ok (collect_arguments sig kwargs)
      | missing =>
          Raise (Exc TypeError (qualname +:+ " missing " +:+ missing_text missing))
      end
  end.

Definition argument (n : nat) (args : list pyval) : pyval := default VNone (args !! n).

(** The body of each tool on bound arguments. *)
Definition execute (t : tool) (args : list pyval) : M pydict :=
  match t with
  | FileReadTool => read_file (argument 0 args) (argument 1 args)
  | FileWriteTool => write_file (argument 0 args) (argument 1 args) (argument 2 args)
  | DirectoryListTool => list_directory (argument 0 args) (argument 1 args)
  | RunCommandTool => run_command (argument 0 args) (argument 1 args)
  | RubyCodeAnalysisTool => analyze_ruby_code (argument 0 args) (argument 1 args)
  | GemStructureAnalysisTool => analyze_gem_structure (argument 0 args)
  end.

(** [await self.tools[tool_name].execute( **params)] *)
Definition call_tool (t : tool) (params : pyval) : M pydict :=
  match params with
  | VDict kwargs =>
      args <- lift (bind_arguments (qualname t) (signature t) kwargs) ;;
      execute t args
  | _ =>
      type_error ("agent_system." +:+ qualname t
                  +:+ " argument after ** must be a mapping") params
  end.

(** *** The action protocol *)

Record action : Type :=
  Action { toolName : string; params : pyval; reasoning : string }.

(** The locals of the scanning loop of [_parse_and_execute_action]. *)
Record scan : Type := Scan {
  action_found : bool;
  tool_name : option string;
  scan_params : pyval;
  scan_reasoning : string
}.

Definition scan_start : scan :=
  {| action_found := false; tool_name := None;
     scan_params := VDict []; scan_reasoning := EmptyString |}.

(** One turn of [for i, line in enumerate(lines)].  The [try] around
    [json.loads] has the one clause [except json.JSONDecodeError]; whatever
    else [json.loads] raises leaves the scan. *)
Definition scan_line (st : scan) (line : string) : outcome scan :=
  let line := strip line in
  if startswith line "ACTION:" then
    Ok {| action_found := true;
          tool_name := Some (strip (remove_all "ACTION:" line));
          scan_params := scan_params st; scan_reasoning := scan_reasoning st |}
  else if startswith line "PARAMS:" && action_found st then
    match json_loads (strip (remove_all "PARAMS:" line)) with
    | JsonValue v =>
        Ok {| action_found := action_found st; tool_name := tool_name st;
              scan_params := v; scan_reasoning := scan_reasoning st |}
    | JsonDecodeError =>
        Ok {| action_found := action_found st; tool_name := tool_name st;
              scan_params := VDict []; scan_reasoning := scan_reasoning st |}
    | JsonRaises e => Raise e
    end
  else if startswith line "REASONING:" && action_found st then
    Ok {| action_found := action_found st; tool_name := tool_name st;
          scan_params := scan_params st;
          scan_reasoning := strip (remove_all "REASONING:" line) |}
  else Ok st.

(** The loop over the lines, from the locals [st]. *)
Fixpoint scan_from (st : scan) (lines : list string) : outcome scan :=
  match lines with
  | [] => Ok st
  | line :: rest =>
      match scan_line st line with
      | Ok st' => scan_from st' rest
      | Raise e => Raise e
      end
  end.

Definition scan_lines (lines : list string) : outcome scan := scan_from scan_start lines.

(** The test [action_found and tool_name] that guards the dispatch, on the
    locals at the end of the scan. *)
Definition action_of (st : scan) : option action :=
  match tool_name st with
  | Some name =>
      if action_found st && truthy (VStr name) then
        Some {| toolName := name; params := scan_params st;
                reasoning := scan_reasoning st |}
      else None
  | None => None
  end.

(** The parser: the scan of the reply, then the guard. *)
Definition parse_action (ai_response : string) : outcome (option action) :=
  match scan_lines (split LF ai_response) with
  | Ok st => Ok (action_of st)
  | Raise e => Raise e
  end.

(** [params['workspace_dir'] = workspace_dir] *)
Definition set_workspace_dir (params : pyval) (workspace_dir : string) : M pyval :=
  match params with
  | VDict d => ret (VDict (dict_set "workspace_dir" (VStr workspace_dir) d))
  | VList _ =>
      raise (Exc TypeError "list indices must be integers or slices, not str")
  | _ =>
      raise (Exc TypeError
               (quoted (type_name params) +:+ " object does not support item assignment"))
  end.

(** What [_parse_and_execute_action] returns for an action. *)
Record action_result : Type := ActionResult {
  ar_action : string;
  ar_params : pyval;
  ar_result : pydict;
  ar_reasoning : string
}.

(** The dispatch: the part of [_parse_and_execute_action] under
    [if action_found and tool_name]. *)
Definition dispatch (a : action) (workspace_dir : string) : M action_result :=
  params <- (if truthy (VStr workspace_dir)
             then set_workspace_dir (params a) workspace_dir
             else ret (params a)) ;;
  match lookup_tool (toolName a) tools with
  | Some t =>
      result <- call_tool t params ;;
      ret {| ar_action := toolName a; ar_params := params; ar_result := result;
             ar_reasoning := reasoning a |}
  | None =>
      ret {| ar_action := toolName a; ar_params := params;
             ar_result :=
               [("success", VBool false);
                ("error", VStr ("Unknown tool: " +:+ toolName a));
                ("available_tools", VList (map (fun p => VStr (fst p)) tools))];
             ar_reasoning := reasoning a |}
  end.

(** [RefactoringAgent._parse_and_execute_action] *)
Definition parse_and_execute_action (ai_response workspace_dir : string)
  : M (option action_result) :=
  match parse_action ai_response with
  | Ok (Some a) => r <- dispatch a workspace_dir ;; ret (Some r)
  | Ok None => ret None
  | Raise e => raise e
  end.

(** *** The conversation loop *)

Definition max_iterations : nat := 15.

Definition completion_indicators : list string :=
  ["refactoring complete"; "task complete"; "mission accomplished";
   "all changes applied"].

(** [any(indicator in ai_response.lower() for indicator in completion_indicators)] *)
Definition seems_complete (ai_response : string) : bool :=
  existsb (fun indicator => contains (lower ai_response) indicator)
          completion_indicators.

Definition encouragement : string :=
  newline +:+ "No action detected. For refactoring tasks you must:" +:+ newline
  +:+ "- Use tools to analyze and modify code" +:+ newline
  +:+ "- Start each action with: ACTION: tool_name" +:+ newline
  +:+ "- Follow with: PARAMS: {" +:+ dquote +:+ "param" +:+ dquote +:+ ": "
  +:+ dquote +:+ "value" +:+ dquote +:+ "}  " +:+ newline
  +:+ "- Add: REASONING: explanation" +:+ newline +:+ newline
  +:+ "Continue with your next refactoring action.".

(** The user turn that reports a tool result back to the model. *)
Definition result_message (r : action_result) : string :=
  "Tool '" +:+ ar_action r +:+ "' executed." +:+ newline
  +:+ "Reasoning: " +:+ ar_reasoning r +:+ newline
  +:+ "Result: " +:+ json_dumps (VDict (ar_result r)) +:+ newline
  +:+ (if negb (truthy (default (VBool true) (dict_get "success" (ar_result r))))
       then newline
            +:+ "**ERROR**: The tool execution failed. Please analyze the error and try a different approach."
       else EmptyString)
  +:+ newline
  +:+ "Continue with the next action to complete your refactoring mission.".

(** The locals of [execute_refactoring_task] that the loop changes, and two
    ghost fields: [calls] counts the provider calls made, [replies] lists
    the replies received, oldest first. *)
Record conversation : Type := Conversation {
  messages : list message;
  actions_taken : list string;
  ai_response : string;
  iteration : nat;
  calls : nat;
  replies : list string
}.

Definition conversation_start (instruction : string) : conversation :=
  {| messages := [Message "user" instruction]; actions_taken := [];
     ai_response := EmptyString; iteration := 0; calls := 0; replies := [] |}.

(** [for iteration in range(max_iterations)], by recursion on the number of
    iterations that remain.  The exception, if one is raised, comes with the
    locals as they were when it was raised. *)
Fixpoint conversation_loop (system_prompt workspace : string)
    (remaining this : nat) (c : conversation) (w : world)
  : conversation * option pyexc * world :=
  match remaining with
  | O => (c, None, w)
  | S remaining' =>
      let c :=
        {| messages := messages c; actions_taken := actions_taken c;
           ai_response := ai_response c; iteration := this;
           calls := S (calls c); replies := replies c |} in
      match client_create system_prompt (messages c) with
      | Raise e => (c, Some e, w)
      | Ok reply =>
          let c :=
            {| messages := messages c; actions_taken := actions_taken c;
               ai_response := reply; iteration := this;
               calls := calls c; replies := replies c ++ [reply] |} in
          match parse_and_execute_action reply workspace w with
          | (Raise e, w') => (c, Some e, w')
          | (Ok (Some r), w') =>
              let c :=
                {| messages :=
                     messages c ++ [Message "assistant" reply;
                                    Message "user" (result_message r)];
                   actions_taken := actions_taken c ++ [ar_action r];
                   ai_response := reply; iteration := this;
                   calls := calls c; replies := replies c |} in
              if seems_complete reply then (c, None, w')
              else conversation_loop system_prompt workspace remaining' (S this) c w'
          | (Ok None, w') =>
              let c :=
                {| messages :=
                     messages c ++ [Message "assistant" reply]
                     ++ (if this <? max_iterations - 1
                         then [Message "user" encouragement] else []);
                   actions_taken := actions_taken c;
                   ai_response := reply; iteration := this;
                   calls := calls c; replies := replies c |} in
              (c, None, w')
          end
      end
  end.

(** The conversation of one task in a valid workspace: from the first
    message to the end of the loop. *)
Definition run_conversation (task_type validated_workspace : string)
    (instruction_kw : option string) (w : world)
  : conversation * option pyexc * world :=
  let instruction := get_refactoring_instruction task_type instruction_kw in
  let system_prompt := system_prompt_of validated_workspace instruction in
  conversation_loop system_prompt validated_workspace max_iterations 0
                    (conversation_start instruction) w.

Definition str_list (l : list string) : pyval := VList (map VStr l).

(** [RefactoringAgent.execute_refactoring_task] *)
Definition execute_refactoring_task (task_type workspace_dir : string)
    (instruction_kw : option string) (w : world) : pydict * world :=
  let workspace_validation := validate_workspace_directory workspace_dir w in
  if negb (valid workspace_validation) then
    ([("success", VBool false);
      ("error", VStr (default EmptyString (error workspace_validation)));
      ("actions", VList []); ("primaryAction", VStr "error");
      ("workspace_error", VStr (validation_message workspace_validation))], w)
  else
    let validated_workspace := path workspace_validation in
    match run_conversation task_type validated_workspace instruction_kw w with
    | (c, None, w') =>
        ([("success", VBool true); ("result", VStr (ai_response c));
          ("actions", str_list (actions_taken c));
          ("primaryAction", VStr (default "analysis" (head (actions_taken c))));
          ("task_type", VStr task_type);
          ("iterations", VInt (Z.of_nat (iteration c + 1)))], w')
    | (c, Some e, w') =>
        ([("success", VBool false); ("error", VStr (str_exc e));
          ("actions", str_list (actions_taken c));
          ("primaryAction", VStr "error"); ("task_type", VStr task_type)], w')
    end.

End WithOracles.

(** What the constructors of the agent and of the runner raise. *)
Inductive init_error : Type :=
| ValueError (msg : string)
| RuntimeError (msg : string)
| AttributeError (msg : string).

(** [RefactoringAgent.__init__]: the provider, the key and the model that
    the agent keeps; building the client of a supported provider is taken
    not to raise. *)
Definition agent_init (provider api_key model : string)
  : init_error + string * string * string :=
  if String.eqb provider "anthropic" then inr (provider, api_key, model)
  else if String.eqb provider "openrouter" || String.eqb provider "moonshot"
  then inr (provider, api_key, model)
  else inl (ValueError ("Unsupported provider: " +:+ provider)).

End Agent.

(** ** [provider_config.py] *)

Module Provider.

(** The dataclass [ProviderConfig]. *)
Record ProviderConfig : Type := {
  name : string;
  provider_type : string;
  api_key : string;
  model : string;
  description : string;
  base_url : option string
}.

Definition set_api_key (config : ProviderConfig) (k : string) : ProviderConfig :=
  {| name := name config; provider_type := provider_type config; api_key := k;
     model := model config; description := description config;
     base_url := base_url config |}.

Definition set_model (config : ProviderConfig) (m : string) : ProviderConfig :=
  {| name := name config; provider_type := provider_type config;
     api_key := api_key config; model := m; description := description config;
     base_url := base_url config |}.

(** What the process finds around it: the environment, the answer typed at
    the [getpass] prompt ([None] stands for [KeyboardInterrupt]),
    [str.upper], and whether the configuration file can be written
    ([_save_config] swallows every exception). *)
Class Host : Type := {
  getenv : string -> option string;
  getpass : string -> option string;
  str_upper : string -> string;
  save_succeeds : bool
}.

(** The data of the configuration file: the providers and
    [current_provider]. *)
Definition file_data : Type := gmap string ProviderConfig * option string.

(** A [ProviderManager] and the data that its file holds as far as the
    manager wrote it.  [configs] is a mapping from names; the order of its
    keys, which only the listing shows, is not kept.  The values are strings
    as the annotations say. *)
Record ProviderManager : Type := {
  configs : gmap string ProviderConfig;
  current_provider : option string;
  config_file : option file_data
}.

(** The truth value of a string and of an optional string. *)
Definition nonempty (s : string) : bool := negb (String.eqb s "").

Definition given (o : option string) : bool :=
  match o with
  | Some s => nonempty s
  | None => false
  end.

Definition anthropic_default : ProviderConfig :=
  {| name := "anthropic"; provider_type := "anthropic"; api_key := "";
     model := "claude-3-sonnet-20240229";
     description := "Anthropic Claude via direct API"; base_url := None |}.

Definition openrouter_default : ProviderConfig :=
  {| name := "openrouter"; provider_type := "openrouter"; api_key := "";
     model := "anthropic/claude-3-sonnet";
     description := "Anthropic Claude via OpenRouter";
     base_url := Some "https://openrouter.ai/api/v1" |}.

Section WithHost.
Context {host : Host}.

(** [_save_config] *)
Definition save_config (m : ProviderManager) : ProviderManager :=
  if save_succeeds then
    {| configs := configs m; current_provider := current_provider m;
       config_file := Some (configs m, current_provider m) |}
  else m.

(** [_create_default_config], on a manager whose file holds [file]. *)
Definition create_default_config (current : option string) (file : option file_data)
  : ProviderManager :=
  let anthropic_key := getenv "ANTHROPIC_API_KEY" in
  let anthropic :=
    if given anthropic_key then set_api_key anthropic_default (default "" anthropic_key)
    else anthropic_default in
  let current := if given anthropic_key then Some "anthropic" else current in
  let openrouter_key := getenv "OPENROUTER_API_KEY" in
  let openrouter :=
    if given openrouter_key then set_api_key openrouter_default (default "" openrouter_key)
    else openrouter_default in
  let current :=
    if given openrouter_key && negb (given current) then Some "openrouter" else current in
  save_config {| configs := <[ "anthropic" := anthropic ]>
                              (<[ "openrouter" := openrouter ]> ∅);
                 current_provider := current;
                 config_file := file |}.

(** What [_load_config] finds at the path of the configuration file: no
    file, a file that [json.load] or the constructor of [ProviderConfig]
    rejects, or the data of a file that loads. *)
Inductive found : Type :=
| Absent
| Unreadable
| Stored (data : file_data).

(** [ProviderManager.__init__] with [_load_config].  A file that cannot be
    loaded leaves [current_provider] at [None], since it is set last. *)
Definition new_manager (file : found) : ProviderManager :=
  match file with
  | Stored data =>
      {| configs := data.1; current_provider := data.2; config_file := Some data |}
  | Unreadable => create_default_config None None
  | Absent => create_default_config None None
  end.

(** The first step of [setup_provider]: the configuration that it works
    on. *)
Definition config_to_set_up (m : ProviderManager) (provider_name : string)
  : option ProviderConfig :=
  match configs m !! provider_name with
  | Some config => Some config
  | None =>
      if String.eqb provider_name "anthropic" then Some anthropic_default
      else if String.eqb provider_name "openrouter" then Some openrouter_default
      else None
  end.

(** Its second step, the API key; [None] when the prompt is interrupted. *)
Definition update_api_key (provider_name : string) (key : option string)
    (config : ProviderConfig) : option ProviderConfig :=
  if given key then Some (set_api_key config (default "" key))
  else if negb (nonempty (api_key config)) then
    let env_key :=
      if String.eqb provider_name "openrouter" then "OPENROUTER_API_KEY"
      else str_upper provider_name +:+ "_API_KEY" in
    let env_api_key := getenv env_key in
    if given env_api_key then Some (set_api_key config (default "" env_api_key))
    else
      match getpass ("Enter API key for " +:+ provider_name +:+ ": ") with
      | Some typed => Some (set_api_key config typed)
      | None => None
      end
  else Some config.

(** [setup_provider].  The configuration of a name that is in [configs] is
    the object that [configs] holds, so what is assigned to its fields is in
    [configs] at once, also when the key turns out to be missing; a
    configuration made for a new name is put there at the end only. *)
Definition setup_provider (m : ProviderManager) (provider_name : string)
    (key new_model : option string) : bool * ProviderManager :=
  match config_to_set_up m provider_name with
  | None => (false, m)
  | Some config =>
      let shared := bool_decide (is_Some (configs m !! provider_name)) in
      match update_api_key provider_name key config with
      | None => (false, m)
      | Some config =>
          let config :=
            if given new_model then set_model config (default "" new_model)
            else config in
          if negb (nonempty (api_key config)) then
            (false,
             if shared then
               {| configs := <[ provider_name := config ]> (configs m);
                  current_provider := current_provider m;
                  config_file := config_file m |}
             else m)
          else
            (true,
             save_config
               {| configs := <[ provider_name := config ]> (configs m);
                  current_provider :=
                    if given (current_provider m) then current_provider m
                    else Some provider_name;
                  config_file := config_file m |})
      end
  end.

(** [set_provider] *)
Definition set_provider (m : ProviderManager) (provider_name : string)
  : bool * ProviderManager :=
  match configs m !! provider_name with
  | Some config =>
      if nonempty (api_key config) then
        (true, save_config {| configs := configs m;
                              current_provider := Some provider_name;
                              config_file := config_file m |})
      else (false, m)
  | None => (false, m)
  end.

End WithHost.

(** [get_current_config] *)
Definition get_current_config (m : ProviderManager) : option ProviderConfig :=
  match current_provider m with
  | Some p => if nonempty p then configs m !! p else None
  | None => None
  end.

(** [get_claude_code_options], as the list of its items. *)
Definition get_claude_code_options (m : ProviderManager) : list (string * string) :=
  match get_current_config m with
  | None => []
  | Some config =>
      ("model", model config)
      :: (if String.eqb (provider_type config) "anthropic"
          then [("anthropic_api_key", api_key config)]
          else if String.eqb (provider_type config) "openrouter"
          then ("openrouter_api_key", api_key config)
               :: (if given (base_url config)
                   then [("base_url", default "" (base_url config))] else [])
          else [])
  end.

(** [ensure_provider_setup], of the manager [m]. *)
Definition ensure_provider_setup (m : ProviderManager) : bool :=
  match get_current_config m with
  | None => false
  | Some config => nonempty (api_key config)
  end.

End Provider.

(** ** [gem_refactor_runner.py] *)

Module Runner.
Import Py OS Agent.
Local Open Scope py_scope.

(** The dataclass [GemRefactorTask]. *)
Record GemRefactorTask : Type := {
  task_type : string;
  priority : Z;
  description : string;
  files_focus : list string;
  success_criteria : list string;
  dependencies : option (list string)
}.

(** One element of [results]: the mapping returned for the task, and the
    keys that the runner adds to it ([timestamp], the wall-clock time, is left
    out). *)
Record task_entry : Type := {
  result : pydict;
  task_info : GemRefactorTask;
  success_criteria_verification : option (list (string * string))
}.

(** [r.get("success")] and [result["success"]], as a truth value. *)
Definition succeeded (r : pydict) : bool :=
  truthy (default VNone (dict_get "success" r)).

(** [{r["task_type"] for r in completed_results if r.get("success")}], as
    the list of the strings in the set (a dependency is a string, so no
    other member can be it).  The subscript raises [KeyError] on the first
    successful result without the key, and a list or a mapping under the
    key cannot be put in a set. *)
Fixpoint completed_tasks (completed_results : list task_entry) : outcome (list string) :=
  match completed_results with
  | [] => Ok []
  | r :: rest =>
      if succeeded (result r) then
        match dict_get "task_type" (result r) with
        | None => Raise (Exc KeyError "'task_type'")
        | Some (VList _) => Raise (Exc TypeError "unhashable type: 'list'")
        | Some (VDict _) => Raise (Exc TypeError "unhashable type: 'dict'")
        | Some v =>
            match completed_tasks rest with
            | Ok done => Ok (match v with
                             | VStr t => t :: done
                             | _ => done
                             end)
            | Raise e => Raise e
            end
        end
      else completed_tasks rest
  end.

(** [_check_dependencies] *)
Definition check_dependencies (deps : list string) (completed_results : list task_entry)
  : outcome bool :=
  match completed_tasks completed_results with
  | Ok done => Ok (forallb (fun dep => existsb (String.eqb dep) done) deps)
  | Raise e => Raise e
  end.

(** [sorted(tasks, key=lambda t: t.priority)]: a stable sort, by insertion
    from the right. *)
Fixpoint insert_by_priority (t : GemRefactorTask) (l : list GemRefactorTask)
  : list GemRefactorTask :=
  match l with
  | [] => [t]
  | u :: l' =>
      if (priority t <=? priority u)%Z then t :: u :: l'
      else u :: insert_by_priority t l'
  end.

Fixpoint sorted_by_priority (tasks : list GemRefactorTask) : list GemRefactorTask :=
  match tasks with
  | [] => []
  | t :: rest => insert_by_priority t (sorted_by_priority rest)
  end.

(** [_analyze_task] *)
Definition analyze_task (task : GemRefactorTask) : pydict :=
  [("success", VBool true); ("task_type", VStr (task_type task));
   ("actions", VList [VStr ("Would analyze and refactor " +:+ task_type task)]);
   ("dry_run", VBool true);
   ("estimated_changes", VInt (Z.of_nat (length (files_focus task))))].

(** [_verify_success_criteria] *)
Definition verify_success_criteria (task : GemRefactorTask) : list (string * string) :=
  map (fun criterion => (criterion, "needs_manual_verification")) (success_criteria task).

(** The locals of [run_gem_refactor_plan] that its loop changes; [skipped]
    is a ghost field listing the tasks passed over, oldest first. *)
Record plan_state : Type := {
  results : list task_entry;
  successful_tasks : nat;
  skipped : list GemRefactorTask
}.

Definition plan_start : plan_state :=
  {| results := []; successful_tasks := 0; skipped := [] |}.

(** [task.dependencies and not self._check_dependencies(task.dependencies, results)] *)
Definition dependencies_unmet (task : GemRefactorTask) (results : list task_entry)
  : outcome bool :=
  match dependencies task with
  | None | Some [] => Ok false
  | Some deps =>
      match check_dependencies deps results with
      | Ok met => Ok (negb met)
      | Raise e => Raise e
      end
  end.

(** The summary mapping of [_generate_summary] ([timestamp] and the
    floating-point [success_rate] are left out). *)
Record summary : Type := {
  workspace : string;
  total_tasks : nat;
  summary_successful_tasks : nat;
  failed_tasks : Z;
  total_actions : nat;
  task_results : list task_entry
}.

(** [len(r.get("actions", []))] *)
Definition action_count (r : pydict) : nat :=
  match dict_get "actions" r with
  | Some (VList l) => length l
  | _ => 0
  end.

(** [_generate_summary] *)
Definition generate_summary (workspace_dir : string) (results : list task_entry)
    (successful_tasks total_tasks : nat) : summary :=
  {| workspace := workspace_dir;
     total_tasks := total_tasks;
     summary_successful_tasks := successful_tasks;
     failed_tasks := (Z.of_nat total_tasks - Z.of_nat successful_tasks)%Z;
     total_actions := foldr (fun r n => action_count (result r) + n) 0 results;
     task_results := results |}.


(** What the runner asks of the clock and of [json.dump] when it saves a
    report: the text of [datetime.now().strftime("%Y%m%d_%H%M%S")], and the
    text that [json.dump(summary, f, indent=2, default=str)] writes. *)
Class Reporting : Type := {
  report_stamp : string;
  report_text : summary -> string
}.

Section WithOracles.
Context {oracles : Oracles} {reporting : Reporting}.

(** The result of a task, in a dry run and otherwise. *)
Definition task_result (workspace_dir : string) (dry_run : bool)
    (task : GemRefactorTask) : M pydict :=
  if dry_run then ret (analyze_task task)
  else fun w =>
         let '(r, w') :=
           execute_refactoring_task (task_type task) workspace_dir None w in
         (Ok r, w').

(** One turn of [for task in sorted_tasks], from the locals [st]. *)
Definition plan_step (workspace_dir : string) (dry_run : bool)
    (st : plan_state) (task : GemRefactorTask) : M plan_state :=
  unmet <- lift (dependencies_unmet task (results st)) ;;
  if (unmet : bool) then
    ret {| results := results st; successful_tasks := successful_tasks st;
           skipped := skipped st ++ [task] |}
  else
    r <- task_result workspace_dir dry_run task ;;
    if succeeded r then
      ret {| results := results st ++ [{| result := r; task_info := task;
                                          success_criteria_verification :=
                                            Some (verify_success_criteria task) |}];
             successful_tasks := successful_tasks st + 1;
             skipped := skipped st |}
    else
      ret {| results := results st ++ [{| result := r; task_info := task;
                                          success_criteria_verification := None |}];
             successful_tasks := successful_tasks st;
             skipped := skipped st |}.

(** The loop over the sorted tasks. *)
Fixpoint run_tasks (workspace_dir : string) (dry_run : bool)
    (tasks : list GemRefactorTask) (st : plan_state) : M plan_state :=
  match tasks with
  | [] => ret st
  | task :: rest =>
      st' <- plan_step workspace_dir dry_run st task ;;
      run_tasks workspace_dir dry_run rest st'
  end.

Definition after (m : M pydict) (w : world) : world := snd (m w).

(** [_run_pre_analysis]: the gem structure report, then the two shell
    commands of [_collect_code_metrics] and [_analyze_test_coverage]. *)
Definition run_pre_analysis (workspace_dir : string) (w : world) : world :=
  let w := after (analyze_gem_structure (VStr workspace_dir)) w in
  let w := after (run_command
                    (VStr "find lib -name '*.rb' | xargs wc -l | tail -1")
                    (VStr workspace_dir)) w in
  after (run_command (VStr "bundle exec rake test") (VStr workspace_dir)) w.

(** [_run_post_analysis] *)
Definition run_post_analysis (workspace_dir : string) (w : world) : world :=
  let w := after (run_command (VStr "bundle exec rake test") (VStr workspace_dir)) w in
  after (run_command (VStr "bundle exec standardrb") (VStr workspace_dir)) w.

(** [_save_results]: the directory [refactoring_results] in the workspace,
    made if it is not there, and in it the report of this run.  The
    workspace of a runner is a normalised absolute path (the constructor
    makes it one), for which [Path(workspace) / name] is spelt as the joined
    text.  Printing the table is left out. *)
Definition save_results (workspace_dir : string) (s : summary) : M unit :=
  let results_dir := PosixPath.join workspace_dir "refactoring_results" in
  path_mkdir results_dir ;;;
  let summary_file :=
    PosixPath.join results_dir
                   ("refactoring_summary_" +:+ report_stamp +:+ ".json") in
  f <- open_w summary_file ;;
  file_write f (VStr (report_text s)).

(** The steps of [run_gem_refactor_plan] before [_save_results]: the summary
    that is built, and the final [plan_state] along with it for its ghost
    field. *)
Definition run_plan (workspace_dir : string) (tasks : list GemRefactorTask)
    (dry_run : bool) : M (summary * plan_state) :=
  let sorted_tasks := sorted_by_priority tasks in
  (fun w => (Ok tt, run_pre_analysis workspace_dir w)) ;;;
  st <- run_tasks workspace_dir dry_run sorted_tasks plan_start ;;
  (fun w => (Ok tt, if dry_run then w else run_post_analysis workspace_dir w)) ;;;
  ret (generate_summary workspace_dir (results st) (successful_tasks st)
                        (length sorted_tasks), st).

(** [run_gem_refactor_plan]: the summary is returned once it is saved. *)
Definition run_gem_refactor_plan (workspace_dir : string)
    (tasks : list GemRefactorTask) (dry_run : bool) : M (summary * plan_state) :=
  r <- run_plan workspace_dir tasks dry_run ;;
  save_results workspace_dir (fst r) ;;;
  ret r.




End WithOracles.

(** [ObservableGemRefactorRunner.__init__]: the absolute workspace and the
    agent, or what is raised. *)
Definition runner_init (m : Provider.ProviderManager) (workspace_dir : string)
    (w : world) : init_error + string * (string * string * string) :=
  let workspace_dir := PosixPath.abspath (cwd w) workspace_dir in
  if negb (Provider.ensure_provider_setup m)
  then inl (RuntimeError "No Claude provider configured")
  else
    match Provider.get_current_config m with
    | Some config =>
        match agent_init (Provider.provider_type config) (Provider.api_key config)
                         (Provider.model config) with
        | inl e => inl e
        | inr agent => inr (workspace_dir, agent)
        end
    | None => inl (AttributeError "'NoneType' object has no attribute 'provider_type'")
    end.

End Runner.

(** ** [cli.py] *)

Module Cli.
Import Py OS Agent.


Section WithOracles.
Context {oracles : Oracles}.



End WithOracles.
End Cli.

(** * Verification *)

Import Py OS Agent Runner.

(** ** Concrete collaborators and worlds for the examples *)

(** The JSON text of an object with the one key [dir_path]. *)
Definition dir_path_json : string :=
  "{" +:+ dquote +:+ "dir_path" +:+ dquote +:+ ": " +:+ dquote +:+ "lib" +:+ dquote
  +:+ "}".

(** A text of [n] opening brackets. *)
Fixpoint brackets (n : nat) : string :=
  match n with
  | O => EmptyString
  | S n' => String "[" (brackets n')
  end.

(** Oracles for the examples.  [json_loads] knows the empty object and the
    object [dir_path_json], runs out of stack on a thousand opening
    brackets, and rejects everything else that the examples pass to it; the
    shell runs out of time on [sleep 120] and otherwise returns at once,
    touching nothing; every directory may be listed and written; the model
    provider is the parameter. *)
Definition example_oracles (provider : list message -> outcome string) : Oracles :=
  {| json_loads := fun s =>
       if String.eqb s "{}" then JsonValue (VDict [])
       else if String.eqb s dir_path_json
       then JsonValue (VDict [("dir_path", VStr "lib")])
       else if String.eqb s (brackets 1000)
       then JsonRaises
              (Exc RecursionError
                 "maximum recursion depth exceeded while decoding a JSON array from a unicode string")
       else JsonDecodeError;
     json_dumps := fun _ => "{...}";
     py_repr := fun _ => "...";
     subprocess_run := fun command w =>
       match command with
       | VStr "sleep 120" =>
           (Raise (Exc TimeoutExpired
                     "Command 'sleep 120' timed out after 60 seconds"), fs w)
       | _ => (Ok (Completed 0 EmptyString EmptyString), fs w)
       end;
     list_directory_body := fun _ _ _ => Ok [("success", VBool true)];
     analyze_ruby_code_body := fun _ _ _ => Ok [("success", VBool true)];
     analyze_gem_structure_body := fun _ _ => Ok [("success", VBool true)];
     listdir_error := fun _ _ => None;
     access_w_ok := fun _ _ => true;
     client_create := fun _ history => provider history;
     get_refactoring_instruction := fun task_type _ => "Improve " +:+ task_type;
     system_prompt_of := fun workspace instruction =>
       "WORKING DIRECTORY: " +:+ workspace +:+ " Your mission: " +:+ instruction |}.

(** The clock and the report text of the examples. *)
Definition example_reporting : Reporting :=
  {| report_stamp := "20240131_120000"; report_text := fun _ => "{}" |}.

(** A provider that never asks for a tool, one that always does, and one
    that cannot be reached. *)
Definition silent_provider (_ : list message) : outcome string :=
  Ok "I will think about it.".

Definition busy_provider (_ : list message) : outcome string :=
  Ok ("Looking around." +:+ newline +:+ "ACTION: analyze_gem_structure").

Definition failing_provider (_ : list message) : outcome string :=
  Raise (Exc OtherException "Connection error.").

(** A machine with a workspace [/tmp/ws], a file next to it, and a home
    directory in which the agent was started. *)
Definition example_world : world :=
  {| fs := <[ ["tmp"] := Dir ]>
           (<[ ["tmp"; "ws"] := Dir ]>
            (<[ ["tmp"; "outside.txt"] := File "secret" ]>
             (<[ ["home"] := Dir ]>
              (<[ ["home"; "dev"] := Dir ]> ∅))));
     cwd := "/home/dev" |}.

(** Two tasks of a plan: [performance] depends on [architecture]. *)
Definition architecture_task : GemRefactorTask :=
  {| task_type := "architecture"; priority := 1;
     description := "Improve overall gem architecture and modularity";
     files_focus := ["lib/"]; success_criteria := ["Clear separation of concerns"];
     dependencies := None |}.

Definition performance_task : GemRefactorTask :=
  {| task_type := "performance"; priority := 3;
     description := "Optimize performance";
     files_focus := ["lib/"]; success_criteria := ["Reduced memory allocations"];
     dependencies := Some ["architecture"] |}.

(** [str.upper] on the letters [a] to [z], for the names of the examples. *)
Fixpoint upper_letters (s : string) : string :=
  match s with
  | EmptyString => EmptyString
  | String c r =>
      let n := nat_of_ascii c in
      String (if (97 <=? n) && (n <=? 122) then ascii_of_nat (n - 32) else c)
             (upper_letters r)
  end.

(** A machine with an Anthropic key in its environment, and one without any
    key on which the user only presses the return key at the prompt; both
    can write the configuration file. *)
Definition example_host : Provider.Host :=
  {| Provider.getenv := fun k =>
       if String.eqb k "ANTHROPIC_API_KEY" then Some "sk-ant-example" else None;
     Provider.getpass := fun _ => Some EmptyString;
     Provider.str_upper := upper_letters;
     Provider.save_succeeds := true |}.

Definition bare_host : Provider.Host :=
  {| Provider.getenv := fun _ => None;
     Provider.getpass := fun _ => Some EmptyString;
     Provider.str_upper := upper_letters;
     Provider.save_succeeds := true |}.

(** The text of one character, e with an acute accent (code point 233),
    which UTF-8 encodes in two bytes. *)
Definition e_acute : string := String (ascii_of_nat 233) EmptyString.

(** A name that no system call takes. *)
Definition nul_name : string := "a" +:+ String (ascii_of_nat 0) "b".

(** ** Notions used in the statements *)

(** Lines of a reply as the scanning loop sees them. *)
Definition is_action_line (l : string) : bool := startswith (strip l) "ACTION:".

Definition is_params_line (l : string) : bool := startswith (strip l) "PARAMS:".

(** The tool that an [ACTION:] line names. *)
Definition named_tool (l : string) : string := strip (remove_all "ACTION:" (strip l)).

Definition last_action_line (lines : list string) : option string :=
  last (List.filter is_action_line lines).

(** What is left of a [PARAMS:] line for [json.loads]. *)
Definition params_text (l : string) : string := strip (remove_all "PARAMS:" (strip l)).

(** The first exception other than [json.JSONDecodeError] that [json.loads]
    raises on a [PARAMS:] line that comes after an [ACTION:] line; [seen]
    tells whether an [ACTION:] line has come already. *)
Fixpoint json_failure {oracles : Oracles} (seen : bool) (lines : list string)
  : option pyexc :=
  match lines with
  | [] => None
  | l :: rest =>
      if is_action_line l then json_failure true rest
      else if is_params_line l && seen then
        match json_loads (params_text l) with
        | JsonRaises e => Some e
        | _ => json_failure seen rest
        end
      else json_failure seen rest
  end.

(** Whether the call that the dispatch makes for an action is well formed:
    the parameters are a mapping and, for a registered tool, their keys fit
    the signature of its [execute]. *)
Definition well_formed_call (a : action) (workspace_dir : string) : bool :=
  match
    (if truthy (VStr workspace_dir) then
       match params a with
       | VDict d => Some (VDict (dict_set "workspace_dir" (VStr workspace_dir) d))
       | _ => None
       end
     else Some (params a))
  with
  | None => false
  | Some p =>
      match lookup_tool (toolName a) tools with
      | None => true
      | Some t =>
          match p with
          | VDict kwargs =>
              negb (raises (bind_arguments (qualname t) (signature t) kwargs))
          | _ => false
          end
      end
  end.

(** The parameters that the dispatch passes on: the parsed ones, with the
    workspace entered under [workspace_dir] when there is one; [None] when
    that assignment raises. *)
Definition call_params (a : action) (workspace_dir : string) : option pyval :=
  if truthy (VStr workspace_dir) then
    match params a with
    | VDict d => Some (VDict (dict_set "workspace_dir" (VStr workspace_dir) d))
    | _ => None
    end
  else Some (params a).

(** The [try] block of the [execute] of each tool, on bound arguments. *)
Definition tool_body {oracles : Oracles} (t : tool) (args : list pyval) : M pydict :=
  match t with
  | FileReadTool => read_file_body (argument 0 args) (argument 1 args)
  | FileWriteTool => write_file_body (argument 0 args) (argument 1 args) (argument 2 args)
  | DirectoryListTool => reading (list_directory_body (argument 0 args) (argument 1 args))
  | RunCommandTool => run_command_body (argument 0 args) (argument 1 args)
  | RubyCodeAnalysisTool =>
      reading (analyze_ruby_code_body (argument 0 args) (argument 1 args))
  | GemStructureAnalysisTool => reading (analyze_gem_structure_body (argument 0 args))
  end.

(** The [error] entry that the [except] clauses of a tool give for an
    exception: its message, or the text of the clause for its class. *)
Definition error_text (t : tool) (e : pyexc) : string :=
  match t, exc_cls e with
  | FileReadTool, UnicodeDecodeError => "File encoding error: " +:+ str_exc e
  | FileReadTool, PermissionError => "Permission denied"
  | FileWriteTool, PermissionError => "Permission denied"
  | RunCommandTool, TimeoutExpired => "Command timed out after 60 seconds"
  | _, _ => str_exc e
  end.

(** Every reply, whatever the history and the world, asks for a tool that
    the dispatch runs without raising, and holds no completion phrase. *)
Definition always_acts {oracles : Oracles} (system_prompt workspace : string) : Prop :=
  forall history w, exists reply r w',
    client_create system_prompt history = Ok reply
    /\ seems_complete reply = false
    /\ parse_and_execute_action reply workspace w = (Ok (Some r), w').


Definition entry_succeeded (e : task_entry) : bool := succeeded (result e).

(** A successful result carries the type of its task under [task_type], as
    the results of [_analyze_task] and of [execute_refactoring_task] do. *)
Definition typed_entry (e : task_entry) : Prop :=
  succeeded (result e) = true ->
  dict_get "task_type" (result e) = Some (VStr (task_type (task_info e))).





(** The types of the tasks whose result is a success. *)
Definition succeeded_types (rs : list task_entry) : list string :=
  map (fun e => task_type (task_info e)) (List.filter entry_succeeded rs).

(** What every turn of the task loop keeps, from the state [st0] over the
    tasks [seen] to the state [st]. *)
Record plan_invariant (seen : list GemRefactorTask) (st0 st : plan_state) : Prop := {
  inv_results : exists new, results st = results st0 ++ new
                            /\ Forall (fun e => In (task_info e) seen) new;
  inv_skipped : exists new, skipped st = skipped st0 ++ new
                            /\ Forall (fun t => In t seen) new;
  inv_success :
    successful_tasks st + length (List.filter entry_succeeded (results st0))
    = successful_tasks st0 + length (List.filter entry_succeeded (results st));
  inv_count :
    length (results st) + length (skipped st)
    = length (results st0) + length (skipped st0) + length seen
}.

Fixpoint slash_free (s : string) : bool :=
  match s with
  | EmptyString => true
  | String a r => negb (Ascii.eqb a PosixPath.slash) && slash_free r
  end.

(** A component of a normalised path. *)
Definition clean (c : string) : Prop :=
  slash_free c = true /\ c <> "" /\ c <> "." /\ c <> "..".

(** A normalised absolute path: one or two slashes, then the components. *)
Definition render (slashes : string) (comps : list string) : string :=
  slashes +:+ Py.join "/" comps.

Definition leading (slashes : string) : Prop := slashes = "/" \/ slashes = "//".

(** The text of all components but the last, each followed by a slash. *)
Fixpoint dir_text (comps : list string) : string :=
  match comps with
  | [] => EmptyString
  | [_] => EmptyString
  | c :: rest => c +:+ "/" +:+ dir_text rest
  end.

(** The components of the file that a relative [file_path] names in the
    workspace [workspace_dir], an absolute path. *)
Definition target_key (workspace_dir file_path : string) : list string :=
  path_key (PosixPath.normpath (PosixPath.join workspace_dir file_path)).

Definition is_directory (m : gmap (list string) node) (k : list string) : bool :=
  match node_at m k with
  | Some Dir => true
  | _ => false
  end.

(** No proper ancestor of the key is a regular file. *)
Definition ancestors_free (m : gmap (list string) node) (k : list string) : bool :=
  forallb (fun i => match node_at m (take (S i) (removelast k)) with
                    | Some (File _) => false
                    | _ => true
                    end)
          (seq 0 (length (removelast k))).

(** Whether the roles of a history alternate, a user turn being expected
    next when [user_next] holds. *)
Fixpoint alternates (user_next : bool) (history : list message) : bool :=
  match history with
  | [] => true
  | m :: rest =>
      String.eqb (role m) (if user_next then "user" else "assistant")
      && alternates (negb user_next) rest
  end.

(** The tools that the replies ask for, in the order of the replies. *)
Definition requested_tool {oracles : Oracles} (reply : string) : option string :=
  match parse_action reply with
  | Ok (Some a) => Some (toolName a)
  | _ => None
  end.

Definition requested_tools {oracles : Oracles} (replies : list string) : list string :=
  omap requested_tool replies.



(** The current provider, when one is named, has a configuration with an
    API key. *)
Definition usable_current (configs : gmap string Provider.ProviderConfig)
    (current : option string) : bool :=
  match current with
  | Some p =>
      if Provider.nonempty p then
        match configs !! p with
        | Some config => Provider.nonempty (Provider.api_key config)
        | None => false
        end
      else true
  | None => true
  end.

(** A provider type for which the agent can build a client. *)
Definition supported (config : Provider.ProviderConfig) : bool :=
  String.eqb (Provider.provider_type config) "anthropic"
  || String.eqb (Provider.provider_type config) "openrouter"
  || String.eqb (Provider.provider_type config) "moonshot".

Definition sound_data (d : Provider.file_data) : Prop :=
  usable_current d.1 d.2 = true /\ map_Forall (fun _ config => supported config = true) d.1.

(** What holds of a manager and of the file that it wrote. *)
Definition sound (m : Provider.ProviderManager) : Prop :=
  sound_data (Provider.configs m, Provider.current_provider m)
  /\ forall d, Provider.config_file m = Some d -> sound_data d.

(** The managers that arise from a start without a usable file, by
    [setup_provider] and [set_provider], and by a new start on the file that
    such a manager wrote. *)
Inductive reachable {host : Provider.Host} : Provider.ProviderManager -> Prop :=
| reach_absent : reachable (Provider.new_manager Provider.Absent)
| reach_unreadable : reachable (Provider.new_manager Provider.Unreadable)
| reach_setup m p key new_model :
    reachable m -> reachable (snd (Provider.setup_provider m p key new_model))
| reach_set m p : reachable m -> reachable (snd (Provider.set_provider m p))
| reach_reload m d :
    reachable m -> Provider.config_file m = Some d ->
    reachable (Provider.new_manager (Provider.Stored d)).

(** ** The Python primitives on examples *)

Example strip_example :
  strip ("  ACTION: read_file " +:+ String CR newline) = "ACTION: read_file".
Proof. reflexivity. Qed.

Example split_example :
  split LF ("a" +:+ newline +:+ "b" +:+ newline) = ["a"; "b"; ""].
Proof. reflexivity. Qed.

Example remove_all_example : remove_all "ACTION:" "ACTION: ACTION:x" = " x".
Proof. reflexivity. Qed.

Example lower_example : lower "Task COMPLETE" = "task complete".
Proof. reflexivity. Qed.

Example contains_example :
  contains "the task complete." "task complete" = true
  /\ contains "incomplete" "task complete" = false.
Proof. split; reflexivity. Qed.

Example join_example :
  PosixPath.join "/tmp/ws" "a.rb" = "/tmp/ws/a.rb"
  /\ PosixPath.join "/tmp/ws/" "a.rb" = "/tmp/ws/a.rb"
  /\ PosixPath.join "/tmp/ws" "" = "/tmp/ws/"
  /\ PosixPath.join "/tmp/ws" "/etc/passwd" = "/etc/passwd".
Proof. repeat split; reflexivity. Qed.

Example normpath_example :
  PosixPath.normpath "/tmp/ws/../outside.txt" = "/tmp/outside.txt"
  /\ PosixPath.normpath "//a/./b//c/.." = "//a/b"
  /\ PosixPath.normpath "///a" = "/a"
  /\ PosixPath.normpath "../a/../.." = "../.."
  /\ PosixPath.normpath "/.." = "/"
  /\ PosixPath.normpath "" = ".".
Proof. repeat split; reflexivity. Qed.

Example dirname_example :
  PosixPath.dirname "/tmp/ws/a.rb" = "/tmp/ws"
  /\ PosixPath.dirname "/a" = "/"
  /\ PosixPath.dirname "//a" = "//"
  /\ PosixPath.dirname "a" = "".
Proof. repeat split; reflexivity. Qed.

Example universal_newlines_example :
  universal_newlines ("a" +:+ String CR (String LF "b") +:+ String CR "c")
  = "a" +:+ String LF "b" +:+ String LF "c".
Proof. reflexivity. Qed.

Example bind_arguments_example :
  bind_arguments (qualname FileWriteTool) (signature FileWriteTool)
    [("workspace_dir", VStr "/tmp/ws")]
  = Raise (Exc TypeError
             "FileWriteTool.execute() missing 2 required positional arguments: 'file_path' and 'content'")
  /\ bind_arguments (qualname FileReadTool) (signature FileReadTool)
       [("file_path", VStr "a.rb"); ("mode", VStr "r")]
     = Raise (Exc TypeError
                "FileReadTool.execute() got an unexpected keyword argument 'mode'")
  /\ bind_arguments (qualname DirectoryListTool) (signature DirectoryListTool)
       [("workspace_dir", VStr "/tmp/ws")]
     = Ok [VStr "."; VStr "/tmp/ws"].
Proof. repeat split; reflexivity. Qed.

(** ** Normalised paths and the keys of the file system *)

Import PosixPath.

Section PathFacts.

Lemma split_slash_free s : Forall (fun c => slash_free c = true) (split slash s).
Proof.
  induction s as [|a s IH]; simpl; [by repeat constructor|].
  destruct (Ascii.eqb a slash) eqn:Ha; [by constructor|].
  destruct (split slash s) as [|h t].
  { constructor; [simpl; by rewrite Ha|done]. }
  inversion IH; subst. constructor; [|done]. simpl. by rewrite Ha.
Qed.

Lemma split_single c : slash_free c = true -> split slash c = [c].
Proof.
  induction c as [|a c IH]; simpl; [done|].
  intros [Ha Hc]%andb_prop. apply negb_true_iff in Ha. rewrite Ha.
  by rewrite IH.
Qed.

Lemma split_append c rest :
  slash_free c = true -> split slash (c +:+ "/" +:+ rest) = c :: split slash rest.
Proof.
  induction c as [|a c IH]; simpl; [done|].
  intros [Ha Hc]%andb_prop. apply negb_true_iff in Ha. rewrite Ha.
  by rewrite IH.
Qed.

Lemma split_join comps :
  comps <> [] -> Forall (fun c => slash_free c = true) comps ->
  split slash (Py.join "/" comps) = comps.
Proof.
  induction comps as [|c comps IH]; [done|]. intros _ Hall.
  inversion Hall as [|? ? Hc Hrest]; subst.
  destruct comps as [|d comps]; [by apply split_single|].
  change (Py.join "/" (c :: d :: comps)) with (c +:+ "/" +:+ Py.join "/" (d :: comps)).
  rewrite split_append by done. by rewrite IH.
Qed.

Lemma clean_slash_free comps :
  Forall clean comps -> Forall (fun c => slash_free c = true) comps.
Proof. intros Hc. eapply Forall_impl; [exact Hc|]. by intros c [? _]. Qed.

Lemma norm_comps_clean comps acc :
  Forall (fun c => slash_free c = true) comps -> Forall clean acc ->
  Forall clean (norm_comps true comps acc).
Proof.
  revert acc. induction comps as [|c comps IH]; intros acc Hc Hacc; simpl.
  { by apply Forall_rev. }
  inversion Hc as [|? ? Hsf Hrest]; subst.
  destruct (String.eqb c "") eqn:He; [by apply IH|].
  destruct (String.eqb c ".") eqn:Hd; [by apply IH|]. simpl.
  destruct (String.eqb c "..") eqn:Hdd; simpl.
  - destruct acc as [|l acc]; [by apply IH|].
    inversion Hacc as [|? ? Hl Hacc']; subst.
    destruct (String.eqb l "..") eqn:Hl2.
    + apply String.eqb_eq in Hl2. by destruct Hl as (_ & _ & _ & ?).
    + by apply IH.
  - apply IH; [done|]. constructor; [|done].
    apply String.eqb_neq in He, Hd, Hdd. done.
Qed.

Lemma norm_comps_of_clean comps acc :
  Forall clean comps -> norm_comps true comps acc = rev acc ++ comps.
Proof.
  revert acc. induction comps as [|c comps IH]; intros acc Hc; simpl.
  { by rewrite app_nil_r. }
  inversion Hc as [|? ? (Hsf & He & Hd & Hdd) Hrest]; subst.
  apply String.eqb_neq in He, Hd, Hdd. rewrite He, Hd, Hdd. simpl.
  rewrite IH by done. simpl. by rewrite <- app_assoc.
Qed.

Lemma filter_clean comps :
  Forall clean comps -> filter (fun c => c <> EmptyString) comps = comps.
Proof.
  induction 1 as [|c comps (_ & He & _) _ IH]; [done|].
  rewrite filter_cons_True by done. by rewrite IH.
Qed.

Lemma split_render slashes comps :
  leading slashes -> Forall clean comps ->
  exists blanks,
    Forall (fun c => c = EmptyString) blanks
    /\ split slash (render slashes comps) = blanks ++ comps.
Proof.
  intros Hs Hc. unfold render.
  destruct comps as [|c comps].
  - destruct Hs as [-> | ->]; simpl.
    + exists [""; ""]. by repeat constructor.
    + exists [""; ""; ""]. by repeat constructor.
  - pose proof (split_join (c :: comps) ltac:(done) (clean_slash_free _ Hc)) as Hj.
    destruct Hs as [-> | ->].
    + exists [""]. split; [by repeat constructor|].
      change ("/" +:+ Py.join "/" (c :: comps))
        with ("" +:+ "/" +:+ Py.join "/" (c :: comps)).
      rewrite split_append by done. by rewrite Hj.
    + exists [""; ""]. split; [by repeat constructor|].
      change ("//" +:+ Py.join "/" (c :: comps))
        with ("" +:+ "/" +:+ "" +:+ "/" +:+ Py.join "/" (c :: comps)).
      rewrite !split_append by done. by rewrite Hj.
Qed.

Lemma norm_comps_blanks blanks comps acc :
  Forall (fun c => c = EmptyString) blanks ->
  norm_comps true (blanks ++ comps) acc = norm_comps true comps acc.
Proof.
  induction 1 as [|b blanks -> _ IH]; [done|]. simpl. exact IH.
Qed.

Lemma filter_blanks blanks comps :
  Forall (fun c => c = EmptyString) blanks ->
  filter (fun c => c <> EmptyString) (blanks ++ comps)
  = filter (fun c => c <> EmptyString) comps.
Proof.
  induction 1 as [|b blanks -> _ IH]; [done|]. simpl.
  rewrite filter_cons_False by (intros ?; done). exact IH.
Qed.

Lemma path_key_render slashes comps :
  leading slashes -> Forall clean comps -> path_key (render slashes comps) = comps.
Proof.
  intros Hs Hc. unfold path_key.
  destruct (split_render slashes comps Hs Hc) as (blanks & Hb & ->).
  rewrite filter_blanks by done. by apply filter_clean.
Qed.


Lemma isabs_inv s : isabs s = true -> exists r, s = String slash r.
Proof.
  unfold isabs. destruct s as [|a r]; [done|]. cbn [startswith].
  rewrite andb_true_r. intros Ha%Ascii.eqb_eq. exists r. by subst.
Qed.

Lemma clean_head c : clean c -> exists a r, c = String a r /\ Ascii.eqb a slash = false.
Proof.
  intros (Hsf & He & _). destruct c as [|a r]; [done|]. simpl in Hsf.
  apply andb_prop in Hsf as [Ha _]. apply negb_true_iff in Ha. eauto.
Qed.

Lemma join_head comps :
  Forall clean comps -> startswith (Py.join "/" comps) "/" = false.
Proof.
  intros Hc. destruct comps as [|c comps]; [done|].
  inversion Hc as [|? ? Hcl _]; subst.
  destruct (clean_head c Hcl) as (a & r & -> & Ha).
  destruct (startswith _ "/") eqn:Hp; [|done].
  apply isabs_inv in Hp as [r' Hr'].
  destruct comps; simpl in Hr'; injection Hr' as -> _; done.
Qed.

Lemma normpath_one x :
  startswith x "/" = false ->
  normpath ("/" +:+ x)
  = "/" +:+ Py.join "/" (norm_comps true (split slash ("/" +:+ x)) []).
Proof.
  intros Hx. unfold normpath.
  change (startswith ("/" +:+ x) "//") with (startswith x "/"). rewrite Hx.
  reflexivity.
Qed.

Lemma normpath_two x :
  startswith x "/" = false ->
  normpath ("//" +:+ x)
  = "//" +:+ Py.join "/" (norm_comps true (split slash ("//" +:+ x)) []).
Proof.
  intros Hx. unfold normpath.
  change (startswith ("//" +:+ x) "///") with (startswith x "/"). rewrite Hx.
  reflexivity.
Qed.

Lemma normpath_render slashes comps :
  leading slashes -> Forall clean comps ->
  normpath (render slashes comps) = render slashes comps.
Proof.
  intros Hs Hc.
  destruct (split_render slashes comps Hs Hc) as (blanks & Hb & Hsplit).
  pose proof (join_head comps Hc) as Hj.
  destruct Hs as [-> | ->]; unfold render in *.
  - rewrite normpath_one, Hsplit by done.
    by rewrite norm_comps_blanks, norm_comps_of_clean.
  - rewrite normpath_two, Hsplit by done.
    by rewrite norm_comps_blanks, norm_comps_of_clean.
Qed.

Lemma normpath_absolute s :
  isabs s = true ->
  exists slashes comps,
    leading slashes /\ Forall clean comps /\ normpath s = render slashes comps.
Proof.
  intros Habs. destruct (isabs_inv s Habs) as [r ->].
  unfold normpath.
  change (String.eqb (String slash r) "") with false. cbv iota.
  change (startswith (String slash r) "/") with true. cbv iota.
  pose proof (norm_comps_clean (split slash (String slash r)) []
                (split_slash_free _) ltac:(constructor)) as Hc.
  destruct (startswith (String slash r) "//" && negb (startswith (String slash r) "///")).
  - exists "//", (norm_comps true (split slash (String slash r)) []).
    split; [by right|]. split; [done|]. reflexivity.
  - exists "/", (norm_comps true (split slash (String slash r)) []).
    split; [by left|]. split; [done|]. reflexivity.
Qed.

Lemma isabs_render slashes comps : leading slashes -> isabs (render slashes comps) = true.
Proof. by intros [-> | ->]. Qed.

Lemma resolve_render w slashes comps :
  leading slashes -> Forall clean comps -> resolve w (render slashes comps) = comps.
Proof.
  intros Hs Hc. unfold resolve, abspath. rewrite isabs_render by done.
  rewrite normpath_render by done. by apply path_key_render.
Qed.

Lemma split_head_single c : slash_free c = true -> split_head c = None.
Proof.
  induction c as [|a c IH]; simpl; [done|].
  intros [Ha Hc]%andb_prop. apply negb_true_iff in Ha. by rewrite IH, Ha.
Qed.

Lemma split_head_append c rest :
  slash_free c = true ->
  split_head (c +:+ "/" +:+ rest)
  = Some (c +:+ "/" +:+ default EmptyString (split_head rest)).
Proof.
  induction c as [|a c IH]; intros Hc.
  - change ("" +:+ "/" +:+ rest) with (String slash rest).
    cbn [split_head]. by destruct (split_head rest).
  - simpl in Hc. apply andb_prop in Hc as [_ Hc].
    change (String a c +:+ "/" +:+ rest) with (String a (c +:+ "/" +:+ rest)).
    cbn [split_head]. by rewrite IH.
Qed.

Lemma default_Some {A} (d x : A) : default d (Some x) = x.
Proof. reflexivity. Qed.

Lemma split_head_join comps :
  Forall (fun c => slash_free c = true) comps ->
  default EmptyString (split_head (Py.join "/" comps)) = dir_text comps.
Proof.
  induction 1 as [|c comps Hc Hrest IH]; [done|].
  destruct comps as [|d comps]; [by simpl; rewrite split_head_single|].
  change (Py.join "/" (c :: d :: comps)) with (c +:+ "/" +:+ Py.join "/" (d :: comps)).
  rewrite split_head_append by done. by rewrite default_Some, IH.
Qed.

Lemma rstrip_slash_free c : slash_free c = true -> rstrip_slash c = c.
Proof.
  induction c as [|a c IH]; simpl; [done|].
  intros [Ha Hc]%andb_prop. apply negb_true_iff in Ha. rewrite IH by done.
  destruct c; [by rewrite Ha|done].
Qed.

Lemma rstrip_slash_trailing a : rstrip_slash (a +:+ "/") = rstrip_slash a.
Proof. induction a as [|x a IH]; [done|]. simpl. by rewrite IH. Qed.

Lemma rstrip_slash_app a b :
  rstrip_slash b <> EmptyString -> rstrip_slash (a +:+ b) = a +:+ rstrip_slash b.
Proof.
  intros Hb. induction a as [|x a IH]; [done|]. simpl. rewrite IH.
  change (String x a +:+ rstrip_slash b) with (String x (a +:+ rstrip_slash b)).
  destruct (a +:+ rstrip_slash b) eqn:He; [|done].
  destruct a; simpl in He; [by destruct Hb|discriminate].
Qed.

Lemma rstrip_slash_join comps :
  Forall clean comps -> comps <> [] ->
  rstrip_slash (Py.join "/" comps) = Py.join "/" comps
  /\ Py.join "/" comps <> EmptyString.
Proof.
  induction 1 as [|c comps Hc Hrest IH]; [done|]. intros _.
  destruct comps as [|d comps].
  - simpl. split; [apply rstrip_slash_free, Hc|apply Hc].
  - destruct (IH ltac:(done)) as [Hr Hn].
    change (Py.join "/" (c :: d :: comps)) with (c +:+ "/" +:+ Py.join "/" (d :: comps)).
    split.
    + rewrite rstrip_slash_app.
      * rewrite rstrip_slash_app by (by rewrite Hr). by rewrite Hr.
      * rewrite rstrip_slash_app by (by rewrite Hr). done.
    + destruct Hc as (_ & He & _). by destruct c.
Qed.

Lemma append_assoc a b c : (a +:+ b) +:+ c = a +:+ b +:+ c.
Proof.
  induction a as [|x a IH]; [done|].
  change (String x ((a +:+ b) +:+ c) = String x (a +:+ b +:+ c)). by rewrite IH.
Qed.

Lemma dir_text_join c d comps :
  dir_text (c :: d :: comps) = Py.join "/" (removelast (c :: d :: comps)) +:+ "/".
Proof.
  revert c d. induction comps as [|e comps IH]; intros c d; [done|].
  change (dir_text (c :: d :: e :: comps)) with (c +:+ "/" +:+ dir_text (d :: e :: comps)).
  rewrite IH.
  change (removelast (c :: d :: e :: comps)) with (c :: removelast (d :: e :: comps)).
  destruct (removelast (d :: e :: comps)) eqn:Hr; [done|].
  change (Py.join "/" (c :: s :: l)) with (c +:+ "/" +:+ Py.join "/" (s :: l)).
  by rewrite !append_assoc.
Qed.

Lemma Forall_removelast {A} (P : A -> Prop) l : Forall P l -> Forall P (removelast l).
Proof.
  induction 1 as [|x l Hx Hl IH]; [done|]. simpl. destruct l; [done|]. by constructor.
Qed.

Lemma dirname_render slashes comps :
  leading slashes -> Forall clean comps ->
  dirname (render slashes comps) = render slashes (removelast comps).
Proof.
  intros Hs Hc. unfold dirname, render.
  assert (default EmptyString (split_head (slashes +:+ Py.join "/" comps))
          = slashes +:+ dir_text comps) as ->.
  { pose proof (split_head_join comps (clean_slash_free _ Hc)) as Hj.
    destruct Hs as [-> | ->].
    - change ("/" +:+ Py.join "/" comps) with ("" +:+ "/" +:+ Py.join "/" comps).
      rewrite split_head_append by done. by rewrite default_Some, Hj.
    - change ("//" +:+ Py.join "/" comps)
        with ("" +:+ "/" +:+ "" +:+ "/" +:+ Py.join "/" comps).
      rewrite !split_head_append by done. by rewrite !default_Some, Hj. }
  destruct comps as [|c [|d comps]].
  - by destruct Hs as [-> | ->].
  - by destruct Hs as [-> | ->].
  - rewrite dir_text_join.
    destruct (rstrip_slash_join (removelast (c :: d :: comps))
                (Forall_removelast _ _ Hc) ltac:(done)) as [Hr Hn].
    rewrite rstrip_slash_app; rewrite rstrip_slash_trailing, Hr; [|done].
    destruct (slashes +:+ _) eqn:He; [|done].
    destruct Hs as [-> | ->]; discriminate.
Qed.

End PathFacts.

(** ** The file tools *)

Section ToolFacts.
Context {oracles : Oracles}.

Lemma bind_inv {A B} (m : M A) (k : A -> M B) w o w' :
  bind m k w = (o, w') ->
  (exists e, m w = (Raise e, w') /\ o = Raise e)
  \/ (exists a w1, m w = (Ok a, w1) /\ k a w1 = (o, w')).
Proof.
  unfold bind. destruct (m w) as [[a|e] w1]; intros Hk.
  - right. eauto.
  - left. inversion Hk; subst. eauto.
Qed.

Lemma bind_ok_inv {A B} (m : M A) (k : A -> M B) w b w' :
  bind m k w = (Ok b, w') ->
  exists a w1, m w = (Ok a, w1) /\ k a w1 = (Ok b, w').
Proof.
  intros Hb. apply bind_inv in Hb as [(e & _ & ?)|?]; [discriminate|done].
Qed.

(** [locate] reads the working directory and changes nothing. *)
Lemma locate_frame file_path workspace_dir w :
  exists r, locate file_path workspace_dir w = (r, w).
Proof.
  unfold locate. destruct (truthy workspace_dir); [|by eexists].
  destruct file_path; try (by eexists).
  destruct (isabs s).
  - unfold bind. destruct workspace_dir; simpl; try (by eexists).
    destruct (negb _); by eexists.
  - unfold bind. destruct workspace_dir; simpl; by eexists.
Qed.

(** A relative path is joined to the workspace root as it is. *)
Lemma locate_relative p ws w :
  isabs p = false -> truthy (VStr ws) = true ->
  locate (VStr p) (VStr ws) w = (Ok (inr (VStr (PosixPath.join ws p))), w).
Proof. intros Hp Hws. unfold locate. rewrite Hws, Hp. reflexivity. Qed.

Lemma os_path_abspath_frame v w o w1 : os_path_abspath v w = (o, w1) -> w1 = w.
Proof.
  destruct v; simpl; unfold fspath_error, type_error, raise; by intros [= _ <-].
Qed.

(** *** Names with the character of code 0 *)

Lemma has_nul_app a b : has_nul (a +:+ b) = has_nul a || has_nul b.
Proof.
  induction a as [|c a IH]; [done|].
  change (String c a +:+ b) with (String c (a +:+ b)). cbn [has_nul].
  by rewrite IH, orb_assoc.
Qed.

Lemma has_nul_join comps : has_nul (Py.join "/" comps) = existsb has_nul comps.
Proof.
  induction comps as [|c comps IH]; [done|]. destruct comps as [|d comps].
  { cbn [Py.join existsb]. by rewrite orb_false_r. }
  change (Py.join "/" (c :: d :: comps)) with (c +:+ "/" +:+ Py.join "/" (d :: comps)).
  rewrite !has_nul_app, IH. reflexivity.
Qed.

Lemma has_nul_render sl comps :
  leading sl -> has_nul (render sl comps) = existsb has_nul comps.
Proof.
  intros Hsl. unfold render. rewrite has_nul_app, has_nul_join.
  by destruct Hsl as [-> | ->].
Qed.

Lemma node_at_cons m (k : list string) :
  k <> [] -> existsb has_nul k = false -> node_at m k = m !! k.
Proof. destruct k; [done|]. intros _ Hk. unfold node_at. by rewrite Hk. Qed.

Lemma node_at_nul m (k : list string) : existsb has_nul k = true -> node_at m k = None.
Proof. destruct k; [done|]. intros Hk. unfold node_at. by rewrite Hk. Qed.

(** What [os.stat] finds for a normalised absolute path. *)
Lemma stat_render w sl comps :
  leading sl -> Forall clean comps ->
  stat (render sl comps) w = node_at (fs w) comps.
Proof.
  intros Hsl Hc. unfold stat. rewrite has_nul_render by done.
  destruct (existsb has_nul comps) eqn:Hn.
  - by rewrite node_at_nul.
  - by rewrite resolve_render.
Qed.

Lemma existsb_take {A} (f : A -> bool) n l :
  existsb f l = false -> existsb f (take n l) = false.
Proof.
  revert n. induction l as [|x l IH]; intros [|n]; try done.
  cbn [existsb take]. intros [-> Hl]%orb_false_elim. by rewrite IH.
Qed.

Lemma existsb_removelast {A} (f : A -> bool) l :
  existsb f l = false -> existsb f (removelast l) = false.
Proof. rewrite removelast_firstn_len. apply existsb_take. Qed.

(** Reading a path under which a regular file is found. *)
Lemma read_file_of_file fp ws w tv full t :
  locate fp ws w = (Ok (inr tv), w) ->
  os_path_abspath tv w = (Ok full, w) ->
  stat full w = Some (File t) ->
  read_file fp ws w
  = (Ok [("success", VBool true); ("content", VStr (universal_newlines t));
         ("file_path", VStr full);
         ("file_size", VInt (Z.of_nat (String.length (universal_newlines t))));
         ("message", VStr ("Successfully read " +:+ fmt fp +:+ " ("
                           +:+ pretty (String.length (universal_newlines t))
                           +:+ " characters)"))], w).
Proof.
  intros Hloc Habs Hn. unfold read_file, try_except, read_file_body, bind.
  rewrite Hloc, Habs. unfold os_path_exists.
  rewrite Hn. rewrite bool_decide_eq_true_2 by eauto. simpl.
  unfold os_path_isfile. rewrite Hn. simpl. unfold read_text.
  unfold stat in Hn. destruct (has_nul full); [done|]. rewrite Hn. reflexivity.
Qed.

Lemma universal_newlines_id c : count_char CR c = 0 -> universal_newlines c = c.
Proof.
  induction c as [|a c IH]; [done|]. simpl.
  destruct (Ascii.eqb a CR); [done|]. simpl. intros Hc. by rewrite IH.
Qed.

(** *** [os.makedirs] *)

Lemma mkdir_chain_cons name m done c rest :
  mkdir_chain name m done (c :: rest)
  = if has_nul c then (Raise embedded_null, m)
    else match node_at m (done ++ [c]) with
         | Some Dir => mkdir_chain name m (done ++ [c]) rest
         | Some (File _) =>
             match rest with
             | [] => (Raise (Exc FileExistsError
                               ("[Errno 17] File exists: " +:+ quoted name)), m)
             | next :: _ =>
                 (Raise (Exc NotADirectoryError
                           ("[Errno 20] Not a directory: "
                            +:+ quoted ("/" +:+ Py.join "/" ((done ++ [c]) ++ [next])))),
                  m)
             end
         | None => mkdir_chain name (<[done ++ [c] := Dir]> m) (done ++ [c]) rest
         end.
Proof. reflexivity. Qed.

(** [os.makedirs] succeeds when no component on the way is a regular file
    or has a name that cannot be passed; it leaves a directory at the end
    and touches no longer key. *)
Lemma mkdir_chain_spec name m done todo :
  node_at m done = Some Dir ->
  existsb has_nul (done ++ todo) = false ->
  (forall i t, i < length todo -> node_at m (done ++ take (S i) todo) <> Some (File t)) ->
  exists m',
    mkdir_chain name m done todo = (Ok tt, m')
    /\ node_at m' (done ++ todo) = Some Dir
    /\ (forall k, length (done ++ todo) < length k -> m' !! k = m !! k).
Proof.
  revert m done. induction todo as [|c rest IH]; intros m done Hdone Hnul Hfree.
  { exists m. rewrite app_nil_r. done. }
  rewrite mkdir_chain_cons.
  assert (has_nul c = false /\ existsb has_nul (done ++ [c]) = false) as [Hc0 Hdc].
  { rewrite existsb_app in Hnul. apply orb_false_elim in Hnul as [Hd Hr].
    cbn [existsb] in Hr. apply orb_false_elim in Hr as [Hc _].
    split; [done|]. rewrite existsb_app, Hd. cbn. by rewrite Hc. }
  rewrite Hc0.
  assert (forall t, node_at m (done ++ [c]) <> Some (File t)) as Hc.
  { intros t. apply (Hfree 0 t). simpl. lia. }
  assert (done ++ [c] <> []) as Hne by (by destruct done).
  assert (existsb has_nul ((done ++ [c]) ++ rest) = false) as Hnul'
    by (by rewrite <- app_assoc).
  destruct (node_at m (done ++ [c])) as [[t|]|] eqn:Hn.
  - by destruct (Hc t).
  - destruct (IH m (done ++ [c]) Hn Hnul') as (m' & Hm & Hd & Hk).
    { intros i t Hi. rewrite <- app_assoc. apply (Hfree (S i) t). simpl. lia. }
    exists m'. split; [done|]. rewrite <- app_assoc in Hd, Hk. done.
  - destruct (IH (<[done ++ [c] := Dir]> m) (done ++ [c])) as (m' & Hm & Hd & Hk).
    { rewrite node_at_cons by done. apply lookup_insert_eq. }
    { done. }
    { intros i t Hi. rewrite <- app_assoc.
      assert (done ++ [c] ++ take (S i) rest <> []) as Hne' by (by destruct done).
      assert (existsb has_nul (done ++ [c] ++ take (S i) rest) = false) as Hn'.
      { rewrite app_assoc, existsb_app, Hdc. cbn [orb]. apply existsb_take.
        rewrite existsb_app in Hnul'. by apply orb_false_elim in Hnul' as [_ ?]. }
      rewrite node_at_cons by done. rewrite lookup_insert_ne.
      - rewrite <- node_at_cons by done. apply (Hfree (S i) t). simpl. lia.
      - intros Heq. apply (f_equal length) in Heq. rewrite !length_app in Heq.
        simpl in Heq. rewrite length_take in Heq. lia. }
    exists m'. split; [done|]. rewrite <- app_assoc in Hd, Hk. split; [done|].
    intros k Hlen. rewrite Hk by done. apply lookup_insert_ne.
    intros Heq. subst k. rewrite !length_app in Hlen. simpl in Hlen. lia.
Qed.

(** Whatever it returns, [os.makedirs] changes a key only by making a
    directory where nothing was, on the way to its target. *)
Lemma mkdir_chain_frame name m done todo :
  existsb has_nul done = false ->
  forall k,
    (mkdir_chain name m done todo).2 !! k = m !! k
    \/ (m !! k = None /\ (mkdir_chain name m done todo).2 !! k = Some Dir
        /\ exists j, j < length todo /\ k = done ++ take (S j) todo).
Proof.
  revert m done. induction todo as [|c rest IH]; intros m done Hdone k.
  { by left. }
  rewrite mkdir_chain_cons. destruct (has_nul c) eqn:Hc0; [by left|].
  assert (done ++ [c] <> []) as Hne by (by destruct done).
  assert (existsb has_nul (done ++ [c]) = false) as Hdc.
  { rewrite existsb_app, Hdone. cbn. by rewrite Hc0. }
  destruct (node_at m (done ++ [c])) as [[t|]|] eqn:Hn.
  - destruct rest; by left.
  - destruct (IH m (done ++ [c]) Hdc k) as [?|(? & ? & j & Hj & ->)]; [by left|right].
    split; [done|]. split; [done|]. exists (S j). split; [simpl; lia|].
    by rewrite <- app_assoc.
  - rewrite node_at_cons in Hn by done.
    destruct (IH (<[done ++ [c] := Dir]> m) (done ++ [c]) Hdc k)
      as [Hk|(Hk & ? & j & Hj & ->)].
    + destruct (decide (k = done ++ [c])) as [->|Hd].
      * right. rewrite lookup_insert_eq in Hk. split; [done|]. split; [done|].
        exists 0. split; [simpl; lia|]. reflexivity.
      * left. by rewrite lookup_insert_ne in Hk.
    + right. split.
      * apply lookup_insert_None in Hk. tauto.
      * split; [done|]. exists (S j). split; [simpl; lia|]. by rewrite <- app_assoc.
Qed.

(** *** Relative paths in an absolute workspace *)

Lemma join_isabs a b : isabs a = true -> isabs b = false -> isabs (PosixPath.join a b) = true.
Proof.
  intros Ha Hb. unfold PosixPath.join. unfold isabs in Hb. rewrite Hb.
  destruct (isabs_inv a Ha) as [r ->].
  by destruct (String.eqb _ _ || endswith_char _ _).
Qed.

Lemma isabs_truthy ws : isabs ws = true -> truthy (VStr ws) = true.
Proof. intros Hws. by destruct (isabs_inv ws Hws) as [r ->]. Qed.

Lemma ancestors_free_spec m k i t :
  ancestors_free m k = true -> i < length (removelast k) ->
  node_at m (take (S i) (removelast k)) <> Some (File t).
Proof.
  unfold ancestors_free. rewrite forallb_forall. intros Hall Hi Hn.
  specialize (Hall i). rewrite Hn in Hall.
  assert (In i (seq 0 (length (removelast k)))) as Hin by (apply in_seq; lia).
  by specialize (Hall Hin).
Qed.

(** Where a relative path in an absolute workspace is looked for. *)
Lemma relative_target p ws w :
  isabs ws = true -> isabs p = false ->
  exists full,
    locate (VStr p) (VStr ws) w = (Ok (inr (VStr (PosixPath.join ws p))), w)
    /\ os_path_abspath (VStr (PosixPath.join ws p)) w = (Ok full, w)
    /\ (forall w0 : world, resolve w0 full = target_key ws p)
    /\ forall w0 : world, stat full w0 = node_at (fs w0) (target_key ws p).
Proof.
  intros Hws Hp. pose proof (join_isabs ws p Hws Hp) as Habs.
  exists (normpath (PosixPath.join ws p)).
  split; [by apply locate_relative, isabs_truthy|].
  split; [unfold os_path_abspath, abspath; by rewrite Habs|].
  unfold target_key.
  destruct (normpath_absolute _ Habs) as (sl & comps & Hs & Hc & ->).
  rewrite path_key_render by done. split.
  - intros w0. by apply resolve_render.
  - intros w0. by apply stat_render.
Qed.

Lemma write_file_except_frame fp e w : snd (write_file_except fp e w) = w.
Proof. unfold write_file_except. by destruct (exc_cls e). Qed.

Lemma removelast_prefix {A} (l : list A) : removelast l `prefix_of` l.
Proof. rewrite removelast_firstn_len. apply prefix_take. Qed.

Lemma ancestor_key_shorter (k : list string) j :
  j < length (removelast k) -> take (S j) (removelast k) <> k.
Proof.
  intros Hj Heq. apply (f_equal length) in Heq. rewrite length_take in Heq.
  rewrite removelast_firstn_len, length_take in Hj, Heq. lia.
Qed.

(** The worlds that a write of a relative path can leave. *)
Lemma write_file_world p content ws w :
  isabs ws = true -> isabs p = false ->
  let w' := snd (write_file (VStr p) content (VStr ws) w) in
  cwd w' = cwd w
  /\ exists m1,
       (m1 = fs w
        \/ exists name,
             m1 = (mkdir_chain name (fs w) [] (removelast (target_key ws p))).2)
       /\ (fs w' = m1 \/ exists t, fs w' = <[target_key ws p := File t]> m1).
Proof.
  intros Hws Hp.
  pose proof (isabs_truthy ws Hws) as Htr.
  pose proof (join_isabs ws p Hws Hp) as Habs.
  unfold target_key in *. set (joined := PosixPath.join ws p) in *.
  destruct (normpath_absolute joined Habs) as (sl & comps & Hs & Hc & Hnorm).
  assert (path_key (normpath joined) = comps) as Hkey
    by (rewrite Hnorm; by apply path_key_render).
  rewrite Hkey.
  unfold write_file, try_except, write_file_body, bind.
  unfold locate. rewrite Htr, Hp. cbn [os_path_join ret bind].
  fold joined. unfold os_path_abspath, abspath. rewrite Habs, Hnorm.
  rewrite dirname_render by done.
  assert (truthy (VStr (render sl (removelast comps))) = true) as ->.
  { by destruct Hs as [-> | ->]. }
  unfold os_makedirs. rewrite resolve_render by (done || by apply Forall_removelast).
  destruct (mkdir_chain _ (fs w) [] (removelast comps)) as [[[]|e] m1] eqn:Hmk.
  2:{ rewrite write_file_except_frame. split; [done|]. exists m1. split; [|by left].
      right. eexists. by rewrite Hmk. }
  assert (exists name, m1 = (mkdir_chain name (fs w) [] (removelast comps)).2) as Hm1.
  { eexists. by rewrite Hmk. }
  unfold os_path_exists.
  set (existed := bool_decide _).
  assert (exists o, (if existed then os_path_getsize (render sl comps) else ret 0%Z)
                      (set_fs w m1) = (o, set_fs w m1)) as [[sz|e] ->].
  { destruct existed eqn:He; [|by eexists].
    unfold os_path_getsize. destruct (has_nul _); [by eexists|].
    destruct (node_at _ _) as [[]|]; by eexists. }
  2:{ rewrite write_file_except_frame. split; [done|]. exists m1. split; [|by left].
      by right. }
  unfold open_w. destruct (has_nul (render sl comps)).
  { rewrite write_file_except_frame. split; [done|]. exists m1. split; [|by left].
    by right. }
  rewrite resolve_render by done. cbn [fs set_fs].
  assert (forall e w0, cwd w0 = cwd w -> (fs w0 = m1 \/ exists t, fs w0 = <[comps:=File t]> m1) ->
     cwd (snd (write_file_except (VStr p) e w0)) = cwd w
     /\ exists m2, (m2 = fs w \/ exists name, m2 = (mkdir_chain name (fs w) [] (removelast comps)).2)
        /\ (fs (snd (write_file_except (VStr p) e w0)) = m2
            \/ exists t, fs (snd (write_file_except (VStr p) e w0)) = <[comps:=File t]> m2)) as Hexc.
  { intros e w0 Hc0 Hf0. rewrite write_file_except_frame. split; [done|].
    exists m1. split; [eauto|done]. }
  destruct (node_at m1 comps) as [[t|]|] eqn:Hn1;
    destruct (node_at m1 (removelast comps)) as [[t'|]|] eqn:Hn2;
    try (apply Hexc; [reflexivity | left; reflexivity]);
    (destruct content; cbn [file_write type_error raise];
     try (apply Hexc; [reflexivity | right; eexists; reflexivity]);
     cbn [snd cwd fs set_fs]; (split; [done|]); exists m1; (split; [eauto|]);
     right; eexists; by rewrite insert_insert_eq).
Qed.

(** What a write of a relative path returns and leaves when nothing is in
    its way. *)
Lemma write_file_result p c ws w :
  isabs ws = true -> isabs p = false ->
  existsb has_nul (target_key ws p) = false ->
  is_directory (fs w) (target_key ws p) = false ->
  ancestors_free (fs w) (target_key ws p) = true ->
  exists r w',
    write_file (VStr p) (VStr c) (VStr ws) w = (Ok r, w')
    /\ dict_get "success" r = Some (VBool true)
    /\ dict_get "file_existed" r
       = Some (VBool (bool_decide (is_Some (node_at (fs w) (target_key ws p)))))
    /\ dict_get "original_size" r
       = Some (VInt (match node_at (fs w) (target_key ws p) with
                     | Some (File old) => utf8_length old
                     | _ => 0%Z
                     end))
    /\ dict_get "bytes_written" r = Some (VInt (Z.of_nat (String.length c)))
    /\ dict_get "lines_written" r = Some (VInt (Z.of_nat (count_char LF c + 1)))
    /\ cwd w' = cwd w
    /\ node_at (fs w') (target_key ws p) = Some (File c)
    /\ ancestors_free (fs w') (target_key ws p) = true.
Proof.
  intros Hws Hp Hnul Hnd Hfree.
  pose proof (isabs_truthy ws Hws) as Htr.
  pose proof (join_isabs ws p Hws Hp) as Habs.
  unfold target_key in *. set (joined := PosixPath.join ws p) in *.
  destruct (normpath_absolute joined Habs) as (sl & comps & Hs & Hc & Hnorm).
  assert (path_key (normpath joined) = comps) as Hkey
    by (rewrite Hnorm; by apply path_key_render).
  rewrite Hkey in *.
  pose proof (existsb_removelast _ _ Hnul) as Hnul'.
  unfold write_file, try_except, write_file_body, bind.
  unfold locate. rewrite Htr, Hp. cbn [os_path_join ret bind].
  fold joined. unfold os_path_abspath, abspath. rewrite Habs, Hnorm.
  rewrite dirname_render by done.
  assert (truthy (VStr (render sl (removelast comps))) = true) as ->.
  { by destruct Hs as [-> | ->]. }
  unfold os_makedirs. rewrite resolve_render by (done || by apply Forall_removelast).
  destruct (mkdir_chain_spec (render sl (removelast comps)) (fs w) [] (removelast comps))
    as (m1 & Hmk & Hd & Hk); [done|done| |].
  { intros i t Hi. by apply ancestors_free_spec. }
  rewrite Hmk.
  simpl in Hd, Hk. unfold is_directory in Hnd.
  assert (comps <> []) as Hne by (by intros ->).
  assert (node_at m1 comps = node_at (fs w) comps) as Hsame.
  { rewrite !node_at_cons by done. apply Hk.
    destruct comps as [|x comps _] using rev_ind; [done|].
    rewrite removelast_last, length_app. simpl. lia. }
  assert (forall i, i < length (removelast comps) ->
            take (S i) (removelast comps) <> []
            /\ existsb has_nul (take (S i) (removelast comps)) = false) as Hanc.
  { intros i Hi. split; [|by apply existsb_take].
    destruct (removelast comps); [simpl in Hi; lia|done]. }
  assert (ancestors_free m1 comps = true) as Hfree1.
  { unfold ancestors_free. apply forallb_forall. intros i Hi. apply in_seq in Hi.
    destruct (Hanc i) as [Hne' Hn']; [lia|].
    destruct (node_at m1 (take (S i) (removelast comps))) as [[t|]|] eqn:Hn; try done.
    rewrite node_at_cons in Hn by done.
    pose proof (mkdir_chain_frame (render sl (removelast comps)) (fs w) []
                  (removelast comps) eq_refl (take (S i) (removelast comps))) as Hfr.
    rewrite Hmk in Hfr. cbn [snd] in Hfr.
    destruct Hfr as [Heq|(_ & Heq & _)]; [|congruence].
    exfalso. eapply (ancestors_free_spec (fs w) comps i t Hfree); [lia|].
    rewrite node_at_cons by done. congruence. }
  assert (forall t, ancestors_free (<[comps := File t]> m1) comps = true) as Hfree2.
  { intros t. unfold ancestors_free in *. rewrite forallb_forall in *. intros i Hi.
    specialize (Hfree1 i Hi). apply in_seq in Hi.
    destruct (Hanc i) as [Hne' Hn']; [lia|].
    rewrite node_at_cons in * by done.
    rewrite lookup_insert_ne; [done|]. intros Heq. symmetry in Heq. revert Heq.
    apply ancestor_key_shorter. lia. }
  assert (has_nul (render sl comps) = false) as Hnr by (by rewrite has_nul_render).
  unfold os_path_exists. rewrite stat_render by done. cbn [fs cwd set_fs].
  rewrite Hsame.
  destruct (node_at (fs w) comps) as [[t|]|] eqn:Hn1; [| done |].
  - rewrite bool_decide_eq_true_2 by eauto.
    unfold os_path_getsize. rewrite Hnr, resolve_render by done. cbn [fs set_fs].
    rewrite Hsame.
    unfold open_w. rewrite Hnr, resolve_render by done. cbn [fs set_fs].
    rewrite Hd, Hsame. cbn [file_write].
    eexists _, _. split; [reflexivity|]. cbn [snd cwd fs set_fs].
    repeat (split; [reflexivity|]). rewrite insert_insert_eq. split; [|apply Hfree2].
    rewrite node_at_cons by done. apply lookup_insert_eq.
  - rewrite bool_decide_eq_false_2 by (by intros [? ?]). cbn [ret].
    unfold open_w. rewrite Hnr, resolve_render by done. cbn [fs set_fs].
    rewrite Hd, Hsame. cbn [file_write].
    eexists _, _. split; [reflexivity|]. cbn [snd cwd fs set_fs].
    repeat (split; [reflexivity|]). rewrite insert_insert_eq. split; [|apply Hfree2].
    rewrite node_at_cons by done. apply lookup_insert_eq.
Qed.

Lemma utf8_length_ge c : (Z.of_nat (String.length c) <= utf8_length c)%Z.
Proof.
  induction c as [|a c IH]; [done|]. cbn [String.length utf8_length].
  destruct (_ <? _)%nat; lia.
Qed.

End ToolFacts.


(** ** The claims about the file tools and the shell tool *)

Section FileClaims.
Context {oracles : Oracles}.

(** C5.  With the workspace root [/tmp/ws], [read_file] of the absolute path
    [/etc/passwd] and [write_file] of the same path with content [x] both
    return a result with [success = false] and the access-denied error, in
    every world; the write leaves the world, and so the file system, as it
    was. *)
Theorem absolute_path_outside_workspace_denied (w : world) :
  read_file (VStr "/etc/passwd") (VStr "/tmp/ws") w
  = (Ok (access_denied "/etc/passwd"), w)
  /\ write_file (VStr "/etc/passwd") (VStr "x") (VStr "/tmp/ws") w
     = (Ok (access_denied "/etc/passwd"), w)
  /\ dict_get "success" (access_denied "/etc/passwd") = Some (VBool false)
  /\ dict_get "error" (access_denied "/etc/passwd")
     = Some (VStr "Access denied: file is outside workspace directory").
Proof. repeat split; reflexivity. Qed.

(** C4, as amended.  For every content [c] (a text of code points below
    256, which UTF-8 encodes), every absolute workspace root and every
    relative path whose target has no component with the character of code
    0, is not a directory and has no regular file among its ancestors,
    [write_file] succeeds and the [read_file] that follows succeeds with the
    content [c] after universal-newline translation; the content is [c]
    itself when [c] holds no carriage return. *)
Theorem write_then_read_round_trip p c ws w :
  isabs ws = true -> isabs p = false ->
  existsb has_nul (target_key ws p) = false ->
  is_directory (fs w) (target_key ws p) = false ->
  ancestors_free (fs w) (target_key ws p) = true ->
  exists r1 w1 r2,
    write_file (VStr p) (VStr c) (VStr ws) w = (Ok r1, w1)
    /\ dict_get "success" r1 = Some (VBool true)
    /\ read_file (VStr p) (VStr ws) w1 = (Ok r2, w1)
    /\ dict_get "success" r2 = Some (VBool true)
    /\ dict_get "content" r2 = Some (VStr (universal_newlines c))
    /\ (count_char CR c = 0 -> dict_get "content" r2 = Some (VStr c)).
Proof.
  intros Hws Hp Hnul Hnd Hfree.
  destruct (write_file_result p c ws w Hws Hp Hnul Hnd Hfree)
    as (r1 & w1 & Hw & Hs & _ & _ & _ & _ & _ & Hn & _).
  destruct (relative_target p ws w1 Hws Hp) as (full & Hloc & Habs & _ & Hst).
  exists r1, w1. eexists. split; [done|]. split; [done|]. split.
  { eapply read_file_of_file; [exact Hloc|exact Habs|]. by rewrite Hst. }
  split; [done|]. split; [done|].
  intros Hcr. cbn [dict_get String.eqb Ascii.eqb Bool.eqb]. by rewrite universal_newlines_id.
Qed.

(** C10.  For a relative [file_path] the tools join the path to the
    workspace root and go on without any containment test: the file found
    under the resulting key is read, and the key is written whenever no
    component of it holds the character of code 0, it is not a directory
    and no ancestor is a regular file, wherever the key lies. *)
Theorem relative_path_not_contained p ws w :
  isabs ws = true -> isabs p = false ->
  locate (VStr p) (VStr ws) w = (Ok (inr (VStr (PosixPath.join ws p))), w)
  /\ (forall text,
        node_at (fs w) (target_key ws p) = Some (File text) ->
        exists r,
          read_file (VStr p) (VStr ws) w = (Ok r, w)
          /\ dict_get "success" r = Some (VBool true)
          /\ dict_get "content" r = Some (VStr (universal_newlines text)))
  /\ (forall c,
        existsb has_nul (target_key ws p) = false ->
        is_directory (fs w) (target_key ws p) = false ->
        ancestors_free (fs w) (target_key ws p) = true ->
        exists r w',
          write_file (VStr p) (VStr c) (VStr ws) w = (Ok r, w')
          /\ dict_get "success" r = Some (VBool true)
          /\ node_at (fs w') (target_key ws p) = Some (File c)).
Proof.
  intros Hws Hp.
  destruct (relative_target p ws w Hws Hp) as (full & Hloc & Habs & Hkey & Hst).
  split; [done|]. split.
  - intros text Hn. eexists. split.
    + eapply read_file_of_file; [exact Hloc|exact Habs|]. by rewrite Hst.
    + by split.
  - intros c Hnul Hnd Hfree.
    destruct (write_file_result p c ws w Hws Hp Hnul Hnd Hfree)
      as (r & w' & Hw & Hs & _ & _ & _ & _ & _ & Hn & _).
    by exists r, w'.
Qed.

(** When the command does not return, the working directory stays in the
    workspace. *)
Lemma run_command_raise_moves_cwd command ws w e m :
  truthy (VStr ws) = true ->
  stat ws w = Some Dir ->
  subprocess_run command (set_cwd w (abspath (cwd w) ws)) = (Raise e, m) ->
  exists d,
    run_command command (VStr ws) w
    = (Ok d, set_fs (set_cwd w (abspath (cwd w) ws)) m)
    /\ dict_get "success" d = Some (VBool false).
Proof.
  intros Hws Hn Hrun.
  unfold run_command, try_except, run_command_body, bind.
  cbn [os_getcwd]. rewrite Hws. cbn [exists_value chdir_value].
  unfold os_path_exists. rewrite Hn.
  rewrite bool_decide_eq_true_2 by eauto.
  unfold stat in Hn. unfold os_chdir. destruct (has_nul ws); [done|].
  rewrite Hn. unfold run_subprocess. rewrite Hrun.
  unfold run_command_except. destruct (exc_cls e); eexists; split; reflexivity.
Qed.

(** When the command returns and the original directory is still there, the
    working directory is restored. *)
Lemma run_command_return_restores_cwd command ws w r m :
  truthy (VStr ws) = true ->
  stat ws w = Some Dir ->
  subprocess_run command (set_cwd w (abspath (cwd w) ws)) = (Ok r, m) ->
  stat (cwd w) (set_fs (set_cwd w (abspath (cwd w) ws)) m) = Some Dir ->
  exists d w',
    run_command command (VStr ws) w = (Ok d, w')
    /\ cwd w' = abspath (abspath (cwd w) ws) (cwd w).
Proof.
  intros Hws Hn Hrun Hback.
  unfold run_command, try_except, run_command_body, bind.
  cbn [os_getcwd]. rewrite Hws. cbn [exists_value chdir_value].
  unfold os_path_exists. rewrite Hn.
  rewrite bool_decide_eq_true_2 by eauto.
  unfold stat in Hn, Hback. unfold os_chdir at 1. destruct (has_nul ws); [done|].
  rewrite Hn. unfold run_subprocess. rewrite Hrun.
  unfold os_chdir. destruct (has_nul (cwd w)); [done|].
  unfold resolve in *. cbn [fs cwd set_fs set_cwd] in *. rewrite Hback.
  eexists _, _. split; reflexivity.
Qed.

End FileClaims.

(** C3, at a failing input.  Started in [/home/dev] on the workspace
    [/tmp/ws], [run_command] on a command that runs out of time returns the
    timeout failure with the working directory left at [/tmp/ws]; on a
    command that returns, the working directory is [/home/dev] again. *)
Theorem run_command_timeout_leaves_cwd :
  let slow := run_command (oracles := example_oracles silent_provider)
                (VStr "sleep 120") (VStr "/tmp/ws") example_world in
  let quick := run_command (oracles := example_oracles silent_provider)
                 (VStr "ls") (VStr "/tmp/ws") example_world in
  cwd example_world = "/home/dev"
  /\ fst slow = Ok [("success", VBool false);
                    ("error", VStr "Command timed out after 60 seconds");
                    ("message", VStr "Command timed out: sleep 120")]
  /\ cwd (snd slow) = "/tmp/ws"
  /\ cwd (snd quick) = "/home/dev".
Proof. repeat split; reflexivity. Qed.

(** A valid relative path inside a validated workspace. *)
Lemma write_then_read_witness :
  isabs "/tmp/ws" = true
  /\ isabs "notes/todo.txt" = false
  /\ existsb has_nul (target_key "/tmp/ws" "notes/todo.txt") = false
  /\ is_directory (fs example_world) (target_key "/tmp/ws" "notes/todo.txt") = false
  /\ ancestors_free (fs example_world) (target_key "/tmp/ws" "notes/todo.txt") = true
  /\ exists r1 w1 r2,
       write_file (oracles := example_oracles silent_provider)
         (VStr "notes/todo.txt") (VStr "buy milk") (VStr "/tmp/ws") example_world
       = (Ok r1, w1)
       /\ dict_get "success" r1 = Some (VBool true)
       /\ read_file (oracles := example_oracles silent_provider)
            (VStr "notes/todo.txt") (VStr "/tmp/ws") w1 = (Ok r2, w1)
       /\ dict_get "success" r2 = Some (VBool true)
       /\ dict_get "content" r2 = Some (VStr (universal_newlines "buy milk"))
       /\ (count_char CR "buy milk" = 0 -> dict_get "content" r2 = Some (VStr "buy milk")).
Proof.
  split; [reflexivity|]. split; [reflexivity|]. split; [vm_compute; reflexivity|].
  split; [vm_compute; reflexivity|]. split; [vm_compute; reflexivity|].
  apply (write_then_read_round_trip (oracles := example_oracles silent_provider)).
  - reflexivity.
  - reflexivity.
  - vm_compute; reflexivity.
  - vm_compute; reflexivity.
  - vm_compute; reflexivity.
Defined.

(** The same path with a carriage return in the content: the write
    succeeds, and the read returns a line feed in its place. *)
Lemma carriage_return_not_round_tripped :
  let c := "a" +:+ String CR "b" in
  let written := write_file (oracles := example_oracles silent_provider)
                   (VStr "notes/todo.txt") (VStr c) (VStr "/tmp/ws") example_world in
  let read := read_file (oracles := example_oracles silent_provider)
                (VStr "notes/todo.txt") (VStr "/tmp/ws") (snd written) in
  valid (validate_workspace_directory (oracles := example_oracles silent_provider)
           "/tmp/ws" example_world) = true
  /\ path (validate_workspace_directory (oracles := example_oracles silent_provider)
             "/tmp/ws" example_world) = "/tmp/ws"
  /\ target_key "/tmp/ws" "notes/todo.txt" = ["tmp"; "ws"; "notes"; "todo.txt"]
  /\ (exists r1, fst written = Ok r1 /\ dict_get "success" r1 = Some (VBool true))
  /\ exists r2,
       fst read = Ok r2
       /\ dict_get "success" r2 = Some (VBool true)
       /\ dict_get "content" r2 = Some (VStr ("a" +:+ String LF "b"))
       /\ dict_get "content" r2 <> Some (VStr c).
Proof.
  cbv zeta. split; [reflexivity|]. split; [reflexivity|]. split; [reflexivity|].
  split.
  - eexists. split; [vm_compute; reflexivity|reflexivity].
  - eexists. split; [vm_compute; reflexivity|].
    split; [reflexivity|]. split; [reflexivity|]. vm_compute. discriminate.
Qed.

(** A path with the character of code 0: neither tool passes it to the
    system, and the write is refused with what [open] raises. *)
Example embedded_null_is_refused :
  let written := write_file (oracles := example_oracles silent_provider)
                   (VStr nul_name) (VStr "x") (VStr "/tmp/ws") example_world in
  let read := read_file (oracles := example_oracles silent_provider)
                (VStr nul_name) (VStr "/tmp/ws") example_world in
  fst written = Ok [("success", VBool false); ("error", VStr "embedded null byte");
                    ("message", VStr ("Failed to write " +:+ nul_name
                                      +:+ ": embedded null byte"))]
  /\ snd written = example_world
  /\ (exists r, fst read = Ok r /\ dict_get "error" r = Some (VStr "File not found")).
Proof.
  cbv zeta. split; [vm_compute; reflexivity|]. split; [vm_compute; reflexivity|].
  eexists. split; [vm_compute; reflexivity|reflexivity].
Qed.

(** The path [../outside.txt] in the workspace [/tmp/ws] names
    [/tmp/outside.txt], outside the workspace: it is read, and it can be
    written. *)
Lemma relative_path_witness :
  isabs "/tmp/ws" = true
  /\ isabs "../outside.txt" = false
  /\ target_key "/tmp/ws" "../outside.txt" = ["tmp"; "outside.txt"]
  /\ path_key "/tmp/ws" = ["tmp"; "ws"]
  /\ (exists r,
        read_file (oracles := example_oracles silent_provider)
          (VStr "../outside.txt") (VStr "/tmp/ws") example_world = (Ok r, example_world)
        /\ dict_get "success" r = Some (VBool true)
        /\ dict_get "content" r = Some (VStr (universal_newlines "secret")))
  /\ existsb has_nul (target_key "/tmp/ws" "../outside.txt") = false
  /\ exists r w',
       write_file (oracles := example_oracles silent_provider)
         (VStr "../outside.txt") (VStr "x") (VStr "/tmp/ws") example_world = (Ok r, w')
       /\ dict_get "success" r = Some (VBool true)
       /\ node_at (fs w') (target_key "/tmp/ws" "../outside.txt") = Some (File "x").
Proof.
  split; [reflexivity|]. split; [reflexivity|].
  split; [reflexivity|]. split; [reflexivity|].
  destruct (relative_path_not_contained (oracles := example_oracles silent_provider)
              "../outside.txt" "/tmp/ws" example_world) as (_ & Hread & Hwrite).
  - reflexivity.
  - reflexivity.
  - split; [apply Hread; vm_compute; reflexivity|].
    split; [vm_compute; reflexivity|].
    apply Hwrite; vm_compute; reflexivity.
Defined.

(** ** The action protocol *)

Section ParserClaims.
Context {oracles : Oracles}.

Lemma scan_line_action st l :
  is_action_line l = true ->
  scan_line st l
  = Ok {| action_found := true; tool_name := Some (named_tool l);
          scan_params := scan_params st; scan_reasoning := scan_reasoning st |}.
Proof. unfold scan_line, is_action_line. by intros ->. Qed.

(** What a line that is no [ACTION:] line does to the locals of the scan. *)
Lemma scan_line_other st l :
  is_action_line l = false ->
  match scan_line st l with
  | Ok st' =>
      action_found st' = action_found st /\ tool_name st' = tool_name st
      /\ (is_params_line l && action_found st = true ->
          (json_loads (params_text l) = JsonDecodeError /\ scan_params st' = VDict [])
          \/ json_loads (params_text l) = JsonValue (scan_params st'))
      /\ (is_params_line l && action_found st = false -> scan_params st' = scan_params st)
  | Raise e =>
      is_params_line l && action_found st = true
      /\ json_loads (params_text l) = JsonRaises e
  end.
Proof.
  unfold scan_line, is_action_line, is_params_line, params_text. intros ->.
  destruct (startswith (strip l) "PARAMS:" && action_found st) eqn:Hp.
  - destruct (json_loads _); cbn [action_found tool_name scan_params]; [| |done].
    + split; [done|]. split; [done|]. split; [by right|done].
    + split; [done|]. split; [done|]. split; [by left|done].
  - destruct (startswith (strip l) "REASONING:" && action_found st);
      cbn [action_found tool_name scan_params]; done.
Qed.

Lemma json_failure_cons seen l rest :
  json_failure seen (l :: rest)
  = if is_action_line l then json_failure true rest
    else if is_params_line l && seen then
      match json_loads (params_text l) with
      | JsonRaises e => Some e
      | _ => json_failure seen rest
      end
    else json_failure seen rest.
Proof. reflexivity. Qed.

(** The scan raises what [json.loads] first raises beyond
    [JSONDecodeError]; otherwise it ends, with the name of the last
    [ACTION:] line. *)
Lemma scan_from_spec lines st :
  match json_failure (action_found st) lines with
  | Some e => scan_from st lines = Raise e
  | None =>
      exists st',
        scan_from st lines = Ok st'
        /\ match last_action_line lines with
           | Some l => action_found st' = true /\ tool_name st' = Some (named_tool l)
           | None => action_found st' = action_found st /\ tool_name st' = tool_name st
           end
  end.
Proof.
  revert st. induction lines as [|l lines IH]; intros st.
  { exists st. done. }
  rewrite json_failure_cons. cbn [scan_from]. unfold last_action_line. cbn [List.filter].
  destruct (is_action_line l) eqn:Hl.
  - rewrite (scan_line_action st l Hl). rewrite last_cons.
    specialize (IH {| action_found := true; tool_name := Some (named_tool l);
                      scan_params := scan_params st;
                      scan_reasoning := scan_reasoning st |}).
    cbn [action_found tool_name] in IH. destruct (json_failure true lines); [done|].
    destruct IH as (st' & Hst & IH). exists st'. split; [done|].
    unfold last_action_line in IH. by destruct (last (List.filter is_action_line lines)).
  - pose proof (scan_line_other st l Hl) as Hs.
    destruct (scan_line st l) as [st1|e].
    + destruct Hs as (Hf & Ht & Hp & _). specialize (IH st1). rewrite Hf in IH.
      assert (json_failure (action_found st) lines
              = (if is_params_line l && action_found st
                 then match json_loads (params_text l) with
                      | JsonRaises e => Some e
                      | _ => json_failure (action_found st) lines
                      end
                 else json_failure (action_found st) lines)) as <-.
      { destruct (is_params_line l && action_found st); [|done].
        destruct Hp as [[-> _]| ->]; done. }
      destruct (json_failure (action_found st) lines); [done|].
      destruct IH as (st' & Hst & IH). exists st'. split; [done|].
      fold (last_action_line lines). destruct (last_action_line lines); [done|].
      destruct IH as [-> ->]. by rewrite Ht.
    + destruct Hs as [-> ->]. done.
Qed.

(** What the parser yields, from the lines of the reply. *)
Lemma parse_action_spec ai_response :
  match json_failure false (split LF ai_response) with
  | Some e => parse_action ai_response = Raise e
  | None =>
      exists st,
        scan_lines (split LF ai_response) = Ok st
        /\ parse_action ai_response
           = Ok match last_action_line (split LF ai_response) with
                | Some l =>
                    if String.eqb (named_tool l) "" then None
                    else Some {| toolName := named_tool l; params := scan_params st;
                                 reasoning := scan_reasoning st |}
                | None => None
                end
  end.
Proof.
  unfold parse_action, scan_lines.
  pose proof (scan_from_spec (split LF ai_response) scan_start) as Hs.
  cbn [action_found scan_start] in Hs.
  destruct (json_failure false _); [by rewrite Hs|].
  destruct Hs as (st & -> & Hs). exists st. split; [done|]. f_equal.
  unfold action_of. destruct (last_action_line _).
  - destruct Hs as [-> ->]. simpl. by destruct (String.eqb _ _).
  - destruct Hs as [_ ->]. done.
Qed.

(** C6, as amended.  When [json.loads] raises something other than
    [JSONDecodeError] on a [PARAMS:] line that comes after an [ACTION:]
    line, [_parse_and_execute_action] raises it, with the world as it was.
    Otherwise it returns nothing exactly when no line of the reply, stripped
    of surrounding white space, begins with [ACTION:], or the last such
    line names no tool (nothing is left of it once [ACTION:] and white
    space are removed); in every other case it returns an action result or
    the dispatch raises. *)
Theorem no_action_iff_no_named_tool ai_response workspace_dir w :
  match json_failure false (split LF ai_response) with
  | Some e => parse_and_execute_action ai_response workspace_dir w = (Raise e, w)
  | None =>
      (exists st, scan_lines (split LF ai_response) = Ok st)
      /\ (fst (parse_and_execute_action ai_response workspace_dir w) = Ok None
          <-> match last_action_line (split LF ai_response) with
              | Some l => named_tool l = ""
              | None => True
              end)
  end.
Proof.
  unfold parse_and_execute_action. pose proof (parse_action_spec ai_response) as Hp.
  destruct (json_failure false _) as [e|]; [by rewrite Hp|].
  destruct Hp as (st & Hst & ->). split; [by exists st|].
  destruct (last_action_line _) as [l|]; [|done].
  destruct (String.eqb (named_tool l) "") eqn:He.
  - apply String.eqb_eq in He. done.
  - apply String.eqb_neq in He. split; [|done].
    unfold bind. destruct (dispatch _ _ _) as [[r|e] w']; discriminate.
Qed.

Lemma params_not_action l : is_params_line l = true -> is_action_line l = false.
Proof.
  unfold is_params_line, is_action_line. intros Hp.
  destruct (strip l) as [|a s]; [done|]. cbn [startswith] in *.
  apply andb_prop in Hp as [Hp _]. apply Ascii.eqb_eq in Hp. by subst a.
Qed.

(** Lines without [PARAMS:] line keep the parameters and raise nothing. *)
Lemma scan_params_kept post st :
  forallb (fun l => negb (is_params_line l)) post = true ->
  exists st', scan_from st post = Ok st' /\ scan_params st' = scan_params st.
Proof.
  revert st. induction post as [|l post IH]; intros st; [by exists st|].
  cbn [forallb scan_from]. intros [Hl Hp]%andb_prop. apply negb_true_iff in Hl.
  destruct (is_action_line l) eqn:Ha.
  - rewrite scan_line_action by done.
    edestruct IH as (st' & -> & Hk); [exact Hp|]. exists st'. by rewrite Hk.
  - pose proof (scan_line_other st l Ha) as Hs. rewrite Hl in Hs. cbn [andb] in Hs.
    destruct (scan_line st l) as [st1|e]; [|by destruct Hs].
    destruct Hs as (_ & _ & _ & Hk). destruct (IH st1 Hp) as (st' & -> & Hk').
    exists st'. split; [done|]. rewrite Hk'. by apply Hk.
Qed.

Lemma scan_from_app pre post st :
  scan_from st (pre ++ post)
  = match scan_from st pre with
    | Ok st' => scan_from st' post
    | Raise e => Raise e
    end.
Proof.
  revert st. induction pre as [|l pre IH]; intros st; [done|].
  cbn [app scan_from]. by destruct (scan_line st l).
Qed.

Lemma last_action_line_found lines :
  existsb is_action_line lines = true -> exists al, last_action_line lines = Some al.
Proof.
  intros Hex. unfold last_action_line.
  destruct (last (List.filter is_action_line lines)) eqn:Hl; [by eexists|].
  apply last_None in Hl. apply existsb_exists in Hex as (x & Hin & Hx).
  assert (In x (List.filter is_action_line lines)) as Hf by (apply filter_In; done).
  rewrite Hl in Hf. done.
Qed.

(** C7, as amended.  Let a [PARAMS:] line come after an [ACTION:] line, be
    reached by the scan (on no earlier line does [json.loads] raise
    anything but [JSONDecodeError]) and be followed by no [PARAMS:] line.
    When [json.loads] raises [JSONDecodeError] on its remainder, the scan
    ends without raising, with an empty parameter mapping: the action that
    the parser yields, which it does when the last [ACTION:] line names a
    tool, has [params = {}].  When [json.loads] raises another exception,
    the parser raises it; when it returns a value, that value is the
    parameters. *)
Theorem invalid_params_give_empty_mapping ai_response pre l post :
  split LF ai_response = pre ++ l :: post ->
  existsb is_action_line pre = true ->
  json_failure false pre = None ->
  is_params_line l = true ->
  forallb (fun l' => negb (is_params_line l')) post = true ->
  match json_loads (params_text l) with
  | JsonRaises e => parse_action ai_response = Raise e
  | answer =>
      exists al st,
        last_action_line (split LF ai_response) = Some al
        /\ scan_lines (split LF ai_response) = Ok st
        /\ scan_params st = match answer with JsonValue v => v | _ => VDict [] end
        /\ parse_action ai_response
           = Ok (if String.eqb (named_tool al) "" then None
                 else Some {| toolName := named_tool al;
                              params := match answer with
                                        | JsonValue v => v
                                        | _ => VDict []
                                        end;
                              reasoning := scan_reasoning st |})
  end.
Proof.
  intros Hsplit Hpre Hreach Hl Hpost.
  pose proof (scan_from_spec pre scan_start) as Hs. cbn [action_found scan_start] in Hs.
  rewrite Hreach in Hs. destruct Hs as (st1 & Hst1 & Hs).
  destruct (last_action_line_found pre Hpre) as [al1 Hal1]. rewrite Hal1 in Hs.
  destruct Hs as [Hf1 _].
  destruct (last_action_line_found (split LF ai_response)) as [al Hal].
  { rewrite Hsplit, existsb_app, Hpre. done. }
  pose proof (scan_line_other st1 l (params_not_action l Hl)) as Hline.
  rewrite Hl, Hf1 in Hline. cbn [andb] in Hline.
  assert (scan_lines (split LF ai_response)
          = match scan_line st1 l with
            | Ok st2 => scan_from st2 post
            | Raise e => Raise e
            end) as Hscan.
  { unfold scan_lines. by rewrite Hsplit, scan_from_app, Hst1. }
  pose proof (parse_action_spec ai_response) as Hparse.
  destruct (scan_line st1 l) as [st2|e].
  - destruct Hline as (_ & _ & Hp & _).
    destruct (scan_params_kept post st2 Hpost) as (st & Hst & Hkept).
    rewrite Hst in Hscan.
    assert (json_failure false (split LF ai_response) = None) as Hnone.
    { destruct (json_failure false (split LF ai_response)); [|done].
      unfold parse_action in Hparse. by rewrite Hscan in Hparse. }
    rewrite Hnone in Hparse. destruct Hparse as (st' & Hst' & Hparse).
    rewrite Hscan in Hst'. injection Hst' as <-. rewrite Hal in Hparse.
    destruct (Hp eq_refl) as [[-> Hv]| ->].
    + exists al, st. rewrite Hkept, Hv in *. done.
    + exists al, st. rewrite Hkept in *. done.
  - destruct Hline as [_ ->]. unfold parse_action. by rewrite Hscan.
Qed.
End ParserClaims.

(** Two replies.  The bare marker: a line begins with [ACTION:], and
    nothing is returned.  An [ACTION:] line followed by a [PARAMS:] line of
    a thousand opening brackets: the call raises the [RecursionError] of
    [json.loads], so nothing is dispatched although the reply names a
    tool. *)
Lemma action_line_without_tool_is_dropped :
  let deep := "ACTION: list_directory" +:+ newline +:+ "PARAMS: " +:+ brackets 1000 in
  existsb (fun l => startswith l "ACTION:") (split LF "ACTION:") = true
  /\ parse_and_execute_action (oracles := example_oracles silent_provider)
       "ACTION:" "/tmp/ws" example_world
     = (Ok None, example_world)
  /\ existsb (fun l => startswith l "ACTION:") (split LF deep) = true
  /\ exists e,
       parse_and_execute_action (oracles := example_oracles silent_provider)
         deep "/tmp/ws" example_world
       = (Raise e, example_world)
       /\ exc_cls e = RecursionError.
Proof.
  cbv zeta. split; [reflexivity|]. split; [reflexivity|].
  split; [vm_compute; reflexivity|]. eexists. split; [vm_compute; reflexivity|reflexivity].
Qed.

Lemma invalid_params_witness :
  let reply := "ACTION: list_directory" +:+ newline +:+ "PARAMS: {bad" in
  split LF reply = ["ACTION: list_directory"] ++ "PARAMS: {bad" :: []
  /\ existsb is_action_line ["ACTION: list_directory"] = true
  /\ json_failure (oracles := example_oracles silent_provider)
       false ["ACTION: list_directory"] = None
  /\ is_params_line "PARAMS: {bad" = true
  /\ forallb (fun l' => negb (is_params_line l')) [] = true
  /\ json_loads (Oracles := example_oracles silent_provider)
       (params_text "PARAMS: {bad") = JsonDecodeError
  /\ exists al st,
       last_action_line (split LF reply) = Some al
       /\ scan_lines (oracles := example_oracles silent_provider) (split LF reply) = Ok st
       /\ scan_params st = VDict []
       /\ parse_action (oracles := example_oracles silent_provider) reply
          = Ok (if String.eqb (named_tool al) "" then None
                else Some {| toolName := named_tool al; params := VDict [];
                             reasoning := scan_reasoning st |}).
Proof.
  cbv zeta. split; [reflexivity|]. split; [reflexivity|]. split; [reflexivity|].
  split; [reflexivity|]. split; [reflexivity|]. split; [reflexivity|].
  apply (invalid_params_give_empty_mapping (oracles := example_oracles silent_provider)
           _ ["ACTION: list_directory"] "PARAMS: {bad" []); reflexivity.
Defined.

(** Four replies with a [PARAMS:] line that is not valid JSON: alone, it
    yields no action; followed by a valid [PARAMS:] line, it yields the
    later parameters; under an [ACTION:] line that names no tool, it yields
    no action; made of a thousand opening brackets, it makes the parser
    raise. *)
Lemma invalid_params_exceptions :
  let parse := parse_action (oracles := example_oracles silent_provider) in
  json_loads (Oracles := example_oracles silent_provider) "{bad" = JsonDecodeError
  /\ parse "PARAMS: {bad" = Ok None
  /\ parse ("ACTION: list_directory" +:+ newline +:+ "PARAMS: {bad" +:+ newline
            +:+ "PARAMS: " +:+ dir_path_json)
     = Ok (Some {| toolName := "list_directory";
                   params := VDict [("dir_path", VStr "lib")];
                   reasoning := EmptyString |})
  /\ parse ("ACTION:" +:+ newline +:+ "PARAMS: {bad") = Ok None
  /\ parse ("ACTION: list_directory" +:+ newline +:+ "PARAMS: " +:+ brackets 1000)
     = Raise (Exc RecursionError
                "maximum recursion depth exceeded while decoding a JSON array from a unicode string").
Proof. cbv zeta. repeat split; vm_compute; reflexivity. Qed.
(** ** The dispatch *)

Section DispatchClaims.
Context {oracles : Oracles}.

Lemma try_except_total {A} (m : M A) (h : pyexc -> M A) w :
  (forall e w1, exists a, h e w1 = (Ok a, w1)) ->
  exists a w', try_except m h w = (Ok a, w').
Proof.
  intros Hh. unfold try_except. destruct (m w) as [[a|e] w1]; [by eauto|].
  destruct (Hh e w1) as [a Ha]. eauto.
Qed.

Lemma read_file_total file_path workspace_dir w :
  exists d w', read_file file_path workspace_dir w = (Ok d, w').
Proof.
  apply try_except_total. intros e w1. unfold read_file_except.
  destruct (exc_cls e); by eexists.
Qed.

Lemma write_file_total file_path content workspace_dir w :
  exists d w', write_file file_path content workspace_dir w = (Ok d, w').
Proof.
  apply try_except_total. intros e w1. unfold write_file_except.
  destruct (exc_cls e); by eexists.
Qed.

Lemma run_command_total command workspace_dir w :
  exists d w', run_command command workspace_dir w = (Ok d, w').
Proof.
  apply try_except_total. intros e w1. unfold run_command_except.
  destruct (exc_cls e); by eexists.
Qed.

Lemma execute_total t args w : exists d w', execute t args w = (Ok d, w').
Proof.
  destruct t; cbn [execute];
    eauto using read_file_total, write_file_total, run_command_total;
    apply try_except_total; intros e w1; by eexists.
Qed.

(** What the [try] block of a tool returns, the tool returns; what it
    raises becomes a failure result with the text of the exception. *)
Lemma execute_converts t args w :
  match tool_body t args w with
  | (Ok d, w1) => execute t args w = (Ok d, w1)
  | (Raise e, w1) =>
      exists d,
        execute t args w = (Ok d, w1)
        /\ dict_get "success" d = Some (VBool false)
        /\ dict_get "error" d = Some (VStr (error_text t e))
  end.
Proof.
  destruct t; cbn [execute tool_body];
    unfold read_file, write_file, run_command, list_directory, analyze_ruby_code,
      analyze_gem_structure, try_except;
    match goal with |- context [match ?m w with _ => _ end] => destruct (m w) as [[d|e] w1] end;
    try reflexivity;
    unfold read_file_except, write_file_except, run_command_except, error_text;
    destruct (exc_cls e); eexists; (split; [reflexivity|]); split; reflexivity.
Qed.

Lemma unexpected_is_type_error name sig kwargs e :
  bind_arguments name sig kwargs = Raise e -> exc_cls e = TypeError.
Proof.
  unfold bind_arguments. destruct (unexpected_keyword sig kwargs).
  - destruct (String.eqb s "self"); by intros [= <-].
  - destruct (missing_arguments sig kwargs); [done|]. by intros [= <-].
Qed.

Lemma call_tool_outcome t p w :
  match p with
  | VDict kwargs =>
      match bind_arguments (qualname t) (signature t) kwargs with
      | Ok args => call_tool t p w = execute t args w
      | Raise e => call_tool t p w = (Raise e, w)
      end
  | _ => exists e, call_tool t p w = (Raise e, w) /\ exc_cls e = TypeError
  end.
Proof.
  destruct p; try (eexists; split; reflexivity).
  unfold call_tool, bind, lift. by destruct (bind_arguments _ _).
Qed.

(** C2, as amended.  Every tool returns a result mapping whatever its
    arguments and the world: what its [try] block returns it returns, and
    what the block raises is caught by the tool's own [except] clauses and
    becomes a failure result whose [error] entry is the message of the
    exception or the text of the clause for its class.  The dispatch has no
    handler of its own.  For a registered tool whose call is well formed it
    returns the result of the tool; for a name that is not registered it
    returns a failure result that names the unknown tool.  It raises exactly
    when the call is not well formed (the parameters are not a mapping, or
    their keys do not fit the signature of the registered tool); what it
    raises then is a [TypeError], and the world is as it was. *)
Theorem dispatch_raises_iff_call_ill_formed (a : action) (workspace_dir : string) (w : world) :
  (forall t args w0,
     match tool_body t args w0 with
     | (Ok d, w1) => execute t args w0 = (Ok d, w1)
     | (Raise e, w1) =>
         exists d,
           execute t args w0 = (Ok d, w1)
           /\ dict_get "success" d = Some (VBool false)
           /\ dict_get "error" d = Some (VStr (error_text t e))
     end)
  /\ (forall t kwargs args,
        lookup_tool (toolName a) tools = Some t ->
        call_params a workspace_dir = Some (VDict kwargs) ->
        bind_arguments (qualname t) (signature t) kwargs = Ok args ->
        exists d w1,
          execute t args w = (Ok d, w1)
          /\ dispatch a workspace_dir w
             = (Ok {| ar_action := toolName a; ar_params := VDict kwargs;
                      ar_result := d; ar_reasoning := reasoning a |}, w1))
  /\ (forall p,
        lookup_tool (toolName a) tools = None ->
        call_params a workspace_dir = Some p ->
        dispatch a workspace_dir w
        = (Ok {| ar_action := toolName a; ar_params := p;
                 ar_result :=
                   [("success", VBool false);
                    ("error", VStr ("Unknown tool: " +:+ toolName a));
                    ("available_tools",
                     VList [VStr "read_file"; VStr "write_file"; VStr "list_directory";
                            VStr "run_command"; VStr "analyze_ruby_code";
                            VStr "analyze_gem_structure"])];
                 ar_reasoning := reasoning a |}, w))
  /\ raises (fst (dispatch a workspace_dir w)) = negb (well_formed_call a workspace_dir)
  /\ (forall e, fst (dispatch a workspace_dir w) = Raise e ->
        exc_cls e = TypeError /\ snd (dispatch a workspace_dir w) = w).
Proof.
  split; [intros t args w0; apply execute_converts|].
  destruct a as [name p r]. cbn [toolName params reasoning].
  split.
  { intros t kwargs args Ht Hp Hb. unfold dispatch, bind. cbn [toolName params reasoning].
    rewrite Ht. unfold call_params in Hp. cbn [params] in Hp.
    destruct (execute_total t args w) as (d & w1 & Hex). exists d, w1. split; [done|].
    pose proof (call_tool_outcome t (VDict kwargs) w) as Hc. cbn beta iota in Hc.
    rewrite Hb, Hex in Hc.
    destruct (truthy (VStr workspace_dir)).
    - destruct p; try discriminate. injection Hp as <-.
      cbn [set_workspace_dir ret]. by rewrite Hc.
    - injection Hp as ->. cbn [ret]. by rewrite Hc. }
  split.
  { intros p' Ht Hp. unfold dispatch, bind. cbn [toolName params reasoning].
    rewrite Ht. unfold call_params in Hp. cbn [params] in Hp.
    destruct (truthy (VStr workspace_dir)).
    - destruct p; try discriminate. by injection Hp as <-.
    - by injection Hp as <-. }
  unfold dispatch, well_formed_call, bind. cbn [toolName params reasoning].
  destruct (lookup_tool name tools) as [t|].
  - destruct (truthy (VStr workspace_dir)).
    + destruct p; try (split; [reflexivity | by intros e [= <-]]).
      cbn [set_workspace_dir ret].
      pose proof (call_tool_outcome t (VDict (dict_set "workspace_dir" (VStr workspace_dir) d)) w) as Hc.
      cbn beta iota in Hc. destruct (bind_arguments _ _) as [args|e0] eqn:Hb.
      * rewrite Hc. destruct (execute_total t args w) as (d0 & w1 & ->).
        split; [reflexivity|by intros e [=]].
      * rewrite Hc. split; [reflexivity|]. intros e [= <-].
        split; [by eapply unexpected_is_type_error|done].
    + cbn [ret]. pose proof (call_tool_outcome t p w) as Hc.
      destruct p;
        try (destruct Hc as (e0 & -> & He0); split; [reflexivity|by intros e [= <-]]).
      destruct (bind_arguments _ _) as [args|e0] eqn:Hb.
      * rewrite Hc. destruct (execute_total t args w) as (d0 & w1 & ->).
        split; [reflexivity|by intros e [=]].
      * rewrite Hc. split; [reflexivity|]. intros e [= <-].
        split; [by eapply unexpected_is_type_error|done].
  - destruct (truthy (VStr workspace_dir)).
    + destruct p; split; try reflexivity; by intros e [= <-].
    + split; [reflexivity|by intros e [=]].
Qed.
End DispatchClaims.


(** A reply that asks for [read_file] without parameters: the call of the
    tool raises, and [_parse_and_execute_action] passes the exception on. *)
Lemma dispatch_propagates_type_error :
  parse_action (oracles := example_oracles silent_provider) "ACTION: read_file"
  = Ok (Some {| toolName := "read_file"; params := VDict []; reasoning := EmptyString |})
  /\ parse_and_execute_action (oracles := example_oracles silent_provider)
       "ACTION: read_file" "/tmp/ws" example_world
     = (Raise (Exc TypeError
                 "FileReadTool.execute() missing 1 required positional argument: 'file_path'"),
        example_world).
Proof. split; reflexivity. Qed.

(** The exception of that call is a [TypeError], and the call is not well
    formed. *)
Lemma dispatch_type_error_witness :
  let a := {| toolName := "read_file"; params := VDict []; reasoning := EmptyString |} in
  let e := Exc TypeError "FileReadTool.execute() missing 1 required positional argument: 'file_path'" in
  fst (dispatch (oracles := example_oracles silent_provider) a "/tmp/ws" example_world)
  = Raise e
  /\ exc_cls e = TypeError
  /\ well_formed_call a "/tmp/ws" = false.
Proof.
  cbv zeta. split; [reflexivity|].
  destruct (dispatch_raises_iff_call_ill_formed
              (oracles := example_oracles silent_provider)
              {| toolName := "read_file"; params := VDict []; reasoning := EmptyString |}
              "/tmp/ws" example_world) as (_ & _ & _ & Hiff & Hcls).
  split.
  - apply Hcls. reflexivity.
  - apply negb_true_iff. rewrite <- Hiff. reflexivity.
Defined.

(** ** The conversation loop *)

Section LoopClaims.
Context {oracles : Oracles}.


Lemma parse_and_execute_none_inv reply ws w w' :
  parse_and_execute_action reply ws w = (Ok None, w') -> parse_action reply = Ok None.
Proof.
  unfold parse_and_execute_action. destruct (parse_action reply) as [[a|]|e]; try done.
  unfold bind. destruct (dispatch _ _ _) as [[]]; discriminate.
Qed.


Lemma loop_bounds sys ws remaining this c w :
  let '(c', _, _) := conversation_loop sys ws remaining this c w in
  calls c' <= calls c + remaining
  /\ match remaining with
     | O => iteration c' = iteration c
     | S _ => this <= iteration c' < this + remaining
     end.
Proof.
  revert this c w. induction remaining as [|n IH]; intros this c w; simpl.
  { lia. }
  destruct (client_create sys (messages c)) as [reply|e]; simpl; [|lia].
  destruct (parse_and_execute_action reply ws w) as [[[r|]|e] w']; simpl; try lia.
  destruct (seems_complete reply); simpl; [lia|].
  match goal with |- context [conversation_loop sys ws n (S this) ?c1 w'] =>
    specialize (IH (S this) c1 w');
    destruct (conversation_loop sys ws n (S this) c1 w') as [[c' e'] w'']
  end.
  simpl in IH. destruct n; simpl in IH; lia.
Qed.

Lemma loop_runs_out sys ws remaining this c w :
  always_acts sys ws ->
  exists c' w',
    conversation_loop sys ws remaining this c w = (c', None, w')
    /\ calls c' = calls c + remaining
    /\ length (replies c') = length (replies c) + remaining
    /\ length (actions_taken c') = length (actions_taken c) + remaining
    /\ match remaining with
       | O => iteration c' = iteration c
       | S n => iteration c' = this + n
       end.
Proof.
  intros Hacts. revert this c w.
  induction remaining as [|n IH]; intros this c w.
  { exists c, w. repeat split; lia. }
  simpl.
  destruct (Hacts (messages c) w) as (reply & r & w' & -> & -> & ->).
  match goal with |- context [conversation_loop sys ws n (S this) ?c1 w'] =>
    destruct (IH (S this) c1 w') as (c' & w'' & -> & Hc & Hr & Ha & Hi)
  end.
  exists c', w''. simpl in *. rewrite !length_app in *. simpl in *.
  split; [done|]. repeat split; try lia. destruct n; lia.
Qed.

(** C8, as amended.  The conversation of a task makes at most 15 provider
    calls and ends in an iteration numbered at most 15.  It makes exactly
    15 calls, in 15 iterations and without an exception, when every reply
    asks for a tool that the dispatch runs without raising and holds no
    completion phrase. *)
Theorem conversation_stops_within_cap task_type workspace instruction_kw w :
  let '(c, e, _) := run_conversation task_type workspace instruction_kw w in
  calls c <= max_iterations
  /\ iteration c + 1 <= max_iterations
  /\ (always_acts (system_prompt_of workspace
                     (get_refactoring_instruction task_type instruction_kw))
                  workspace ->
      e = None /\ calls c = max_iterations /\ iteration c + 1 = max_iterations
      /\ length (replies c) = max_iterations
      /\ length (actions_taken c) = max_iterations).
Proof.
  unfold run_conversation.
  set (sys := system_prompt_of _ _). set (c0 := conversation_start _).
  pose proof (loop_bounds sys workspace max_iterations 0 c0 w) as Hb.
  destruct (conversation_loop sys workspace max_iterations 0 c0 w) as [[c e] w'] eqn:Hl.
  unfold max_iterations in *. simpl in Hb.
  split; [lia|]. split; [lia|]. intros Hacts.
  destruct (loop_runs_out sys workspace 15 0 c0 w Hacts)
    as (c' & w'' & Hl' & Hc & Hr & Ha & Hi).
  fold max_iterations in Hl. unfold max_iterations in Hl. rewrite Hl in Hl'.
  injection Hl' as <- -> <-. clear Hl. subst c0. simpl in *. repeat split; lia.
Qed.

End LoopClaims.

(** A provider that always asks for a registered tool with no required
    parameter. *)
Lemma conversation_cap_witness :
  let run := run_conversation (oracles := example_oracles busy_provider)
               "performance" "/tmp/ws" None example_world in
  always_acts (oracles := example_oracles busy_provider)
    (system_prompt_of (Oracles := example_oracles busy_provider) "/tmp/ws"
       (get_refactoring_instruction (Oracles := example_oracles busy_provider)
          "performance" None))
    "/tmp/ws"
  /\ snd (fst run) = None
  /\ calls (fst (fst run)) = max_iterations
  /\ iteration (fst (fst run)) + 1 = max_iterations.
Proof.
  cbv zeta.
  assert (always_acts (oracles := example_oracles busy_provider)
            (system_prompt_of (Oracles := example_oracles busy_provider) "/tmp/ws"
               (get_refactoring_instruction (Oracles := example_oracles busy_provider)
                  "performance" None))
            "/tmp/ws") as Hacts.
  { intros history w. eexists _, _, _. repeat split; reflexivity. }
  split; [exact Hacts|].
  pose proof (conversation_stops_within_cap (oracles := example_oracles busy_provider)
                "performance" "/tmp/ws" None example_world) as Hcap.
  destruct (run_conversation (oracles := example_oracles busy_provider)
              "performance" "/tmp/ws" None example_world) as [[c e] w'].
  destruct Hcap as (_ & _ & Hfull).
  destruct (Hfull Hacts) as (He & Hc & Hi & _). simpl. auto.
Defined.

(** A provider whose replies hold no completion phrase and no action: the
    task ends after one iteration. *)
Lemma silent_reply_stops_after_one :
  let reply := "I will think about it." in
  let task := execute_refactoring_task (oracles := example_oracles silent_provider)
                "performance" "/tmp/ws" None example_world in
  let run := run_conversation (oracles := example_oracles silent_provider)
               "performance" "/tmp/ws" None example_world in
  (forall history, silent_provider history = Ok reply)
  /\ seems_complete reply = false
  /\ dict_get "success" (fst task) = Some (VBool true)
  /\ dict_get "iterations" (fst task) = Some (VInt 1)
  /\ calls (fst (fst run)) = 1.
Proof. repeat split; reflexivity. Qed.

(** ** The batch runner *)

Section RunnerClaims.
Context {oracles : Oracles} {reporting : Reporting}.

Lemma insert_by_priority_length t l :
  length (insert_by_priority t l) = S (length l).
Proof.
  induction l as [|u l IH]; simpl; [done|].
  destruct (priority t <=? priority u)%Z; simpl; by rewrite ?IH.
Qed.

Lemma sorted_by_priority_length tasks :
  length (sorted_by_priority tasks) = length tasks.
Proof.
  induction tasks as [|t tasks IH]; simpl; [done|].
  by rewrite insert_by_priority_length, IH.
Qed.

(** On results that carry the type of their task, the set comprehension of
    [_check_dependencies] raises nothing. *)
Lemma completed_tasks_typed rs :
  Forall typed_entry rs -> completed_tasks rs = Ok (succeeded_types rs).
Proof.
  unfold succeeded_types.
  induction 1 as [|e rs He _ IH]; [done|]. cbn [completed_tasks List.filter].
  unfold entry_succeeded at 1. destruct (succeeded (result e)) eqn:Hs; [|done].
  rewrite (He Hs), IH. done.
Qed.

Lemma dependencies_unmet_typed task rs :
  Forall typed_entry rs ->
  dependencies_unmet task rs
  = Ok match dependencies task with
       | None | Some [] => false
       | Some deps =>
           negb (forallb (fun dep => existsb (String.eqb dep) (succeeded_types rs)) deps)
       end.
Proof.
  intros Hrs. unfold dependencies_unmet, check_dependencies.
  rewrite completed_tasks_typed by done. by destruct (dependencies task) as [[|]|].
Qed.

Lemma plan_step_skip ws dry st w task :
  dependencies_unmet task (results st) = Ok true ->
  plan_step ws dry st task w
  = (Ok {| results := results st; successful_tasks := successful_tasks st;
           skipped := skipped st ++ [task] |}, w).
Proof. unfold plan_step, bind, lift. by intros ->. Qed.

Lemma dependencies_unmet_intro task deps dep rs done :
  dependencies task = Some deps -> In dep deps ->
  completed_tasks rs = Ok done ->
  existsb (String.eqb dep) done = false ->
  dependencies_unmet task rs = Ok true.
Proof.
  intros Hd Hin Hdone Hnot. unfold dependencies_unmet, check_dependencies.
  rewrite Hd, Hdone. destruct deps as [|d deps]; [done|]. f_equal.
  apply negb_true_iff. apply not_true_is_false. intros Hall.
  rewrite forallb_forall in Hall. specialize (Hall dep Hin). congruence.
Qed.

(** The result of a task, dry run or not, carries the type of the task when
    it is a success. *)
Lemma task_result_typed ws dry task w :
  exists r w',
    task_result ws dry task w = (Ok r, w')
    /\ (succeeded r = true -> dict_get "task_type" r = Some (VStr (task_type task))).
Proof.
  unfold task_result. destruct dry; [by eexists _, _|].
  unfold execute_refactoring_task.
  destruct (negb (valid _)); [by eexists _, _|].
  destruct (run_conversation _ _ _ _) as [[c [e|]] w']; by eexists _, _.
Qed.

(** One turn of the loop on results that carry the type of their task: it
    raises nothing, and it keeps what the loop keeps. *)
Lemma plan_step_spec ws dry st w task :
  Forall typed_entry (results st) ->
  exists st' w',
    plan_step ws dry st task w = (Ok st', w')
    /\ Forall typed_entry (results st')
    /\ plan_invariant [task] st st'.
Proof.
  intros Hrs. unfold plan_step, bind, lift. rewrite dependencies_unmet_typed by done.
  match goal with |- context [if ?b then _ else _] => destruct b end.
  { eexists _, _. split; [reflexivity|]. split; [done|]. split; simpl.
    - exists []. by rewrite app_nil_r.
    - exists [task]. split; [done|]. constructor; [by left|done].
    - lia.
    - rewrite length_app. simpl. lia. }
  destruct (task_result_typed ws dry task w) as (r & w' & -> & Hr).
  destruct (succeeded r) eqn:Hs; eexists _, _; (split; [reflexivity|]); cbn [results].
  all: split; [apply Forall_app; split; [done|]; constructor; [|done];
               unfold typed_entry; cbn [result task_info]; intros Hs';
               first [by apply Hr | congruence]|].
  all: split; simpl.
  all: try (eexists; split; [reflexivity|]; first [by constructor; [left|] | done]).
  all: try (exists []; by rewrite app_nil_r).
  all: rewrite ?List.filter_app, ?length_app; simpl; unfold entry_succeeded; simpl;
       rewrite ?Hs; simpl; lia.
Qed.

Lemma plan_invariant_trans seen1 seen2 st0 st1 st2 :
  plan_invariant seen1 st0 st1 -> plan_invariant seen2 st1 st2 ->
  plan_invariant (seen1 ++ seen2) st0 st2.
Proof.
  intros [(n1 & Hr1 & Hf1) (k1 & Hs1 & Hg1) Hc1 Hl1] [(n2 & Hr2 & Hf2) (k2 & Hs2 & Hg2) Hc2 Hl2].
  split.
  - exists (n1 ++ n2). rewrite Hr2, Hr1, <- app_assoc. split; [done|].
    apply Forall_app. split; eapply Forall_impl; eauto; simpl; intros; apply in_or_app; auto.
  - exists (k1 ++ k2). rewrite Hs2, Hs1, <- app_assoc. split; [done|].
    apply Forall_app. split; eapply Forall_impl; eauto; simpl; intros; apply in_or_app; auto.
  - lia.
  - rewrite length_app. lia.
Qed.

Lemma run_tasks_cons ws dry t tasks st w :
  run_tasks ws dry (t :: tasks) st w
  = match plan_step ws dry st t w with
    | (Ok st1, w1) => run_tasks ws dry tasks st1 w1
    | (Raise e, w1) => (Raise e, w1)
    end.
Proof. reflexivity. Qed.

Lemma run_tasks_app ws dry tasks1 tasks2 st w :
  run_tasks ws dry (tasks1 ++ tasks2) st w
  = match run_tasks ws dry tasks1 st w with
    | (Ok st1, w1) => run_tasks ws dry tasks2 st1 w1
    | (Raise e, w1) => (Raise e, w1)
    end.
Proof.
  revert st w. induction tasks1 as [|t tasks1 IH]; intros st w; [done|].
  cbn [app]. rewrite !run_tasks_cons.
  destruct (plan_step ws dry st t w) as [[st1|e] w1]; [apply IH|done].
Qed.

(** The loop on results that carry the type of their task: it raises
    nothing, and it keeps what each turn keeps. *)
Lemma run_tasks_spec ws dry tasks st w :
  Forall typed_entry (results st) ->
  exists st' w',
    run_tasks ws dry tasks st w = (Ok st', w')
    /\ Forall typed_entry (results st')
    /\ plan_invariant tasks st st'.
Proof.
  revert st w. induction tasks as [|t tasks IH]; intros st w Hrs.
  { exists st, w. split; [done|]. split; [done|].
    split; simpl; try lia; exists []; by rewrite app_nil_r. }
  rewrite run_tasks_cons.
  destruct (plan_step_spec ws dry st w t Hrs) as (st1 & w1 & -> & Hrs1 & H1).
  destruct (IH st1 w1 Hrs1) as (st' & w' & -> & Hrs' & H2).
  exists st', w'. split; [done|]. split; [done|].
  change (t :: tasks) with ([t] ++ tasks). by eapply plan_invariant_trans.
Qed.

(** The steps before the report is saved raise nothing. *)
Lemma run_plan_spec ws tasks dry w :
  exists st w1,
    run_tasks ws dry (sorted_by_priority tasks) plan_start (run_pre_analysis ws w)
    = (Ok st, w1)
    /\ Forall typed_entry (results st)
    /\ plan_invariant (sorted_by_priority tasks) plan_start st
    /\ run_plan ws tasks dry w
       = (Ok (generate_summary ws (results st) (successful_tasks st)
                               (length (sorted_by_priority tasks)), st),
          if dry then w1 else run_post_analysis ws w1).
Proof.
  destruct (run_tasks_spec ws dry (sorted_by_priority tasks) plan_start
              (run_pre_analysis ws w)) as (st & w1 & Hrun & Hrs & Hinv); [constructor|].
  exists st, w1. split; [done|]. split; [done|]. split; [done|].
  unfold run_plan, bind. by rewrite Hrun.
Qed.


(** A run that returns a summary has saved it. *)
Lemma run_gem_refactor_plan_inv ws tasks dry w s st w' :
  run_gem_refactor_plan ws tasks dry w = (Ok (s, st), w') ->
  exists w1,
    run_plan ws tasks dry w = (Ok (s, st), w1)
    /\ save_results ws s w1 = (Ok tt, w').
Proof.
  unfold run_gem_refactor_plan. intros Hrun.
  apply bind_ok_inv in Hrun as ([s0 st0] & w1 & Hplan & Hrun).
  apply bind_ok_inv in Hrun as ([] & w2 & Hsave & Hrun).
  injection Hrun as <- <- <-. by exists w1.
Qed.

(** C1, as amended.  When the sorted plan reaches a task [A] that declares
    a dependency [B] and no result so far is a success of type [B] (the
    result of [B] has [success = false], or there is none), [A] is skipped:
    the step appends no result, counts no success and leaves the world as it
    is; every result of the run belongs to another task of the plan;
    [total_tasks] is the number of tasks, [A] included; [successful_tasks]
    is the number of successful results, none of which is of [A]. *)
Theorem skipped_task_counts_toward_total ws tasks dry w pre A post deps B st1 w1 done s st w' :
  sorted_by_priority tasks = pre ++ A :: post ->
  dependencies A = Some deps ->
  In B deps ->
  run_tasks ws dry pre plan_start (run_pre_analysis ws w) = (Ok st1, w1) ->
  completed_tasks (results st1) = Ok done ->
  existsb (String.eqb B) done = false ->
  run_gem_refactor_plan ws tasks dry w = (Ok (s, st), w') ->
  plan_step ws dry st1 A w1
  = (Ok {| results := results st1; successful_tasks := successful_tasks st1;
           skipped := skipped st1 ++ [A] |}, w1)
  /\ In A (skipped st)
  /\ (exists later, task_results s = results st1 ++ later
                    /\ Forall (fun e => In (task_info e) post) later)
  /\ Forall (fun e => In (task_info e) (pre ++ post)) (task_results s)
  /\ total_tasks s = length tasks
  /\ summary_successful_tasks s = length (List.filter entry_succeeded (task_results s)).
Proof.
  intros Hsorted Hdeps HB Hpre Hdone Hfail Hrun.
  assert (plan_step ws dry st1 A w1
          = (Ok {| results := results st1; successful_tasks := successful_tasks st1;
                   skipped := skipped st1 ++ [A] |}, w1)) as Hstep.
  { apply plan_step_skip. by eapply dependencies_unmet_intro. }
  split; [done|].
  apply run_gem_refactor_plan_inv in Hrun as (w2 & Hrun & _).
  destruct (run_plan_spec ws tasks dry w) as (st0 & w0 & Hloop & _ & _ & Hplan).
  rewrite Hplan in Hrun. injection Hrun as <- <- _. clear Hplan.
  rewrite Hsorted, run_tasks_app, Hpre, run_tasks_cons, Hstep in Hloop.
  destruct (run_tasks_spec ws dry pre plan_start (run_pre_analysis ws w))
    as (st1' & w1' & Hpre' & Hrs1 & Ipre); [constructor|].
  rewrite Hpre in Hpre'. injection Hpre' as <- <-.
  match type of Hloop with run_tasks ws dry post ?st2 w1 = _ =>
    destruct (run_tasks_spec ws dry post st2 w1) as (st3 & w3 & Hpost & _ & Ipost);
      [exact Hrs1|]
  end.
  rewrite Hloop in Hpost. injection Hpost as <- <-.
  clear Hstep Hpre Hfail Hloop. cbn [task_results total_tasks summary_successful_tasks
    generate_summary].
  destruct Ipre as [(n1 & Hr1 & Hf1) (k1 & Hs1 & Hg1) Hc1 Hl1].
  destruct Ipost as [(n2 & Hr2 & Hf2) (k2 & Hs2 & Hg2) Hc2 Hl2]. simpl in *.
  repeat split.
  - rewrite Hs2. apply in_or_app. left. apply in_or_app. right. by left.
  - by exists n2.
  - rewrite Hr2. apply Forall_app. split.
    + rewrite Hr1. eapply Forall_impl; [exact Hf1|]. simpl. intros. apply in_or_app. auto.
    + eapply Forall_impl; [exact Hf2|]. simpl. intros. apply in_or_app. auto.
  - rewrite <- (sorted_by_priority_length tasks), Hsorted. done.
  - lia.
Qed.

Lemma results_partition (l : list task_entry) :
  length l = length (List.filter entry_succeeded l)
             + length (List.filter (fun e => negb (entry_succeeded e)) l).
Proof.
  induction l as [|x l IH]; simpl; [done|]. destruct (entry_succeeded x); simpl; lia.
Qed.

(** X29.  The tallies of a summary: every task of the plan has a result or
    was skipped, and [failed_tasks], the difference of [total_tasks] and
    [successful_tasks], is the number of failed results plus the number of
    skipped tasks. *)
Lemma failed_tasks_tally ws tasks dry w s st w' :
  run_gem_refactor_plan ws tasks dry w = (Ok (s, st), w') ->
  total_tasks s = length (task_results s) + length (skipped st)
  /\ failed_tasks s
     = (Z.of_nat (length (List.filter (fun e => negb (entry_succeeded e))
                            (task_results s)))
        + Z.of_nat (length (skipped st)))%Z.
Proof.
  intros Hrun. apply run_gem_refactor_plan_inv in Hrun as (w2 & Hrun & _).
  destruct (run_plan_spec ws tasks dry w) as (st0 & w0 & _ & _ & Inv & Hplan).
  rewrite Hplan in Hrun. injection Hrun as <- <- _.
  destruct Inv as [_ _ Hc Hl]. simpl in *.
  pose proof (results_partition (results st0)). lia.
Qed.
End RunnerClaims.

(** The plan of two tasks, [performance] depending on [architecture], with a
    provider that cannot be reached: [architecture] fails and [performance]
    is skipped. *)
Lemma skipped_task_witness :
  let O := example_oracles failing_provider in
  let tasks := [performance_task; architecture_task] in
  let before := run_tasks (oracles := O) "/tmp/ws" false [architecture_task] plan_start
                  (run_pre_analysis (oracles := O) "/tmp/ws" example_world) in
  let st1 := match fst before with Ok st => st | Raise _ => plan_start end in
  let run := run_gem_refactor_plan (oracles := O) (reporting := example_reporting)
               "/tmp/ws" tasks false example_world in
  let s := match fst run with Ok r => fst r | Raise _ => generate_summary "" [] 0 0 end in
  let st := match fst run with Ok r => snd r | Raise _ => plan_start end in
  sorted_by_priority tasks = [architecture_task] ++ performance_task :: []
  /\ dependencies performance_task = Some ["architecture"]
  /\ In "architecture" ["architecture"]
  /\ before = (Ok st1, snd before)
  /\ completed_tasks (results st1) = Ok []
  /\ existsb (String.eqb "architecture") [] = false
  /\ run = (Ok (s, st), snd run)
  /\ In performance_task (skipped st)
  /\ Forall (fun e => In (task_info e) ([architecture_task] ++ [])) (task_results s)
  /\ total_tasks s = length tasks
  /\ summary_successful_tasks s = length (List.filter entry_succeeded (task_results s)).
Proof.
  cbv zeta. split; [reflexivity|]. split; [reflexivity|]. split; [by left|].
  split; [vm_compute; reflexivity|]. split; [vm_compute; reflexivity|].
  split; [reflexivity|]. split; [vm_compute; reflexivity|].
  set (before := run_tasks (oracles := example_oracles failing_provider)
                   "/tmp/ws" false [architecture_task] plan_start
                   (run_pre_analysis (oracles := example_oracles failing_provider)
                      "/tmp/ws" example_world)).
  set (run := run_gem_refactor_plan (oracles := example_oracles failing_provider)
                (reporting := example_reporting)
                "/tmp/ws" [performance_task; architecture_task] false example_world).
  destruct (skipped_task_counts_toward_total
              (oracles := example_oracles failing_provider)
              (reporting := example_reporting)
              "/tmp/ws" [performance_task; architecture_task] false example_world
              [architecture_task] performance_task [] ["architecture"] "architecture"
              (match fst before with Ok st => st | Raise _ => plan_start end)
              (snd before) []
              (match fst run with Ok r => fst r | Raise _ => generate_summary "" [] 0 0 end)
              (match fst run with Ok r => snd r | Raise _ => plan_start end)
              (snd run))
    as (_ & Hin & _ & Hall & Htotal & Hsucc).
  - reflexivity.
  - reflexivity.
  - by left.
  - vm_compute; reflexivity.
  - vm_compute; reflexivity.
  - reflexivity.
  - vm_compute; reflexivity.
  - exact (conj Hin (conj Hall (conj Htotal Hsucc))).
Defined.

(** In the same run one task has failed and one was skipped, and the failed
    tally of the summary is two. *)
Lemma skipped_task_in_failed_tally :
  let O := example_oracles failing_provider in
  let run := run_gem_refactor_plan (oracles := O) (reporting := example_reporting)
               "/tmp/ws" [performance_task; architecture_task] false example_world in
  exists s st,
    fst run = Ok (s, st)
    /\ map (fun e => task_type (task_info e)) (task_results s) = ["architecture"]
    /\ map entry_succeeded (task_results s) = [false]
    /\ skipped st = [performance_task]
    /\ total_tasks s = 2
    /\ summary_successful_tasks s = 0
    /\ failed_tasks s = 2%Z
    /\ failed_tasks s
       <> Z.of_nat (length (List.filter (fun e => negb (entry_succeeded e))
                              (task_results s))).
Proof.
  cbv zeta. eexists _, _. split; [vm_compute; reflexivity|].
  repeat split; try (vm_compute; reflexivity). vm_compute. discriminate.
Qed.
(** * Further properties of the code

    What follows covers code that the claims above leave out. *)

(** ** The workspace check and the file tools *)

Section ReadFacts.
Context {oracles : Oracles}.

Lemma abspath_normalised d s :
  isabs d = true ->
  exists sl comps, leading sl /\ Forall clean comps /\ abspath d s = render sl comps.
Proof.
  intros Hd. unfold abspath. destruct (isabs s) eqn:Hs.
  - by apply normpath_absolute.
  - apply normpath_absolute. by apply join_isabs.
Qed.

(** X1.  When the working directory is an absolute path and [workspace_dir]
    is not empty, [validate_workspace_directory] works on an absolute,
    normalised path, and its verdict is read off the node under that path
    and the two permission checks.  Nothing there gives
    [Directory does not exist]; a regular file gives
    [Path is not a directory]; a directory that [os.listdir] refuses with
    [PermissionError] gives [Permission denied]; a directory on which
    [os.listdir] raises anything else gives the text of the exception, with
    the path as it was passed; a directory that [os.access] finds not
    writable gives [Directory not writable]; every other directory is
    valid.  So a valid verdict comes with a directory that can be listed
    and written. *)
Theorem validated_workspace_is_directory ws w :
  isabs (cwd w) = true -> truthy (VStr ws) = true ->
  let v := validate_workspace_directory ws w in
  let abs_path := abspath (cwd w) (strip ws) in
  isabs abs_path = true
  /\ normpath abs_path = abs_path
  /\ match node_at (fs w) (path_key abs_path) with
     | Some Dir =>
         match listdir_error abs_path w with
         | Some e =>
             valid v = false
             /\ match exc_cls e with
                | PermissionError =>
                    path v = abs_path /\ error v = Some "Permission denied"
                | _ => path v = ws /\ error v = Some (str_exc e)
                end
         | None =>
             path v = abs_path
             /\ if access_w_ok abs_path w then valid v = true /\ error v = None
                else valid v = false /\ error v = Some "Directory not writable"
         end
     | Some (File _) =>
         path v = abs_path /\ valid v = false
         /\ error v = Some "Path is not a directory"
     | None =>
         path v = abs_path /\ valid v = false
         /\ error v = Some "Directory does not exist"
     end
  /\ (valid v = true ->
      path v = abs_path
      /\ node_at (fs w) (path_key (path v)) = Some Dir
      /\ listdir_error abs_path w = None
      /\ access_w_ok abs_path w = true).
Proof.
  intros Hcwd Hws. unfold validate_workspace_directory. rewrite Hws. cbn [negb].
  destruct (abspath_normalised (cwd w) (strip ws) Hcwd) as (sl & comps & Hsl & Hc & Habs).
  cbv zeta. rewrite Habs. rewrite stat_render by done.
  split; [by apply isabs_render|]. split; [by apply normpath_render|].
  rewrite path_key_render by done.
  destruct (node_at (fs w) comps) as [[t|]|] eqn:Hn; cbn [valid path error];
    [by repeat split| |by repeat split].
  destruct (listdir_error (render sl comps) w) as [e|].
  { destruct (exc_cls e); cbn [valid path error]; by repeat split. }
  destruct (access_w_ok (render sl comps) w); cbn [negb valid path error].
  - rewrite path_key_render by done. by repeat split.
  - by repeat split.
Qed.

Lemma try_except_frame {A} (m : M A) (h : pyexc -> M A) w :
  snd (m w) = w -> (forall e, snd (h e w) = w) -> snd (try_except m h w) = w.
Proof.
  unfold try_except. destruct (m w) as [[a|e] w1]; simpl; intros ->; [done|].
  intros Hh. apply Hh.
Qed.

Lemma read_file_body_frame fp ws w : snd (read_file_body fp ws w) = w.
Proof.
  unfold read_file_body, bind.
  destruct (locate_frame fp ws w) as [[[d|tv]|e] ->]; [reflexivity| |reflexivity].
  destruct (os_path_abspath tv w) as [[full|e] w1] eqn:Habs;
    pose proof (os_path_abspath_frame _ _ _ _ Habs) as ->; [|reflexivity].
  unfold os_path_exists, os_path_isfile, read_text.
  destruct (bool_decide _); [|reflexivity]. cbn [negb].
  destruct (stat full w) as [[t|]|]; cbn [negb]; try reflexivity.
  destruct (has_nul full); [reflexivity|].
  destruct (node_at (fs w) (resolve w full)) as [[t'|]|]; reflexivity.
Qed.

Lemma read_file_except_frame fp e w : snd (read_file_except fp e w) = w.
Proof. unfold read_file_except. by destruct (exc_cls e). Qed.

(** X2.  [read_file] never changes the world: whatever its arguments and
    whatever it returns, the file system and the working directory are as
    they were. *)
Theorem read_file_changes_nothing fp ws w : snd (read_file fp ws w) = w.
Proof.
  unfold read_file. apply try_except_frame.
  - apply read_file_body_frame.
  - intros e. apply read_file_except_frame.
Qed.

(** X3.  For a relative path in an absolute workspace [read_file] returns a
    result without raising, and the node under the key of the target
    decides it: a regular file is read, with its text after universal-newline
    translation and the number of characters of that text as [file_size]; a
    directory gives [Path is not a file]; nothing there gives
    [File not found]. *)
Theorem read_file_outcome p ws w :
  isabs ws = true -> isabs p = false ->
  exists r,
    read_file (VStr p) (VStr ws) w = (Ok r, w)
    /\ match node_at (fs w) (target_key ws p) with
       | Some (File text) =>
           dict_get "success" r = Some (VBool true)
           /\ dict_get "content" r = Some (VStr (universal_newlines text))
           /\ dict_get "file_size" r
              = Some (VInt (Z.of_nat (String.length (universal_newlines text))))
       | Some Dir =>
           dict_get "success" r = Some (VBool false)
           /\ dict_get "error" r = Some (VStr "Path is not a file")
       | None =>
           dict_get "success" r = Some (VBool false)
           /\ dict_get "error" r = Some (VStr "File not found")
       end.
Proof.
  intros Hws Hp.
  destruct (relative_target p ws w Hws Hp) as (full & Hloc & Habs & Hkey & Hst).
  specialize (Hst w).
  destruct (node_at (fs w) (target_key ws p)) as [[t|]|] eqn:Hn.
  - eexists. split; [by eapply read_file_of_file|]. by repeat split.
  - unfold read_file, try_except, read_file_body, bind. rewrite Hloc, Habs.
    unfold os_path_exists. rewrite Hst.
    rewrite bool_decide_eq_true_2 by eauto. cbn [negb].
    unfold os_path_isfile. rewrite Hst. cbn [negb].
    eexists. split; [reflexivity|]. by repeat split.
  - unfold read_file, try_except, read_file_body, bind. rewrite Hloc, Habs.
    unfold os_path_exists. rewrite Hst.
    rewrite bool_decide_eq_false_2 by (by intros [? ?]).
    eexists. split; [reflexivity|]. by repeat split.
Qed.
End ReadFacts.

(** The workspace written with surrounding blanks and relative to the home
    directory: the validated path is [/tmp/ws]. *)
Lemma validated_workspace_witness :
  let O := example_oracles silent_provider in
  let v := validate_workspace_directory (oracles := O) " ../../tmp/ws/. " example_world in
  let abs_path := abspath (cwd example_world) (strip " ../../tmp/ws/. ") in
  isabs (cwd example_world) = true
  /\ truthy (VStr " ../../tmp/ws/. ") = true
  /\ abs_path = "/tmp/ws"
  /\ valid v = true
  /\ path v = abs_path
  /\ node_at (fs example_world) (path_key (path v)) = Some Dir
  /\ listdir_error (Oracles := O) abs_path example_world = None
  /\ access_w_ok (Oracles := O) abs_path example_world = true.
Proof.
  cbv zeta. split; [reflexivity|]. split; [reflexivity|]. split; [reflexivity|].
  split; [reflexivity|].
  apply (validated_workspace_is_directory (oracles := example_oracles silent_provider)
           " ../../tmp/ws/. " example_world); reflexivity.
Defined.

(** A file that is not there. *)
Lemma read_file_outcome_witness :
  isabs "/tmp/ws" = true
  /\ isabs "lib/missing.rb" = false
  /\ node_at (fs example_world) (target_key "/tmp/ws" "lib/missing.rb") = None
  /\ exists r,
       read_file (oracles := example_oracles silent_provider)
         (VStr "lib/missing.rb") (VStr "/tmp/ws") example_world = (Ok r, example_world)
       /\ match node_at (fs example_world) (target_key "/tmp/ws" "lib/missing.rb") with
          | Some (File text) =>
              dict_get "success" r = Some (VBool true)
              /\ dict_get "content" r = Some (VStr (universal_newlines text))
              /\ dict_get "file_size" r
                 = Some (VInt (Z.of_nat (String.length (universal_newlines text))))
          | Some Dir =>
              dict_get "success" r = Some (VBool false)
              /\ dict_get "error" r = Some (VStr "Path is not a file")
          | None =>
              dict_get "success" r = Some (VBool false)
              /\ dict_get "error" r = Some (VStr "File not found")
          end.
Proof.
  split; [reflexivity|]. split; [reflexivity|]. split; [vm_compute; reflexivity|].
  apply (read_file_outcome (oracles := example_oracles silent_provider)
           "lib/missing.rb" "/tmp/ws" example_world); reflexivity.
Defined.

Section WriteFrame.
Context {oracles : Oracles}.

(** X4.  Whatever the content and whatever it returns, [write_file] of a
    relative path in an absolute workspace leaves the working directory
    where it was, leaves under the key of its target what was there or a
    regular file, and leaves every other key as it was, except that a key
    that held nothing and is a prefix of the target's key may now hold a
    directory.  No other file is written, and nothing is removed. *)
Theorem write_file_touches_only_its_target p content ws w :
  isabs ws = true -> isabs p = false ->
  let w' := snd (write_file (VStr p) content (VStr ws) w) in
  cwd w' = cwd w
  /\ (fs w' !! target_key ws p = fs w !! target_key ws p
      \/ exists t, fs w' !! target_key ws p = Some (File t))
  /\ forall k, k <> target_key ws p ->
       fs w' !! k = fs w !! k
       \/ (fs w !! k = None /\ fs w' !! k = Some Dir
           /\ k `prefix_of` target_key ws p).
Proof.
  intros Hws Hp.
  destruct (write_file_world p content ws w Hws Hp) as (Hcwd & m1 & Hm1 & Hfs).
  cbv zeta. split; [done|].
  assert (forall k, m1 !! k = fs w !! k
                    \/ (fs w !! k = None /\ m1 !! k = Some Dir
                        /\ k <> target_key ws p
                        /\ k `prefix_of` target_key ws p)) as Hframe.
  { intros k. destruct Hm1 as [->|[name ->]]; [by left|].
    destruct (mkdir_chain_frame name (fs w) [] (removelast (target_key ws p)) eq_refl k)
      as [?|(? & ? & j & Hj & ->)]; [by left|right].
    split; [done|]. split; [done|]. cbn [app]. split.
    - by apply ancestor_key_shorter.
    - etrans; [apply prefix_take|apply removelast_prefix]. }
  split.
  - destruct Hfs as [->|[t ->]].
    + destruct (Hframe (target_key ws p)) as [?|(_ & _ & Hne & _)]; [by left|done].
    + right. exists t. apply lookup_insert_eq.
  - intros k Hk.
    assert (fs (snd (write_file (VStr p) content (VStr ws) w)) !! k = m1 !! k) as ->.
    { destruct Hfs as [->|[t ->]]; [done|]. by rewrite lookup_insert_ne. }
    destruct (Hframe k) as [?|(? & ? & _ & ?)]; [by left|by right].
Qed.
End WriteFrame.

(** A new file two directories down. *)
Lemma write_file_frame_witness :
  let w' := snd (write_file (oracles := example_oracles silent_provider)
                   (VStr "notes/todo.txt") (VStr "buy milk") (VStr "/tmp/ws")
                   example_world) in
  isabs "/tmp/ws" = true
  /\ isabs "notes/todo.txt" = false
  /\ cwd w' = cwd example_world
  /\ (fs w' !! target_key "/tmp/ws" "notes/todo.txt"
      = fs example_world !! target_key "/tmp/ws" "notes/todo.txt"
      \/ exists t, fs w' !! target_key "/tmp/ws" "notes/todo.txt" = Some (File t))
  /\ forall k, k <> target_key "/tmp/ws" "notes/todo.txt" ->
       fs w' !! k = fs example_world !! k
       \/ (fs example_world !! k = None /\ fs w' !! k = Some Dir
           /\ k `prefix_of` target_key "/tmp/ws" "notes/todo.txt").
Proof.
  cbv zeta. split; [reflexivity|]. split; [reflexivity|].
  apply (write_file_touches_only_its_target (oracles := example_oracles silent_provider)
           "notes/todo.txt" (VStr "buy milk") "/tmp/ws" example_world); reflexivity.
Defined.

Section Overwrite.
Context {oracles : Oracles}.

(** X5.  When a relative path can be written (no component of its target
    holds the character of code 0, the target is not a directory and no
    ancestor is a regular file), a second [write_file] of the same path
    succeeds, reports [file_existed] and, as [original_size], the length of
    the UTF-8 encoding of the first content, and leaves the second content
    in the file.  The first write had reported the number of characters of
    its content as [bytes_written], which is at most that length. *)
Theorem second_write_reports_first p c1 c2 ws w :
  isabs ws = true -> isabs p = false ->
  existsb has_nul (target_key ws p) = false ->
  is_directory (fs w) (target_key ws p) = false ->
  ancestors_free (fs w) (target_key ws p) = true ->
  exists r1 w1 r2 w2,
    write_file (VStr p) (VStr c1) (VStr ws) w = (Ok r1, w1)
    /\ dict_get "bytes_written" r1 = Some (VInt (Z.of_nat (String.length c1)))
    /\ write_file (VStr p) (VStr c2) (VStr ws) w1 = (Ok r2, w2)
    /\ dict_get "success" r2 = Some (VBool true)
    /\ dict_get "file_existed" r2 = Some (VBool true)
    /\ dict_get "original_size" r2 = Some (VInt (utf8_length c1))
    /\ (Z.of_nat (String.length c1) <= utf8_length c1)%Z
    /\ node_at (fs w2) (target_key ws p) = Some (File c2).
Proof.
  intros Hws Hp Hnul Hnd Hfree.
  destruct (write_file_result p c1 ws w Hws Hp Hnul Hnd Hfree)
    as (r1 & w1 & Hw1 & _ & _ & _ & Hb1 & _ & _ & Hn1 & Hfree1).
  destruct (write_file_result p c2 ws w1 Hws Hp Hnul) as
    (r2 & w2 & Hw2 & Hs2 & He2 & Ho2 & _ & _ & _ & Hn2 & _); [|done|].
  { unfold is_directory. by rewrite Hn1. }
  exists r1, w1, r2, w2. rewrite Hn1 in He2, Ho2.
  rewrite bool_decide_eq_true_2 in He2 by eauto.
  repeat (split; [done|]). split; [apply utf8_length_ge|done].
Qed.
End Overwrite.

(** One accented character, two bytes: the first write reports one byte
    written, the second an original size of two. *)
Lemma second_write_witness :
  isabs "/tmp/ws" = true
  /\ isabs "notes/todo.txt" = false
  /\ existsb has_nul (target_key "/tmp/ws" "notes/todo.txt") = false
  /\ is_directory (fs example_world) (target_key "/tmp/ws" "notes/todo.txt") = false
  /\ ancestors_free (fs example_world) (target_key "/tmp/ws" "notes/todo.txt") = true
  /\ String.length e_acute = 1
  /\ utf8_length e_acute = 2%Z
  /\ exists r1 w1 r2 w2,
       write_file (oracles := example_oracles silent_provider)
         (VStr "notes/todo.txt") (VStr e_acute) (VStr "/tmp/ws") example_world
       = (Ok r1, w1)
       /\ dict_get "bytes_written" r1 = Some (VInt (Z.of_nat (String.length e_acute)))
       /\ write_file (oracles := example_oracles silent_provider)
            (VStr "notes/todo.txt") (VStr "ok") (VStr "/tmp/ws") w1 = (Ok r2, w2)
       /\ dict_get "success" r2 = Some (VBool true)
       /\ dict_get "file_existed" r2 = Some (VBool true)
       /\ dict_get "original_size" r2 = Some (VInt (utf8_length e_acute))
       /\ (Z.of_nat (String.length e_acute) <= utf8_length e_acute)%Z
       /\ node_at (fs w2) (target_key "/tmp/ws" "notes/todo.txt") = Some (File "ok").
Proof.
  split; [reflexivity|]. split; [reflexivity|]. split; [vm_compute; reflexivity|].
  split; [vm_compute; reflexivity|]. split; [vm_compute; reflexivity|].
  split; [reflexivity|]. split; [reflexivity|].
  apply (second_write_reports_first (oracles := example_oracles silent_provider)
           "notes/todo.txt" e_acute "ok" "/tmp/ws" example_world).
  - reflexivity.
  - reflexivity.
  - vm_compute; reflexivity.
  - vm_compute; reflexivity.
  - vm_compute; reflexivity.
Defined.

Section AccessAndShell.
Context {oracles : Oracles}.

Lemma startswith_app s t : startswith (s +:+ t) s = true.
Proof.
  induction s as [|a s IH]; [by destruct t|].
  change (String a s +:+ t) with (String a (s +:+ t)). cbn [startswith].
  by rewrite Ascii.eqb_refl.
Qed.

Lemma isabs_app s t : isabs s = true -> isabs (s +:+ t) = true.
Proof. intros Hs. by destruct (isabs_inv s Hs) as [r ->]. Qed.

Lemma locate_prefixed ws s w :
  isabs ws = true -> normpath ws = ws ->
  locate (VStr (ws +:+ s)) (VStr ws) w = (Ok (inr (VStr (ws +:+ s))), w).
Proof.
  intros Hws Hn. unfold locate. rewrite (isabs_truthy ws Hws), (isabs_app ws s Hws).
  unfold bind, os_path_abspath, abspath. rewrite Hws, Hn, startswith_app. reflexivity.
Qed.

(** X6.  The containment test of the file tools is a test on strings: for a
    normalised absolute workspace root [ws], a path that begins with the
    characters of [ws] passes it whatever follows, and [read_file] and
    [write_file] then do what they do when no workspace is given. *)
Theorem workspace_prefix_is_accepted ws s content w :
  isabs ws = true -> normpath ws = ws ->
  read_file (VStr (ws +:+ s)) (VStr ws) w = read_file (VStr (ws +:+ s)) VNone w
  /\ write_file (VStr (ws +:+ s)) content (VStr ws) w
     = write_file (VStr (ws +:+ s)) content VNone w.
Proof.
  intros Hws Hn. split.
  - unfold read_file, try_except, read_file_body, bind.
    by rewrite (locate_prefixed ws s w Hws Hn).
  - unfold write_file, try_except, write_file_body, bind.
    by rewrite (locate_prefixed ws s w Hws Hn).
Qed.

(** X7.  Started in a normalised absolute working directory with a
    workspace that is an existing directory, [run_command] on a command
    that returns, and after which the original working directory is still a
    directory, returns a result whose [success] says whether the return
    code is zero, with the output, the error output and the return code of
    the command; the file system is the one that the command left and the
    working directory is the original one. *)
Theorem run_command_restores_cwd command ws w r m :
  isabs (cwd w) = true -> normpath (cwd w) = cwd w ->
  truthy (VStr ws) = true ->
  stat ws w = Some Dir ->
  subprocess_run command (set_cwd w (abspath (cwd w) ws)) = (Ok r, m) ->
  node_at m (path_key (cwd w)) = Some Dir ->
  run_command command (VStr ws) w
  = (Ok [("success", VBool (returncode r =? 0)%Z);
         ("output", VStr (stdout r)); ("error", VStr (stderr r));
         ("return_code", VInt (returncode r)); ("command", command);
         ("message", VStr ("Command executed: " +:+ fmt command))],
     {| fs := m; cwd := cwd w |}).
Proof.
  intros Habs Hnorm Hws Hn Hrun Hback.
  unfold run_command, try_except, run_command_body, bind.
  cbn [os_getcwd]. rewrite Hws. cbn [exists_value chdir_value].
  unfold os_path_exists. rewrite Hn.
  rewrite bool_decide_eq_true_2 by eauto.
  unfold stat in Hn. unfold os_chdir at 1. destruct (has_nul ws); [done|].
  rewrite Hn. unfold run_subprocess. rewrite Hrun.
  assert (has_nul (cwd w) = false) as Hnul.
  { destruct (normpath_absolute (cwd w) Habs) as (sl & comps & Hsl & Hc & Hr).
    rewrite Hnorm in Hr. rewrite Hr, path_key_render in Hback by done.
    rewrite Hr, has_nul_render by done.
    destruct comps as [|c comps]; [done|]. unfold node_at in Hback.
    by destruct (existsb has_nul (c :: comps)). }
  unfold os_chdir, resolve. rewrite Hnul. cbn [fs cwd set_fs set_cwd].
  assert (abspath (abspath (cwd w) ws) (cwd w) = cwd w) as ->.
  { unfold abspath at 1. by rewrite Habs. }
  rewrite Hback. reflexivity.
Qed.

(** X8.  Without a workspace ([None] or the empty string) [run_command]
    never moves the working directory: the world that it leaves is the
    original one with the file system that the command left, whether the
    command returns, in which case [success] says whether the return code is
    zero, or raises, in which case the result is a failure. *)
Theorem run_command_without_workspace command ws w :
  truthy ws = false ->
  snd (run_command command ws w) = set_fs w (snd (subprocess_run command w))
  /\ match fst (subprocess_run command w) with
     | Ok r =>
         exists d, fst (run_command command ws w) = Ok d
                   /\ dict_get "success" d = Some (VBool (returncode r =? 0)%Z)
                   /\ dict_get "return_code" d = Some (VInt (returncode r))
     | Raise e =>
         exists d, fst (run_command command ws w) = Ok d
                   /\ dict_get "success" d = Some (VBool false)
     end.
Proof.
  intros Hws. unfold run_command, try_except, run_command_body, bind.
  cbn [os_getcwd]. rewrite Hws. cbn [ret]. unfold run_subprocess.
  destruct (subprocess_run command w) as [[r|e] m]; cbn [fst snd].
  - split; [reflexivity|]. eexists. split; [reflexivity|]. by split.
  - unfold run_command_except. destruct (exc_cls e); cbn [fst snd ret];
      (split; [reflexivity|]); eexists; (split; [reflexivity|]); reflexivity.
Qed.
End AccessAndShell.

(** The workspace [/tmp/ws] and the absolute path [/tmp/ws/../outside.txt],
    which names the file [/tmp/outside.txt] next to the workspace: the path
    passes the test and the file is read. *)
Lemma workspace_prefix_witness :
  let p := "/tmp/ws" +:+ "/../outside.txt" in
  isabs "/tmp/ws" = true
  /\ normpath "/tmp/ws" = "/tmp/ws"
  /\ path_key (normpath p) = ["tmp"; "outside.txt"]
  /\ dict_get "content"
       (match fst (read_file (oracles := example_oracles silent_provider)
                     (VStr p) (VStr "/tmp/ws") example_world) with
        | Ok r => r
        | Raise _ => []
        end) = Some (VStr "secret")
  /\ read_file (oracles := example_oracles silent_provider)
       (VStr p) (VStr "/tmp/ws") example_world
     = read_file (oracles := example_oracles silent_provider) (VStr p) VNone example_world
  /\ write_file (oracles := example_oracles silent_provider)
       (VStr p) (VStr "x") (VStr "/tmp/ws") example_world
     = write_file (oracles := example_oracles silent_provider)
         (VStr p) (VStr "x") VNone example_world.
Proof.
  cbv zeta. split; [reflexivity|]. split; [reflexivity|].
  split; [reflexivity|]. split; [vm_compute; reflexivity|].
  apply (workspace_prefix_is_accepted (oracles := example_oracles silent_provider)
           "/tmp/ws" "/../outside.txt" (VStr "x") example_world); reflexivity.
Defined.

(** The command [ls], started in [/home/dev] on the workspace [/tmp/ws]. *)
Lemma run_command_restores_witness :
  isabs (cwd example_world) = true
  /\ normpath (cwd example_world) = cwd example_world
  /\ truthy (VStr "/tmp/ws") = true
  /\ stat "/tmp/ws" example_world = Some Dir
  /\ subprocess_run (Oracles := example_oracles silent_provider) (VStr "ls")
       (set_cwd example_world (abspath (cwd example_world) "/tmp/ws"))
     = (Ok (Completed 0 EmptyString EmptyString), fs example_world)
  /\ node_at (fs example_world) (path_key (cwd example_world)) = Some Dir
  /\ run_command (oracles := example_oracles silent_provider)
       (VStr "ls") (VStr "/tmp/ws") example_world
     = (Ok [("success", VBool (returncode (Completed 0 EmptyString EmptyString) =? 0)%Z);
            ("output", VStr (stdout (Completed 0 EmptyString EmptyString)));
            ("error", VStr (stderr (Completed 0 EmptyString EmptyString)));
            ("return_code", VInt (returncode (Completed 0 EmptyString EmptyString)));
            ("command", VStr "ls");
            ("message",
             VStr ("Command executed: "
                   +:+ fmt (oracles := example_oracles silent_provider) (VStr "ls")))],
        {| fs := fs example_world; cwd := cwd example_world |}).
Proof.
  split; [reflexivity|]. split; [reflexivity|]. split; [reflexivity|].
  split; [vm_compute; reflexivity|]. split; [reflexivity|].
  split; [vm_compute; reflexivity|].
  apply (run_command_restores_cwd (oracles := example_oracles silent_provider)
           (VStr "ls") "/tmp/ws" example_world (Completed 0 EmptyString EmptyString)
           (fs example_world)).
  - reflexivity.
  - reflexivity.
  - reflexivity.
  - vm_compute; reflexivity.
  - reflexivity.
  - vm_compute; reflexivity.
Defined.

(** The command that runs out of time, without a workspace: a failure, and
    the working directory has not moved. *)
Lemma run_command_without_workspace_witness :
  let O := example_oracles silent_provider in
  truthy VNone = false
  /\ cwd (snd (run_command (oracles := O) (VStr "sleep 120") VNone example_world))
     = cwd example_world
  /\ snd (run_command (oracles := O) (VStr "sleep 120") VNone example_world)
     = set_fs example_world
         (snd (subprocess_run (Oracles := O) (VStr "sleep 120") example_world))
  /\ match fst (subprocess_run (Oracles := O) (VStr "sleep 120") example_world) with
     | Ok r =>
         exists d,
           fst (run_command (oracles := O) (VStr "sleep 120") VNone example_world) = Ok d
           /\ dict_get "success" d = Some (VBool (returncode r =? 0)%Z)
           /\ dict_get "return_code" d = Some (VInt (returncode r))
     | Raise e =>
         exists d,
           fst (run_command (oracles := O) (VStr "sleep 120") VNone example_world) = Ok d
           /\ dict_get "success" d = Some (VBool false)
     end.
Proof.
  cbv zeta. split; [reflexivity|]. split; [reflexivity|].
  apply (run_command_without_workspace (oracles := example_oracles silent_provider)
           (VStr "sleep 120") VNone example_world). reflexivity.
Defined.

(** ** The dispatch and the parser *)

Section DispatchFacts.
Context {oracles : Oracles}.

Lemma dict_set_twice k v v' d : dict_set k v (dict_set k v' d) = dict_set k v d.
Proof.
  induction d as [|[k' u] d IH]; cbn [dict_set].
  - by rewrite String.eqb_refl.
  - destruct (String.eqb k k') eqn:He; cbn [dict_set].
    + by rewrite String.eqb_refl.
    + by rewrite He, IH.
Qed.

Lemma dict_get_set k v d : dict_get k (dict_set k v d) = Some v.
Proof.
  induction d as [|[k' u] d IH]; cbn [dict_set dict_get].
  - by rewrite String.eqb_refl.
  - destruct (String.eqb k k') eqn:He; cbn [dict_get].
    + by rewrite String.eqb_refl.
    + by rewrite He.
Qed.

(** X9.  For a tool name that is not registered and parameters that are a
    mapping, the dispatch returns, without raising and without changing the
    world, an action result whose [result] has [success = false], the error
    [Unknown tool: ] followed by the name, and the six registered names in
    the order of their registration; the parameters that it reports are the
    given ones with the workspace put in. *)
Theorem unknown_tool_is_reported name d reasoning ws w :
  lookup_tool name tools = None ->
  dispatch (Action name (VDict d) reasoning) ws w
  = (Ok {| ar_action := name;
           ar_params := VDict (if truthy (VStr ws)
                               then dict_set "workspace_dir" (VStr ws) d else d);
           ar_result :=
             [("success", VBool false); ("error", VStr ("Unknown tool: " +:+ name));
              ("available_tools",
               VList [VStr "read_file"; VStr "write_file"; VStr "list_directory";
                      VStr "run_command"; VStr "analyze_ruby_code";
                      VStr "analyze_gem_structure"])];
           ar_reasoning := reasoning |}, w).
Proof.
  intros Hl. unfold dispatch, bind. cbn [toolName params Agent.reasoning].
  destruct (truthy (VStr ws)); cbn [set_workspace_dir ret]; by rewrite Hl.
Qed.

(** X10.  With a non-empty workspace, what the dispatch does and returns
    does not depend on the [workspace_dir] that the parameters of the action
    carry: an action whose parameters give [workspace_dir] any value is
    dispatched as the action without it, and the parameters that a returned
    action result reports map [workspace_dir] to the workspace. *)
Theorem supplied_workspace_dir_is_overridden name d v reasoning ws w :
  truthy (VStr ws) = true ->
  dispatch (Action name (VDict (dict_set "workspace_dir" v d)) reasoning) ws w
  = dispatch (Action name (VDict d) reasoning) ws w
  /\ forall r w',
       dispatch (Action name (VDict d) reasoning) ws w = (Ok r, w') ->
       exists d', ar_params r = VDict d'
                  /\ dict_get "workspace_dir" d' = Some (VStr ws).
Proof.
  intros Hws. split.
  - unfold dispatch, bind. cbn [toolName params Agent.reasoning]. rewrite Hws.
    cbn [set_workspace_dir ret]. by rewrite dict_set_twice.
  - unfold dispatch. cbn [toolName params Agent.reasoning]. rewrite Hws.
    cbn [set_workspace_dir]. unfold bind at 1. cbn [ret].
    intros r w' Hd. exists (dict_set "workspace_dir" (VStr ws) d).
    split; [|apply dict_get_set].
    destruct (lookup_tool name tools).
    + apply bind_ok_inv in Hd as (res & w1 & _ & Hd). by injection Hd as <- _.
    + by injection Hd as <- _.
Qed.

Lemma dispatch_action a ws w r w' :
  dispatch a ws w = (Ok r, w') -> ar_action r = toolName a.
Proof.
  unfold dispatch. intros Hd.
  apply bind_ok_inv in Hd as (p & w1 & _ & Hd).
  destruct (lookup_tool _ _).
  - apply bind_ok_inv in Hd as (res & w2 & _ & Hd). by injection Hd as <- _.
  - by injection Hd as <- _.
Qed.

Lemma split_newline a b :
  split LF (a +:+ newline +:+ b) = split LF a ++ split LF b.
Proof.
  induction a as [|c a IH]; [reflexivity|].
  change (String c a +:+ newline +:+ b) with (String c (a +:+ newline +:+ b)).
  cbn [split]. rewrite IH. destruct (Ascii.eqb c LF); [reflexivity|].
  destruct (split LF a) eqn:Hs; [|reflexivity].
  by destruct a as [|x a]; [|cbn [split] in Hs; destruct (Ascii.eqb x LF), (split LF a)].
Qed.

Lemma last_action_line_app pre post l :
  last_action_line post = Some l -> last_action_line (pre ++ post) = Some l.
Proof.
  unfold last_action_line. rewrite List.filter_app. intros Hl.
  destruct (List.filter is_action_line post) as [|x rest] using rev_ind; [done|].
  rewrite app_assoc, last_snoc. by rewrite last_snoc in Hl.
Qed.

(** X11.  Parameters outlive the action they were written for: when a reply
    continues, after a line break, with text that has an [ACTION:] line
    naming a tool and no [PARAMS:] line, the parser yields the tool of the
    last such line with the parameters that the scan of the text before had
    ended with; when the scan of the text before raises, the parser raises
    the same. *)
Theorem later_action_takes_earlier_params first rest l :
  forallb (fun l' => negb (is_params_line l')) (split LF rest) = true ->
  last_action_line (split LF rest) = Some l ->
  named_tool l <> "" ->
  match scan_lines (split LF first) with
  | Ok st =>
      exists why,
        parse_action (first +:+ newline +:+ rest)
        = Ok (Some {| toolName := named_tool l; params := scan_params st;
                      reasoning := why |})
  | Raise e => parse_action (first +:+ newline +:+ rest) = Raise e
  end.
Proof.
  intros Hp Hl Hn.
  assert (scan_lines (split LF (first +:+ newline +:+ rest))
          = match scan_lines (split LF first) with
            | Ok st => scan_from st (split LF rest)
            | Raise e => Raise e
            end) as Hscan.
  { unfold scan_lines. by rewrite split_newline, scan_from_app. }
  destruct (scan_lines (split LF first)) as [st|e].
  2:{ unfold parse_action. by rewrite Hscan. }
  destruct (scan_params_kept (split LF rest) st Hp) as (st' & Hst' & Hkept).
  rewrite Hst' in Hscan.
  pose proof (parse_action_spec (first +:+ newline +:+ rest)) as Hparse.
  destruct (json_failure false (split LF (first +:+ newline +:+ rest))).
  { unfold parse_action in Hparse. by rewrite Hscan in Hparse. }
  destruct Hparse as (st'' & Hst'' & ->). rewrite Hscan in Hst''. injection Hst'' as <-.
  rewrite split_newline, (last_action_line_app _ _ _ Hl).
  apply String.eqb_neq in Hn. rewrite Hn, Hkept. by eexists.
Qed.

Lemma scan_line_before_action st l :
  action_found st = false -> is_action_line l = false -> scan_line st l = Ok st.
Proof.
  unfold scan_line, is_action_line. intros -> ->. by rewrite !andb_false_r.
Qed.

(** X12.  Lines before the first [ACTION:] line count for nothing: when no
    line of [before] begins, once stripped, with [ACTION:], the parser
    yields for [before], a line break and [rest] what it yields for [rest]
    alone, whatever [PARAMS:] and [REASONING:] lines [before] holds. *)
Theorem lines_before_first_action_are_ignored before rest :
  forallb (fun l => negb (is_action_line l)) (split LF before) = true ->
  parse_action (before +:+ newline +:+ rest) = parse_action rest.
Proof.
  intros Hb. unfold parse_action. rewrite split_newline.
  unfold scan_lines. rewrite scan_from_app.
  assert (scan_from scan_start (split LF before) = Ok scan_start) as ->; [|done].
  induction (split LF before) as [|l ls IH]; [done|].
  cbn [forallb] in Hb. apply andb_prop in Hb as [Hl Hls].
  cbn [scan_from]. rewrite scan_line_before_action; [by apply IH|done|].
  by apply negb_true_iff.
Qed.
End DispatchFacts.

(** A tool that the registry does not have. *)
Lemma unknown_tool_witness :
  let O := example_oracles silent_provider in
  lookup_tool "delete_file" tools = None
  /\ dispatch (oracles := O)
       (Action "delete_file" (VDict [("file_path", VStr "a.rb")]) "tidy up")
       "/tmp/ws" example_world
     = (Ok {| ar_action := "delete_file";
              ar_params :=
                VDict (if truthy (VStr "/tmp/ws")
                       then dict_set "workspace_dir" (VStr "/tmp/ws")
                              [("file_path", VStr "a.rb")]
                       else [("file_path", VStr "a.rb")]);
              ar_result :=
                [("success", VBool false);
                 ("error", VStr ("Unknown tool: " +:+ "delete_file"));
                 ("available_tools",
                  VList [VStr "read_file"; VStr "write_file"; VStr "list_directory";
                         VStr "run_command"; VStr "analyze_ruby_code";
                         VStr "analyze_gem_structure"])];
              ar_reasoning := "tidy up" |}, example_world).
Proof.
  cbv zeta. split; [reflexivity|].
  apply (unknown_tool_is_reported (oracles := example_oracles silent_provider)
           "delete_file" [("file_path", VStr "a.rb")] "tidy up" "/tmp/ws" example_world).
  reflexivity.
Defined.

(** A reply that asks to read [outside.txt] with the workspace set to
    [/tmp]: the tool looks in [/tmp/ws] and finds nothing. *)
Lemma supplied_workspace_dir_witness :
  let O := example_oracles silent_provider in
  let d := [("file_path", VStr "outside.txt")] in
  truthy (VStr "/tmp/ws") = true
  /\ dispatch (oracles := O)
       (Action "read_file" (VDict (dict_set "workspace_dir" (VStr "/tmp") d)) "look")
       "/tmp/ws" example_world
     = dispatch (oracles := O) (Action "read_file" (VDict d) "look")
         "/tmp/ws" example_world
  /\ forall r w',
       dispatch (oracles := O) (Action "read_file" (VDict d) "look")
         "/tmp/ws" example_world = (Ok r, w') ->
       exists d', ar_params r = VDict d'
                  /\ dict_get "workspace_dir" d' = Some (VStr "/tmp/ws").
Proof.
  cbv zeta. split; [reflexivity|].
  apply (supplied_workspace_dir_is_overridden (oracles := example_oracles silent_provider)
           "read_file" [("file_path", VStr "outside.txt")] (VStr "/tmp") "look"
           "/tmp/ws" example_world).
  reflexivity.
Defined.

(** A reply with two actions: the second, which takes no parameter, is
    given the parameters of the first. *)
Lemma later_action_witness :
  let O := example_oracles silent_provider in
  let first := "ACTION: list_directory" +:+ newline +:+ "PARAMS: " +:+ dir_path_json in
  let rest := "ACTION: analyze_gem_structure" in
  forallb (fun l' => negb (is_params_line l')) (split LF rest) = true
  /\ last_action_line (split LF rest) = Some "ACTION: analyze_gem_structure"
  /\ named_tool "ACTION: analyze_gem_structure" <> ""
  /\ (exists st, scan_lines (oracles := O) (split LF first) = Ok st
                 /\ scan_params st = VDict [("dir_path", VStr "lib")])
  /\ match scan_lines (oracles := O) (split LF first) with
     | Ok st =>
         exists why,
           parse_action (oracles := O) (first +:+ newline +:+ rest)
           = Ok (Some {| toolName := named_tool "ACTION: analyze_gem_structure";
                         params := scan_params st; reasoning := why |})
     | Raise e => parse_action (oracles := O) (first +:+ newline +:+ rest) = Raise e
     end.
Proof.
  cbv zeta. split; [reflexivity|]. split; [reflexivity|].
  split; [vm_compute; discriminate|].
  split; [eexists; split; [vm_compute; reflexivity|reflexivity]|].
  apply (later_action_takes_earlier_params (oracles := example_oracles silent_provider)
           ("ACTION: list_directory" +:+ newline +:+ "PARAMS: " +:+ dir_path_json)
           "ACTION: analyze_gem_structure" "ACTION: analyze_gem_structure").
  - reflexivity.
  - reflexivity.
  - vm_compute; discriminate.
Defined.

(** Parameters written before the action are lost. *)
Lemma lines_before_first_action_witness :
  let O := example_oracles silent_provider in
  let before := "PARAMS: " +:+ dir_path_json in
  let rest := "ACTION: list_directory" in
  forallb (fun l => negb (is_action_line l)) (split LF before) = true
  /\ parse_action (oracles := O) rest
     = Ok (Some {| toolName := "list_directory"; params := VDict [];
                   reasoning := EmptyString |})
  /\ parse_action (oracles := O) (before +:+ newline +:+ rest)
     = parse_action (oracles := O) rest.
Proof.
  cbv zeta. split; [vm_compute; reflexivity|]. split; [vm_compute; reflexivity|].
  apply (lines_before_first_action_are_ignored (oracles := example_oracles silent_provider)
           ("PARAMS: " +:+ dir_path_json) "ACTION: list_directory").
  vm_compute; reflexivity.
Defined.
(** ** The conversation of a task *)

Section ConversationFacts.
Context {oracles : Oracles}.

Lemma alternates_app b l l' :
  alternates b (l ++ l')
  = alternates b l && alternates (if Nat.even (length l) then b else negb b) l'.
Proof.
  revert b. induction l as [|m l IH]; intros b; [done|].
  cbn [app alternates length]. rewrite IH, Nat.even_succ, <- Nat.negb_even.
  rewrite andb_assoc. f_equal. destruct (Nat.even (length l)); [done|].
  by rewrite negb_involutive.
Qed.

(** The history is only appended to, and it keeps alternating and ending
    with a user turn until the loop ends. *)
Lemma loop_history sys ws remaining this c w :
  alternates true (messages c) = true -> Nat.odd (length (messages c)) = true ->
  let '(c', _, _) := conversation_loop sys ws remaining this c w in
  messages c `prefix_of` messages c'
  /\ alternates true (messages c') = true.
Proof.
  revert this c w. induction remaining as [|n IH]; intros this c w Halt Hodd;
    cbn [conversation_loop].
  { done. }
  cbn [messages].
  destruct (client_create sys (messages c)) as [reply|e]; cbn [messages]; [|done].
  assert (Nat.even (length (messages c)) = false) as Hev.
  { rewrite <- Nat.negb_odd, Hodd. done. }
  destruct (parse_and_execute_action reply ws w) as [[[r|]|e] w']; cbn [messages].
  - assert (alternates true (messages c ++ [Message "assistant" reply;
                                            Message "user" (result_message r)]) = true)
      as Halt'.
    { rewrite alternates_app, Halt, Hev. reflexivity. }
    destruct (seems_complete reply).
    { cbn [messages]. split; [by apply prefix_app_r|done]. }
    match goal with |- context [conversation_loop sys ws n (S this) ?c1 w'] =>
      specialize (IH (S this) c1 w' Halt');
      destruct (conversation_loop sys ws n (S this) c1 w') as [[c' e'] w'']
    end.
    destruct IH as [Hpre Ha].
    { cbn [messages]. rewrite length_app, Nat.odd_add, Hodd. reflexivity. }
    split; [|done]. etrans; [|exact Hpre]. cbn [messages]. by apply prefix_app_r.
  - split; [by apply prefix_app_r|].
    rewrite alternates_app, Halt, Hev. by destruct (_ <? _).
  - done.
Qed.

(** X13.  The history that the conversation of a task builds begins with
    the instruction as a user turn, and its roles alternate between [user]
    and [assistant] from there on, however the conversation ends. *)
Theorem history_alternates task_type workspace instruction_kw w :
  let '(c, _, _) := run_conversation task_type workspace instruction_kw w in
  head (messages c)
  = Some (Message "user" (get_refactoring_instruction task_type instruction_kw))
  /\ alternates true (messages c) = true.
Proof.
  unfold run_conversation.
  set (sys := system_prompt_of _ _). set (c0 := conversation_start _).
  pose proof (loop_history sys workspace max_iterations 0 c0 w) as Hh.
  destruct (conversation_loop sys workspace max_iterations 0 c0 w) as [[c e] w'].
  destruct Hh as [[new Hpre] Halt]; [reflexivity|reflexivity|].
  split; [|done]. rewrite Hpre. reflexivity.
Qed.

Lemma requested_tools_app l l' :
  requested_tools (l ++ l') = requested_tools l ++ requested_tools l'.
Proof. unfold requested_tools. apply omap_app. Qed.

Lemma parse_and_execute_result reply ws w r w' :
  parse_and_execute_action reply ws w = (Ok (Some r), w') ->
  requested_tool reply = Some (ar_action r).
Proof.
  unfold parse_and_execute_action, requested_tool.
  destruct (parse_action reply) as [[a|]|e]; try done.
  intros Hb. apply bind_ok_inv in Hb as (r' & w1 & Hd & Hb). injection Hb as -> _.
  apply dispatch_action in Hd. by rewrite Hd.
Qed.

Lemma loop_actions sys ws remaining this c w :
  actions_taken c = requested_tools (replies c) ->
  let '(c', e, _) := conversation_loop sys ws remaining this c w in
  actions_taken c' `prefix_of` requested_tools (replies c')
  /\ (e = None -> actions_taken c' = requested_tools (replies c'))
  /\ length (actions_taken c') <= length (actions_taken c) + remaining.
Proof.
  revert this c w. induction remaining as [|n IH]; intros this c w Hinv;
    cbn [conversation_loop].
  { rewrite Hinv. split; [done|]. split; [done|lia]. }
  cbn [messages].
  destruct (client_create sys (messages c)) as [reply|e];
    cbn [actions_taken replies].
  2:{ rewrite Hinv. split; [done|]. split; [done|lia]. }
  destruct (parse_and_execute_action reply ws w) as [[[r|]|e] w'] eqn:Hpe;
    cbn [actions_taken replies].
  - assert (actions_taken c ++ [ar_action r] = requested_tools (replies c ++ [reply]))
      as Hinv'.
    { rewrite requested_tools_app, Hinv. f_equal. unfold requested_tools.
      cbn [omap list_omap]. by rewrite (parse_and_execute_result _ _ _ _ _ Hpe). }
    destruct (seems_complete reply); cbn [actions_taken replies].
    { rewrite Hinv'. split; [done|]. split; [done|].
      rewrite <- Hinv', length_app. simpl. lia. }
    match goal with |- context [conversation_loop sys ws n (S this) ?c1 w'] =>
      specialize (IH (S this) c1 w' Hinv');
      destruct (conversation_loop sys ws n (S this) c1 w') as [[c' e'] w'']
    end.
    cbn [actions_taken] in IH. rewrite length_app in IH. simpl in IH.
    destruct IH as (? & ? & ?). split; [done|]. split; [done|lia].
  - apply parse_and_execute_none_inv in Hpe.
    assert (requested_tools (replies c ++ [reply]) = actions_taken c) as ->.
    { rewrite requested_tools_app, Hinv. unfold requested_tools at 2.
      cbn [omap list_omap]. unfold requested_tool. rewrite Hpe. by rewrite app_nil_r. }
    split; [done|]. split; [done|lia].
  - rewrite requested_tools_app, <- Hinv.
    split; [by apply prefix_app_r|]. split; [done|lia].
Qed.

(** X14.  [actions_taken] lists, in order, the tools that the replies asked
    for, whether registered or not and whether they succeeded or not: it is
    a prefix of the tools parsed from the replies, it is all of them when
    the conversation ends without an exception, and it has at most 15
    entries. *)
Theorem actions_are_the_requested_tools task_type workspace instruction_kw w :
  let '(c, e, _) := run_conversation task_type workspace instruction_kw w in
  actions_taken c `prefix_of` requested_tools (replies c)
  /\ (e = None -> actions_taken c = requested_tools (replies c))
  /\ length (actions_taken c) <= max_iterations.
Proof.
  unfold run_conversation.
  set (sys := system_prompt_of _ _). set (c0 := conversation_start _).
  pose proof (loop_actions sys workspace max_iterations 0 c0 w) as Hh.
  destruct (conversation_loop sys workspace max_iterations 0 c0 w) as [[c e] w'].
  apply Hh. reflexivity.
Qed.

Lemma run_conversation_bounds task_type workspace instruction_kw w :
  let '(c, _, _) := run_conversation task_type workspace instruction_kw w in
  iteration c + 1 <= 15 /\ length (actions_taken c) <= 15.
Proof.
  unfold run_conversation.
  set (sys := system_prompt_of _ _). set (c0 := conversation_start _).
  pose proof (loop_bounds sys workspace max_iterations 0 c0 w) as Hb.
  pose proof (loop_actions sys workspace max_iterations 0 c0 w) as Ha.
  destruct (conversation_loop sys workspace max_iterations 0 c0 w) as [[c e] w'].
  destruct Ha as (_ & _ & Ha); [reflexivity|].
  unfold max_iterations in *. cbn [calls actions_taken length c0 conversation_start] in *.
  destruct Hb as (_ & Hb). lia.
Qed.

(** X15.  The mapping that [execute_refactoring_task] returns.  When
    [success] holds, the workspace was valid, [task_type] is the type asked
    for, [iterations] lies between 1 and 15, [actions] is a list of at most
    15 names, and [primaryAction] is the first of them, or [analysis] when
    there is none.  Otherwise there is an [error] text and [primaryAction]
    is [error]; when the cause is the workspace, the world is as it was, the
    mapping has no [task_type] and [actions] is empty. *)
Theorem task_result_shape task_type workspace_dir instruction_kw w :
  let '(r, w') := execute_refactoring_task task_type workspace_dir instruction_kw w in
  if succeeded r then
    valid (validate_workspace_directory workspace_dir w) = true
    /\ dict_get "task_type" r = Some (VStr task_type)
    /\ exists n names,
         dict_get "iterations" r = Some (VInt n) /\ (1 <= n <= 15)%Z
         /\ dict_get "actions" r = Some (str_list names)
         /\ length names <= 15
         /\ dict_get "primaryAction" r
            = Some (VStr (default "analysis" (head names)))
  else
    (exists msg, dict_get "error" r = Some (VStr msg))
    /\ dict_get "primaryAction" r = Some (VStr "error")
    /\ (valid (validate_workspace_directory workspace_dir w) = false ->
        w' = w /\ dict_get "task_type" r = None
        /\ dict_get "actions" r = Some (VList [])).
Proof.
  unfold execute_refactoring_task.
  destruct (valid (validate_workspace_directory workspace_dir w)) eqn:Hv; cbn [negb].
  2:{ cbn. split; [by eexists|]. done. }
  pose proof (run_conversation_bounds task_type
                (path (validate_workspace_directory workspace_dir w))
                instruction_kw w) as Hb.
  destruct (run_conversation _ _ _ _) as [[c [e|]] w'].
  - cbn. split; [by eexists|]. split; [done|]. intros [=].
  - change (succeeded _) with true. cbv iota.
    split; [done|]. split; [reflexivity|].
    exists (Z.of_nat (iteration c + 1)), (actions_taken c).
    destruct Hb as (Hi & Ha). unfold max_iterations in *.
    split; [reflexivity|]. split; [lia|]. split; [reflexivity|]. split; [lia|reflexivity].
Qed.
End ConversationFacts.

(** ** The plan runner *)

Section PlanOrder.
Context {oracles : Oracles} {reporting : Reporting}.

Lemma insert_by_priority_perm t l : insert_by_priority t l ≡ₚ t :: l.
Proof.
  induction l as [|u l IH]; cbn [insert_by_priority]; [done|].
  destruct (priority t <=? priority u)%Z; [done|]. rewrite IH. apply perm_swap.
Qed.

Lemma sorted_by_priority_perm tasks : sorted_by_priority tasks ≡ₚ tasks.
Proof.
  induction tasks as [|t tasks IH]; cbn [sorted_by_priority]; [done|].
  by rewrite insert_by_priority_perm, IH.
Qed.

Lemma insert_by_priority_sorted t l :
  StronglySorted (fun a b => (priority a <= priority b)%Z) l ->
  StronglySorted (fun a b => (priority a <= priority b)%Z) (insert_by_priority t l).
Proof.
  induction l as [|u l IH]; cbn [insert_by_priority]; intros Hs.
  { by repeat constructor. }
  apply StronglySorted_inv in Hs as [Hs Hu].
  destruct (priority t <=? priority u)%Z eqn:Hle.
  - apply Z.leb_le in Hle. constructor; [by constructor|].
    constructor; [done|]. eapply Forall_impl; [exact Hu|]. simpl. intros. lia.
  - apply Z.leb_gt in Hle. constructor; [by apply IH|].
    rewrite insert_by_priority_perm. constructor; [lia|done].
Qed.

Lemma insert_by_priority_filter p t l :
  List.filter (fun u => (priority u =? p)%Z) (insert_by_priority t l)
  = List.filter (fun u => (priority u =? p)%Z) (t :: l).
Proof.
  induction l as [|u l IH]; cbn [insert_by_priority]; [done|].
  destruct (priority t <=? priority u)%Z eqn:Hle; [done|].
  apply Z.leb_gt in Hle. cbn [List.filter] in *. rewrite IH.
  destruct (priority t =? p)%Z eqn:Ht; [|done].
  apply Z.eqb_eq in Ht. assert ((priority u =? p)%Z = false) as ->; [|done].
  apply Z.eqb_neq. lia.
Qed.

(** X16.  The order in which [run_gem_refactor_plan] takes the tasks:
    [sorted_by_priority] returns a permutation of the tasks in which
    priorities never decrease, and tasks of equal priority keep the order in
    which they were given. *)
Theorem sorted_by_priority_is_a_stable_sort tasks :
  sorted_by_priority tasks ≡ₚ tasks
  /\ StronglySorted (fun a b => (priority a <= priority b)%Z) (sorted_by_priority tasks)
  /\ forall p, List.filter (fun t => (priority t =? p)%Z) (sorted_by_priority tasks)
               = List.filter (fun t => (priority t =? p)%Z) tasks.
Proof.
  split; [apply sorted_by_priority_perm|]. split.
  - induction tasks as [|t tasks IH]; cbn [sorted_by_priority]; [constructor|].
    by apply insert_by_priority_sorted.
  - intros p. induction tasks as [|t tasks IH]; [done|].
    cbn [sorted_by_priority]. rewrite insert_by_priority_filter.
    cbn [List.filter]. by rewrite IH.
Qed.









End PlanOrder.

Section PlanRuns.
Context {oracles : Oracles} {reporting : Reporting}.










End PlanRuns.



(** The plan of two tasks with a provider that cannot be reached: one task
    fails, one is skipped, and [failed_tasks] is two. *)
Lemma failed_tasks_tally_witness :
  let O := example_oracles failing_provider in
  let run := run_gem_refactor_plan (oracles := O) (reporting := example_reporting)
               "/tmp/ws" [performance_task; architecture_task] false example_world in
  let s := match fst run with Ok r => fst r | Raise _ => generate_summary "" [] 0 0 end in
  let st := match fst run with Ok r => snd r | Raise _ => plan_start end in
  run = (Ok (s, st), snd run)
  /\ failed_tasks s = 2%Z
  /\ total_tasks s = length (task_results s) + length (skipped st)
  /\ failed_tasks s
     = (Z.of_nat (length (List.filter (fun e => negb (entry_succeeded e))
                            (task_results s)))
        + Z.of_nat (length (skipped st)))%Z.
Proof.
  cbv zeta.
  set (run := run_gem_refactor_plan (oracles := example_oracles failing_provider)
                (reporting := example_reporting)
                "/tmp/ws" [performance_task; architecture_task] false example_world).
  split; [vm_compute; reflexivity|]. split; [vm_compute; reflexivity|].
  exact (failed_tasks_tally (oracles := example_oracles failing_provider)
           (reporting := example_reporting)
           "/tmp/ws" [performance_task; architecture_task] false example_world
           (match fst run with Ok r => fst r | Raise _ => generate_summary "" [] 0 0 end)
           (match fst run with Ok r => snd r | Raise _ => plan_start end)
           (snd run)
           ltac:(vm_compute; reflexivity)).
Defined.

(** ** The report of a run *)

Section SaveFacts.
Context {oracles : Oracles} {reporting : Reporting}.









End SaveFacts.

(** ** The provider configuration *)

Section ProviderFacts.
Import Provider.
Context {host : Host}.

Lemma save_config_fields m :
  configs (save_config m) = configs m
  /\ current_provider (save_config m) = current_provider m
  /\ (config_file (save_config m) = config_file m
      \/ config_file (save_config m) = Some (configs m, current_provider m)).
Proof. unfold save_config. destruct save_succeeds; cbn; auto. Qed.

Lemma ensure_usable m :
  ensure_provider_setup m = true
  <-> given (current_provider m) = true
      /\ usable_current (configs m) (current_provider m) = true.
Proof.
  unfold ensure_provider_setup, get_current_config, usable_current, given.
  destruct (current_provider m) as [p|]; [|by split; [|intros []]].
  destruct (nonempty p); [|by split; [|intros []]].
  destruct (configs m !! p); [|by split; [|intros []]]. tauto.
Qed.

Lemma update_api_key_keeps p key config config' :
  update_api_key p key config = Some config' ->
  nonempty (api_key config) = true -> nonempty (api_key config') = true.
Proof.
  unfold update_api_key. destruct (given key) eqn:Hk.
  { intros [= <-] _. cbn. by destruct key. }
  intros Hu Hn. rewrite Hn in Hu. cbn in Hu. by injection Hu as <-.
Qed.

Lemma update_api_key_type p key config config' :
  update_api_key p key config = Some config' ->
  provider_type config' = provider_type config.
Proof.
  unfold update_api_key. destruct (given key); [by intros [= <-]|].
  destruct (negb _); [|by intros [= <-]].
  destruct (given (getenv _)); [by intros [= <-]|].
  destruct (getpass _); [by intros [= <-]|done].
Qed.

Lemma usable_current_insert cfgs current p config :
  usable_current cfgs current = true ->
  (current = Some p -> nonempty p = true -> nonempty (api_key config) = true) ->
  usable_current (<[p := config]> cfgs) current = true.
Proof.
  unfold usable_current. destruct current as [q|]; [|done].
  destruct (nonempty q) eqn:Hq; [|done]. intros Hu Hp.
  destruct (decide (q = p)) as [->|Hne].
  - rewrite lookup_insert_eq. by apply Hp.
  - by rewrite lookup_insert_ne.
Qed.

(** What [setup_provider] leaves: the manager as it was, or the
    configuration of the one provider replaced. *)
Lemma setup_provider_cases m p key new_model :
  let '(ok, m') := setup_provider m p key new_model in
  (ok = false /\ m' = m)
  \/ exists config0 config,
       config_to_set_up m p = Some config0
       /\ provider_type config = provider_type config0
       /\ (nonempty (api_key config0) = true -> nonempty (api_key config) = true)
       /\ configs m' = <[p := config]> (configs m)
       /\ ((ok = false /\ nonempty (api_key config) = false
            /\ configs m !! p = Some config0
            /\ current_provider m' = current_provider m
            /\ config_file m' = config_file m)
           \/ (ok = true /\ nonempty (api_key config) = true
               /\ current_provider m'
                  = (if given (current_provider m) then current_provider m else Some p)
               /\ (config_file m' = config_file m
                   \/ config_file m' = Some (configs m', current_provider m')))).
Proof.
  unfold setup_provider.
  destruct (config_to_set_up m p) as [config0|] eqn:H0; [|by left].
  destruct (update_api_key p key config0) as [config1|] eqn:H1; [|by left].
  set (config := if given new_model then _ else config1).
  assert (provider_type config = provider_type config0
          /\ api_key config = api_key config1) as [Hty Hkey].
  { subst config. rewrite <- (update_api_key_type _ _ _ _ H1).
    by destruct (given new_model). }
  assert (nonempty (api_key config0) = true -> nonempty (api_key config) = true) as Hk.
  { rewrite Hkey. by eapply update_api_key_keeps. }
  destruct (nonempty (api_key config)) eqn:Hn; cbn [negb].
  - right. exists config0, config. split; [done|]. split; [done|]. split; [done|].
    match goal with |- context [save_config ?m1] =>
      destruct (save_config_fields m1) as (Hc & Hcur & Hf) end.
    cbn [configs current_provider config_file] in *.
    split; [done|]. right. split; [done|]. split; [done|]. split; [done|].
    rewrite Hc, Hcur. exact Hf.
  - destruct (bool_decide (is_Some (configs m !! p))) eqn:Hsh; [|by left].
    apply bool_decide_eq_true_1 in Hsh as [c Hc].
    right. exists config0, config. split; [done|]. split; [done|]. split; [rewrite Hn; exact Hk|].
    split; [done|]. left. split; [done|]. split; [done|].
    unfold config_to_set_up in H0. rewrite Hc in H0. by rewrite Hc, H0.
Qed.

(** X23.  Once [ensure_provider_setup] holds it keeps holding: after
    [setup_provider] with any arguments, whatever it returns, and after
    [set_provider] with any name but the empty one. *)
Theorem provider_stays_ready m :
  ensure_provider_setup m = true ->
  (forall p key new_model,
     ensure_provider_setup (snd (setup_provider m p key new_model)) = true)
  /\ (forall p, p <> "" -> ensure_provider_setup (snd (set_provider m p)) = true).
Proof.
  intros Hr. split.
  - intros p key new_model.
    pose proof (setup_provider_cases m p key new_model) as Hc.
    destruct (setup_provider m p key new_model) as [ok m']. cbn [snd].
    destruct Hc as [[_ ->]|(c0 & c & H0 & _ & Hk & Hcf & Hrest)]; [done|].
    apply ensure_usable in Hr as [Hg Hu]. apply ensure_usable.
    assert (current_provider m' = current_provider m) as Hcur.
    { destruct Hrest as [(_ & _ & _ & ? & _)|(_ & _ & Hcur & _)]; [done|].
      by rewrite Hg in Hcur. }
    rewrite Hcur, Hcf. split; [done|]. apply usable_current_insert; [done|].
    intros Hp _. apply Hk. unfold usable_current in Hu. rewrite Hp in Hu, Hg.
    cbn [given] in Hg. rewrite Hg in Hu. unfold config_to_set_up in H0.
    destruct (configs m !! p); [|done]. by injection H0 as <-.
  - intros p Hp. unfold set_provider. destruct (configs m !! p) as [c|] eqn:Hc; [|done].
    destruct (nonempty (api_key c)) eqn:Hn; [|done]. cbn [snd].
    match goal with |- context [save_config ?m1] =>
      destruct (save_config_fields m1) as (Hcf & Hcur & _) end.
    unfold ensure_provider_setup, get_current_config. rewrite Hcur, Hcf.
    cbn [current_provider configs]. rewrite Hc.
    apply String.eqb_neq in Hp. unfold nonempty at 1. by rewrite Hp.
Qed.

Lemma supported_defaults :
  supported anthropic_default = true /\ supported openrouter_default = true.
Proof. done. Qed.

Lemma sound_data_file m :
  sound_data (configs m, current_provider m) ->
  (forall d, config_file m = Some d -> sound_data d) ->
  sound (save_config m).
Proof.
  intros Hd Hf. unfold save_config. destruct save_succeeds; [|by split].
  split; [done|]. cbn. by intros d [= <-].
Qed.

Lemma sound_new_manager_default : sound (create_default_config None None).
Proof.
  unfold create_default_config. apply sound_data_file; [|done].
  cbn [configs current_provider]. split; cbn [fst snd].
  - destruct (given (getenv "ANTHROPIC_API_KEY")) eqn:Ha.
    + rewrite andb_false_r. unfold usable_current.
      change (nonempty "anthropic") with true. cbv iota.
      rewrite lookup_insert_eq. cbn [api_key set_api_key].
      destruct (getenv "ANTHROPIC_API_KEY"); [done|discriminate].
    + rewrite andb_true_r.
      destruct (given (getenv "OPENROUTER_API_KEY")) eqn:Ho; [|done].
      unfold usable_current. change (nonempty "openrouter") with true. cbv iota.
      rewrite lookup_insert_ne by done. rewrite lookup_insert_eq.
      cbn [api_key set_api_key].
      destruct (getenv "OPENROUTER_API_KEY"); [done|discriminate].
  - apply map_Forall_insert_2; [by destruct (given _)|].
    apply map_Forall_insert_2; [by destruct (given _)|]. apply map_Forall_empty.
Qed.

Lemma sound_setup_provider m p key new_model :
  sound m -> sound (snd (setup_provider m p key new_model)).
Proof.
  intros [[Hu Hs] Hf].
  pose proof (setup_provider_cases m p key new_model) as Hc.
  destruct (setup_provider m p key new_model) as [ok m']. cbn [snd fst] in *.
  destruct Hc as [[_ ->]|(c0 & c & H0 & Hty & Hk & Hcf & Hrest)]; [by split|].
  assert (supported c = true) as Hsup.
  { unfold supported. rewrite Hty. unfold config_to_set_up in H0.
    destruct (configs m !! p) as [c1|] eqn:Hl.
    - injection H0 as <-. apply (Hs p c1 Hl).
    - destruct (String.eqb p "anthropic"); [by injection H0 as <-|].
      destruct (String.eqb p "openrouter"); [by injection H0 as <-|done]. }
  assert (map_Forall (fun _ config => supported config = true) (configs m')) as Hs'.
  { rewrite Hcf. by apply map_Forall_insert_2. }
  assert (usable_current (configs m') (current_provider m') = true) as Hu'.
  { rewrite Hcf.
    destruct Hrest as [(_ & Hn & Hl & -> & _)|(_ & Hn & -> & _)].
    - apply usable_current_insert; [done|]. intros Hcur Hp. apply Hk.
      unfold usable_current in Hu. rewrite Hcur, Hp, Hl in Hu. exact Hu.
    - destruct (given (current_provider m)) eqn:Hg.
      + apply usable_current_insert; [done|]. by intros _ _.
      + unfold usable_current. destruct (nonempty p); [|done].
        by rewrite lookup_insert_eq. }
  split; [by split|]. intros d Hd.
  destruct Hrest as [(_ & _ & _ & _ & Hfile)|(_ & _ & _ & [Hfile|Hfile])].
  - apply Hf. by rewrite <- Hfile.
  - apply Hf. by rewrite <- Hfile.
  - rewrite Hfile in Hd. injection Hd as <-. by split.
Qed.

Lemma sound_set_provider m p : sound m -> sound (snd (set_provider m p)).
Proof.
  intros [[Hu Hs] Hf]. unfold set_provider.
  destruct (configs m !! p) as [c|] eqn:Hc; [|by split].
  destruct (nonempty (api_key c)) eqn:Hn; [|by split]. cbn [snd].
  apply sound_data_file; [|done]. cbn [configs current_provider].
  split; [|done]. cbn [fst snd]. unfold usable_current. rewrite Hc.
  by destruct (nonempty p).
Qed.

Lemma reachable_sound m : reachable m -> sound m.
Proof.
  induction 1 as [| |m p key new_model _ IH|m p _ IH|m d _ IH Hd].
  - apply sound_new_manager_default.
  - apply sound_new_manager_default.
  - by apply sound_setup_provider.
  - by apply sound_set_provider.
  - destruct IH as [_ Hf]. specialize (Hf d Hd). destruct d as [cfgs cur].
    split; [done|]. cbn. by intros d' [= <-].
Qed.

(** X24.  In every manager that arises from a start without a usable file,
    by [setup_provider] and [set_provider] and by new starts on the file
    that the manager wrote, the configuration that [get_current_config]
    returns has an API key and a provider type for which the agent can
    build a client. *)
Theorem current_provider_always_has_a_key m :
  reachable m ->
  forall config, get_current_config m = Some config ->
    nonempty (api_key config) = true /\ supported config = true.
Proof.
  intros [[Hu Hs] _]%reachable_sound config. unfold get_current_config.
  cbn [fst snd] in *. unfold usable_current in Hu.
  destruct (current_provider m) as [p|]; [|done].
  destruct (nonempty p); [|done]. intros Hc. rewrite Hc in Hu. split; [done|].
  apply (Hs p config Hc).
Qed.

(** X25.  With such a manager the constructor of the runner raises nothing
    but [RuntimeError], and that only when there is no current
    configuration; otherwise it yields the absolute workspace and an agent
    with the type, the non-empty key and the model of the current
    configuration. *)
Theorem runner_needs_only_a_provider m workspace_dir w :
  reachable m ->
  match runner_init m workspace_dir w with
  | inl e =>
      e = RuntimeError "No Claude provider configured"
      /\ get_current_config m = None
  | inr (dir, (provider, key, model_name)) =>
      dir = PosixPath.abspath (cwd w) workspace_dir
      /\ nonempty key = true
      /\ exists config,
           get_current_config m = Some config
           /\ (provider, key, model_name)
              = (provider_type config, api_key config, model config)
  end.
Proof.
  intros [[Hu Hs] _]%reachable_sound. unfold runner_init, ensure_provider_setup.
  unfold get_current_config. cbn [fst snd] in *. unfold usable_current in Hu.
  destruct (current_provider m) as [p|]; [|done].
  destruct (nonempty p); [|done].
  destruct (configs m !! p) as [c|] eqn:Hc; [|done]. rewrite Hu. cbn [negb].
  specialize (Hs p c Hc). cbn in Hs. unfold supported in Hs. unfold agent_init.
  destruct (String.eqb (provider_type c) "anthropic"); [by eauto|].
  cbn [orb] in Hs. rewrite Hs. by eauto.
Qed.

(** X26.  Where the configuration file can be written, it holds the
    providers and the current provider of the manager after every
    [setup_provider] and [set_provider] that returns [True]; a
    [setup_provider] that returns [False] leaves the file as it was, and a
    [set_provider] that returns [False] leaves the manager as it was.  A
    successful [set_provider] changes the current provider only. *)
Theorem successful_change_is_saved m p key new_model :
  save_succeeds = true ->
  (let '(ok, m') := setup_provider m p key new_model in
   if ok then config_file m' = Some (configs m', current_provider m')
   else config_file m' = config_file m)
  /\ (let '(ok, m') := set_provider m p in
      if ok then config_file m' = Some (configs m', current_provider m')
                 /\ configs m' = configs m /\ current_provider m' = Some p
      else m' = m).
Proof.
  intros Hsave. split.
  - unfold setup_provider. destruct (config_to_set_up m p); [|done].
    destruct (update_api_key _ _ _); [|done].
    destruct (negb _); [by destruct (bool_decide _)|].
    unfold save_config. by rewrite Hsave.
  - unfold set_provider. destruct (configs m !! p) as [c|]; [|done].
    destruct (nonempty (api_key c)); [|done]. unfold save_config. by rewrite Hsave.
Qed.

(** X27.  A [setup_provider] that fails is not without effect: for a
    provider that is configured without a key, with no key passed, none in
    the environment and an empty answer at the prompt, a call that names a
    model returns [False] and yet leaves the model in the configuration of
    the manager, while the file stays as it was. *)
Theorem failed_setup_still_changes_the_model m p config new_model :
  configs m !! p = Some config -> api_key config = "" ->
  (forall k, getenv k = None) -> (forall prompt, getpass prompt = Some "") ->
  new_model <> "" ->
  setup_provider m p None (Some new_model)
  = (false, {| configs := <[p := set_model config new_model]> (configs m);
               current_provider := current_provider m;
               config_file := config_file m |}).
Proof.
  intros Hc Hk Henv Hpass Hm. unfold setup_provider, config_to_set_up. rewrite Hc.
  assert (update_api_key p None config = Some (set_api_key config "")) as ->.
  { unfold update_api_key. cbn [given]. rewrite Hk. cbn [nonempty String.eqb negb].
    by rewrite Henv, Hpass. }
  assert (given (Some new_model) = true) as ->.
  { cbn [given]. unfold nonempty. apply String.eqb_neq in Hm. by rewrite Hm. }
  cbn [default api_key set_model set_api_key nonempty String.eqb negb].
  rewrite bool_decide_eq_true_2 by eauto.
  do 3 f_equal. by destruct config; cbn in *; subst.
Qed.
End ProviderFacts.

(** A machine with an Anthropic key in the environment is ready from the
    start, and stays so. *)
Lemma provider_stays_ready_witness :
  let m := Provider.new_manager (host := example_host) Provider.Absent in
  Provider.ensure_provider_setup m = true
  /\ (forall p key new_model,
        Provider.ensure_provider_setup
          (snd (Provider.setup_provider (host := example_host) m p key new_model)) = true)
  /\ (forall p, p <> "" ->
        Provider.ensure_provider_setup
          (snd (Provider.set_provider (host := example_host) m p)) = true).
Proof.
  cbv zeta. split; [vm_compute; reflexivity|].
  apply (provider_stays_ready (host := example_host)
           (Provider.new_manager (host := example_host) Provider.Absent)).
  vm_compute; reflexivity.
Defined.

(** A machine without a key, on which OpenRouter is set up with a key. *)
Lemma current_provider_witness :
  let m := snd (Provider.setup_provider (host := bare_host)
                  (Provider.new_manager (host := bare_host) Provider.Absent)
                  "openrouter" (Some "sk-or-example") None) in
  reachable (host := bare_host) m
  /\ Provider.get_current_config m
     = Some (Provider.set_api_key Provider.openrouter_default "sk-or-example")
  /\ Provider.nonempty
       (Provider.api_key
          (Provider.set_api_key Provider.openrouter_default "sk-or-example")) = true
  /\ supported (Provider.set_api_key Provider.openrouter_default "sk-or-example") = true.
Proof.
  cbv zeta.
  assert (reachable (host := bare_host)
            (snd (Provider.setup_provider (host := bare_host)
                    (Provider.new_manager (host := bare_host) Provider.Absent)
                    "openrouter" (Some "sk-or-example") None))) as Hr.
  { apply reach_setup, reach_absent. }
  split; [exact Hr|]. split; [vm_compute; reflexivity|].
  apply (current_provider_always_has_a_key (host := bare_host) _ Hr).
  vm_compute; reflexivity.
Defined.

(** The runner on the same manager, started in [/home/dev] on the workspace
    [../../tmp/ws]. *)
Lemma runner_init_witness :
  let m := snd (Provider.setup_provider (host := bare_host)
                  (Provider.new_manager (host := bare_host) Provider.Absent)
                  "openrouter" (Some "sk-or-example") None) in
  reachable (host := bare_host) m
  /\ runner_init m "../../tmp/ws" example_world
     = inr ("/tmp/ws", ("openrouter", "sk-or-example", "anthropic/claude-3-sonnet"))
  /\ match runner_init m "../../tmp/ws" example_world with
     | inl e =>
         e = RuntimeError "No Claude provider configured"
         /\ Provider.get_current_config m = None
     | inr (dir, (provider, key, model_name)) =>
         dir = PosixPath.abspath (cwd example_world) "../../tmp/ws"
         /\ Provider.nonempty key = true
         /\ exists config,
              Provider.get_current_config m = Some config
              /\ (provider, key, model_name)
                 = (Provider.provider_type config, Provider.api_key config,
                    Provider.model config)
     end.
Proof.
  cbv zeta.
  assert (reachable (host := bare_host)
            (snd (Provider.setup_provider (host := bare_host)
                    (Provider.new_manager (host := bare_host) Provider.Absent)
                    "openrouter" (Some "sk-or-example") None))) as Hr.
  { apply reach_setup, reach_absent. }
  split; [exact Hr|]. split; [vm_compute; reflexivity|].
  exact (runner_needs_only_a_provider (host := bare_host) _ "../../tmp/ws"
           example_world Hr).
Defined.

(** Switching to a provider without a key changes nothing; setting one up
    with a key is saved. *)
Lemma successful_change_witness :
  let m := Provider.new_manager (host := example_host) Provider.Absent in
  Provider.save_succeeds (Host := example_host) = true
  /\ fst (Provider.setup_provider (host := example_host) m "openrouter"
            (Some "sk-or-example") None) = true
  /\ fst (Provider.set_provider (host := example_host) m "openrouter") = false
  /\ (let '(ok, m') :=
        Provider.setup_provider (host := example_host) m "openrouter"
          (Some "sk-or-example") None in
      if ok
      then Provider.config_file m'
           = Some (Provider.configs m', Provider.current_provider m')
      else Provider.config_file m' = Provider.config_file m)
  /\ (let '(ok, m') := Provider.set_provider (host := example_host) m "openrouter" in
      if ok
      then Provider.config_file m'
           = Some (Provider.configs m', Provider.current_provider m')
           /\ Provider.configs m' = Provider.configs m
           /\ Provider.current_provider m' = Some "openrouter"
      else m' = m).
Proof.
  cbv zeta. split; [reflexivity|]. split; [vm_compute; reflexivity|].
  split; [vm_compute; reflexivity|].
  apply (successful_change_is_saved (host := example_host)
           (Provider.new_manager (host := example_host) Provider.Absent)
           "openrouter" (Some "sk-or-example") None).
  reflexivity.
Defined.

(** On the machine without a key: the setup of [anthropic] with a model
    fails, and the manager holds the model. *)
Lemma failed_setup_witness :
  let m := Provider.new_manager (host := bare_host) Provider.Absent in
  Provider.configs m !! "anthropic" = Some Provider.anthropic_default
  /\ Provider.api_key Provider.anthropic_default = ""
  /\ (forall k, Provider.getenv (Host := bare_host) k = None)
  /\ (forall prompt, Provider.getpass (Host := bare_host) prompt = Some "")
  /\ "claude-3-opus-20240229" <> ""
  /\ Provider.setup_provider (host := bare_host) m "anthropic" None
       (Some "claude-3-opus-20240229")
     = (false,
        {| Provider.configs :=
             <[ "anthropic" := Provider.set_model Provider.anthropic_default
                                 "claude-3-opus-20240229" ]> (Provider.configs m);
           Provider.current_provider := Provider.current_provider m;
           Provider.config_file := Provider.config_file m |}).
Proof.
  cbv zeta. split; [vm_compute; reflexivity|]. split; [reflexivity|].
  split; [reflexivity|]. split; [reflexivity|]. split; [discriminate|].
  apply (failed_setup_still_changes_the_model (host := bare_host)
           (Provider.new_manager (host := bare_host) Provider.Absent)
           "anthropic" Provider.anthropic_default "claude-3-opus-20240229").
  - vm_compute; reflexivity.
  - reflexivity.
  - reflexivity.
  - reflexivity.
  - discriminate.
Defined.

(** ** The batch command *)

Section BatchFacts.
Import Cli.
Context {oracles : Oracles}.





End BatchFacts.
